(** * go-http-middlewares: tracing and metrics wrappers over net/http

    A shallow embedding of the three packages of the repository:

    - [middlewares]: a [Middleware] maps a next handler to a handler, and a
      [Handler] is an [http.Handler] that also has the error-returning
      method [HandleHTTP] (the optional field of [http.Handler] below);
    - [opentracing]: [Option], [RoundTripper], [ServerHandler], [Middleware];
    - [prometheus]: [Option], [ServerHandler], [Middleware].

    The wrappers are glue around collaborators that live outside the
    repository: the wrapped handler or transport, the tracer and its spans,
    the metrics vectors, the clock and the hooks of the configuration.  The
    embedding keeps these apart from the wrapper's own steps:

    - the collaborators act on an abstract external state [E] and nothing
      else;
    - every call a wrapper makes to a collaborator is appended, with its
      arguments, to a journal kept beside the external state, so that "how
      many times, in which order and with which arguments" can be stated
      about the wrapper itself;
    - a Go function body is a computation in a state monad with panics, and
      [defer] is the combinator that runs the deferred call on every exit of
      the rest of the body, on a normal return as on a panic.

    Library calls (tracer, span, metrics vector, clock) and the hooks of the
    configuration are total on [E]; the delegated handler or transport may
    return normally, return an error, or panic; calling a nil function value
    or a method of a nil interface panics. *)

From Stdlib Require Import ZArith List Bool Lia.
From stdpp Require Import base option list gmap strings pretty.

Local Open Scope string_scope.

(* ===================================================================== *)
(** ** The Go runtime: outcomes, the monad of a function body, defer     *)
(* ===================================================================== *)

Module go.

(** How a call ends: it returns a value, or it unwinds with a panic. *)
Inductive outcome (A : Type) : Type :=
| Done (a : A)
| Panic (v : string).

Arguments Done {A} a.
Arguments Panic {A} v.

(** The "error" interface: nil, or an error with its message. *)
Definition error : Type := option string.

(** A function body over a mutable state [S]. *)
Definition M (S A : Type) : Type := S -> outcome A * S.

Definition ret {S A} (a : A) : M S A := fun s => (Done a, s).

Definition bind {S A B} (c : M S A) (k : A -> M S B) : M S B :=
  fun s =>
    match c s with
    | (Done a, s1) => k a s1
    | (Panic v, s1) => (Panic v, s1)
    end.

Definition panic {S A} (v : string) : M S A := fun s => (Panic v, s).

Definition gets {S A} (f : S -> A) : M S A := fun s => (Done (f s), s).

Definition modify {S} (f : S -> S) : M S unit := fun s => (Done tt, f s).

(** [defer d rest]: the statement [defer d] followed by the rest of the
    function body.  The deferred call runs when [rest] is left, whether by a
    return or by a panic; a panic of the deferred call replaces the result. *)
Definition defer {S A} (d : M S unit) (rest : M S A) : M S A :=
  fun s =>
    match rest s with
    | (r, s1) =>
        match d s1 with
        | (Done _, s2) => (r, s2)
        | (Panic v, s2) => (Panic v, s2)
        end
    end.

(** How a surface with no result, or with an error result, presents the
    outcome of a call. *)
Definition as_plain {A} (o : outcome A) : outcome unit :=
  match o with
  | Done _ => Done tt
  | Panic v => Panic v
  end.

Definition as_nil_error {A} (o : outcome A) : outcome error :=
  match o with
  | Done _ => Done None
  | Panic v => Panic v
  end.

(** The runtime error of calling through a nil function or interface. *)
Definition nil_dereference : string :=
  "invalid memory address or nil pointer dereference".

End go.

Export go.

Declare Scope go_scope.
Delimit Scope go_scope with go.
Notation "'let*' x ':=' c 'in' k" := (bind c (fun x => k))
  (at level 10, x pattern, c at level 100, k at level 200) : go_scope.
Notation "c '>>' k" := (bind c (fun _ => k))
  (at level 100, k at level 200, right associativity) : go_scope.
Local Open Scope go_scope.

(* ===================================================================== *)
(** ** The collaborators: opentracing-go, net/http, client_golang         *)
(* ===================================================================== *)

(** What the repository uses of github.com/opentracing/opentracing-go and
    its [ext] package.  These are not part of the repository; the
    definitions follow the library's documented behaviour. *)
Module opentracing_go.

(** A span context: the serialisable identity of a span.  Opaque here. *)
Definition SpanContext : Type := N.

(** A span is a handle given out by a tracer; [Context] is its
    [Context()] method. *)
Record Span : Type := {
  sid : N;
  Context : SpanContext;
}.

Inductive SpanReferenceType : Type := ChildOfRef | FollowsFromRef.

(** The values of the interface [StartSpanOption] that the repository
    builds: [opentracing.ChildOf(sc)], a tag such as
    [ext.SpanKindRPCClient], and [ext.RPCServerOption(sc)].  A span context
    is an interface value and may be nil. *)
Inductive StartSpanOption : Type :=
| ChildOf (sc : option SpanContext)
| Tag (key value : string)
| RPCServerOption (client : option SpanContext).

(** [opentracing.StartSpanOptions], the record the options fill. *)
Record StartSpanOptions : Type := {
  References : list (SpanReferenceType * SpanContext);
  Tags : gmap string string;
}.

Definition no_options : StartSpanOptions :=
  {| References := []; Tags := ∅ |}.

Definition add_reference (o : StartSpanOptions) (sc : option SpanContext)
  : StartSpanOptions :=
  match sc with
  | Some c => {| References := References o ++ [(ChildOfRef, c)];
                 Tags := Tags o |}
  | None => o
  end.

Definition add_tag (o : StartSpanOptions) (k v : string) : StartSpanOptions :=
  {| References := References o; Tags := <[k := v]> (Tags o) |}.

(** The [Apply] method of each option: a reference to a nil context is
    dropped; [RPCServerOption] adds the reference when the client context is
    not nil and always tags the span as a server span. *)
Definition Apply (opt : StartSpanOption) (o : StartSpanOptions)
  : StartSpanOptions :=
  match opt with
  | ChildOf sc => add_reference o sc
  | Tag k v => add_tag o k v
  | RPCServerOption client => add_tag (add_reference o client) "span.kind" "server"
  end.

(** What [StartSpan] makes of its variadic options. *)
Definition apply_all (opts : list StartSpanOption) : StartSpanOptions :=
  fold_left (fun o opt => Apply opt o) opts no_options.

(** A span with no reference is a root span. *)
Definition is_root (o : StartSpanOptions) : bool :=
  match References o with [] => true | _ => false end.

Definition is_child_of (c : SpanContext) (o : StartSpanOptions) : Prop :=
  References o = [(ChildOfRef, c)].

(** The interface [opentracing.Tracer] over an external state [E].
    [Inject] writes into the carrier, a map it shares with the request; here
    it returns the carrier it leaves behind. *)
Record Tracer (E : Type) : Type := {
  StartSpan : string -> list StartSpanOption -> E -> Span * E;
  Inject : SpanContext -> gmap string (list string) -> E
           -> (gmap string (list string) * error) * E;
  Extract : gmap string (list string) -> E -> (option SpanContext * error) * E;
}.

Arguments StartSpan {E} _ _ _ _.
Arguments Inject {E} _ _ _ _.
Arguments Extract {E} _ _ _.

(** [opentracing.NoopTracer], the tracer in effect when none is installed:
    one span for everything, nothing recorded, nothing written. *)
Definition NoopTracer {E : Type} : Tracer E :=
  {| StartSpan := fun _ _ e => ({| sid := 0%N; Context := 0%N |}, e);
     Inject := fun _ carrier e => ((carrier, None), e);
     Extract := fun _ e => ((Some 0%N, None), e) |}.

End opentracing_go.

Module ext.

Import opentracing_go.

Definition SpanKindRPCClient : StartSpanOption := Tag "span.kind" "client".

(** The tag names behind [ext.HTTPMethod], [ext.Component], [ext.HTTPUrl]. *)
Definition HTTPMethod : string := "http.method".
Definition Component : string := "component".
Definition HTTPUrl : string := "http.url".

End ext.

Module http.

Record URL : Type := {
  Path : string;
  (* what the method String() renders *)
  String : string;
}.

(** A request.  [Header] is the header map; [Ctx] is the active span held
    by the request's context, the one value of the context that the
    wrappers read or set. *)
Record Request : Type := {
  Method : string;
  Url : URL;
  Header : gmap string (list string);
  Ctx : option opentracing_go.Span;
}.

(** [opentracing.SpanFromContext(req.Context())] *)
Definition SpanFromContext (r : Request) : option opentracing_go.Span := Ctx r.

(** [r.WithContext(opentracing.ContextWithSpan(r.Context(), sp))]: a shallow
    copy of the request that holds the span. *)
Definition WithSpan (r : Request) (sp : opentracing_go.Span) : Request :=
  {| Method := Method r; Url := Url r; Header := Header r; Ctx := Some sp |}.

(** The request as the tracer leaves it after writing into its header map. *)
Definition WithHeader (r : Request) (h : gmap string (list string)) : Request :=
  {| Method := Method r; Url := Url r; Header := h; Ctx := Ctx r |}.

(** A response writer is a handle; [HasStatusCode] tells whether its
    dynamic type has the method [StatusCode() int]. *)
Record ResponseWriter : Type := {
  wid : N;
  HasStatusCode : bool;
}.

Record Response : Type := {
  Status : Z;
}.

(** A non-nil [http.Handler].  [HandleHTTP] is present when the dynamic type
    also implements [middlewares.Handler]. *)
Record Handler (E : Type) : Type := {
  hid : N;
  ServeHTTP : ResponseWriter -> Request -> E -> outcome unit * E;
  HandleHTTP : option (ResponseWriter -> Request -> E -> outcome error * E);
}.

Arguments hid {E} _.
Arguments ServeHTTP {E} _ _ _ _.
Arguments HandleHTTP {E} _.

(** A non-nil [http.RoundTripper]. *)
Record RoundTripper (E : Type) : Type := {
  tid : N;
  RoundTrip : Request -> E -> outcome (option Response * error) * E;
}.

Arguments tid {E} _.
Arguments RoundTrip {E} _ _ _.

End http.

(** What the repository uses of github.com/prometheus/client_golang. *)
Module client_golang.

(** [prometheus.Labels] is a [map[string]string]. *)

Record Opts : Type := {
  Namespace : string;
  Subsystem : string;
  Name : string;
  Help : string;
  (* histograms only; upper bounds in milliseconds *)
  Buckets : list Z;
}.

(** Handles of a registerer and of the vectors a factory returns. *)
Definition Registerer : Type := N.
Record CounterVec : Type := { cv : N }.
Record HistogramVec : Type := { hv : N }.

End client_golang.

(* ===================================================================== *)
(** ** The journal of calls and the world a wrapper runs in               *)
(* ===================================================================== *)

Module world.

Import opentracing_go http client_golang.

(** One entry per call that a wrapper makes to a collaborator. *)
Inductive Event : Type :=
| CallStart (w : ResponseWriter) (r : Request)
| CallExtract (carrier : gmap string (list string))
| CallStartSpan (name : string) (opts : list StartSpanOption)
| CallSetTag (sp : Span) (key value : string)
| CallSpanObserver (r : Request) (sp : Span)
| CallInject (sc : SpanContext) (carrier : gmap string (list string))
| CallEnd (w : ResponseWriter) (r : Request) (sp : Span)
| CallFinish (sp : Span)
| CallServeHTTP (h : N) (w : ResponseWriter) (r : Request)
| CallHandleHTTP (h : N) (w : ResponseWriter) (r : Request)
| CallRoundTrip (t : N) (r : Request)
| CallNewCounterVec (reg : Registerer) (o : Opts) (labels : list string)
| CallNewHistogramVec (reg : Registerer) (o : Opts) (labels : list string)
| CallInc (c : CounterVec) (labels : gmap string string)
| CallObserve (h : HistogramVec) (labels : gmap string string) (elapsed : Z).

Definition is_start_hook (e : Event) : bool :=
  match e with CallStart _ _ => true | _ => false end.
Definition is_start_span (e : Event) : bool :=
  match e with CallStartSpan _ _ => true | _ => false end.
Definition is_finish (e : Event) : bool :=
  match e with CallFinish _ => true | _ => false end.
Definition is_inject (e : Event) : bool :=
  match e with CallInject _ _ => true | _ => false end.
Definition is_extract (e : Event) : bool :=
  match e with CallExtract _ => true | _ => false end.
Definition is_delegation (e : Event) : bool :=
  match e with
  | CallServeHTTP _ _ _ | CallHandleHTTP _ _ _ | CallRoundTrip _ _ => true
  | _ => false
  end.
Definition is_inc (e : Event) : bool :=
  match e with CallInc _ _ => true | _ => false end.
Definition is_observe (e : Event) : bool :=
  match e with CallObserve _ _ _ => true | _ => false end.

(** The handler that a delegation event names, if it is one. *)
Definition delegated_to (e : Event) : option N :=
  match e with
  | CallServeHTTP h _ _ | CallHandleHTTP h _ _ => Some h
  | _ => None
  end.

(** How many entries of a journal satisfy a test. *)
Definition count (p : Event -> bool) (l : list Event) : nat :=
  length (List.filter p l).

Section World.

Context {E : Type}.

(** The external state and the journal of the calls made so far. *)
Record World : Type := {
  ext : E;
  log : list Event;
}.

(** The package-level collaborators: methods of spans and writers, the
    process-wide tracer and transport, the clock and the metrics library. *)
Record Env : Type := {
  GlobalTracer : E -> Tracer E;
  DefaultTransport : E -> RoundTripper E;
  SetTag : Span -> string -> string -> E -> E;
  Finish : Span -> E -> E;
  StatusCode : ResponseWriter -> E -> Z;
  Now : E -> Z;
  DefaultRegisterer : Registerer;
  NewCounterVec : Registerer -> Opts -> list string -> E -> CounterVec * E;
  NewHistogramVec : Registerer -> Opts -> list string -> E -> HistogramVec * E;
  Inc : CounterVec -> gmap string string -> E -> E;
  Observe : HistogramVec -> gmap string string -> Z -> E -> E;
}.

Definition emit (ev : Event) : M World unit :=
  modify (fun s => {| ext := ext s; log := log s ++ [ev] |}).

(** A total collaborator that returns a value. *)
Definition extern {A} (f : E -> A * E) : M World A :=
  fun s => let '(a, e) := f (ext s) in (Done a, {| ext := e; log := log s |}).

(** A total collaborator that returns nothing. *)
Definition effect (f : E -> E) : M World unit :=
  extern (fun e => (tt, f e)).

(** A collaborator that may panic. *)
Definition invoke {A} (f : E -> outcome A * E) : M World A :=
  fun s => let '(o, e) := f (ext s) in (o, {| ext := e; log := log s |}).

(** Reading the external state. *)
Definition observe {A} (f : E -> A) : M World A := gets (fun s => f (ext s)).

(** The entries a run has added to the journal. *)
Definition added (s s' : World) : list Event := drop (length (log s)) (log s').

End World.

Arguments World E : clear implicits.
Arguments Env E : clear implicits.

End world.

(* ===================================================================== *)
(** ** Package opentracing                                                *)
(* ===================================================================== *)

Module opentracing.

Import world.

Section Package.

Context {E : Type} (env : Env E).

(** *** Option (option.go) *)

(** A field of function type is nil or a function.  The naming functions
    and the filter are functions of the request; the observer acts on the
    span, hence on the external state. *)
Record Option : Type := {
  Tracer : option (opentracing_go.Tracer E);
  ComponentName : string;
  ComponentNameFunc : option (http.Request -> string);
  URLTagFunc : option (http.URL -> string);
  SpanFilter : option (http.Request -> bool);
  OperationNameFunc : option (http.Request -> string);
  SpanObserver : option (http.Request -> opentracing_go.Span -> E -> E);
}.

(** The zero value of the struct. *)
Definition zero_Option : Option :=
  {| Tracer := None; ComponentName := ""; ComponentNameFunc := None;
     URLTagFunc := None; SpanFilter := None; OperationNameFunc := None;
     SpanObserver := None |}.

(** The function literals of [Init]. *)
Definition default_ComponentNameFunc : http.Request -> string :=
  fun _ => "net/http".
Definition default_URLTagFunc : http.URL -> string :=
  fun u => http.String u.
Definition default_SpanFilter : http.Request -> bool :=
  fun _ => false.
Definition default_SpanObserver
  : http.Request -> opentracing_go.Span -> E -> E :=
  fun _ _ e => e.
Definition default_OperationNameFunc : http.Request -> string :=
  fun r => "HTTP " +:+ http.Method r +:+ " " +:+ http.Path (http.Url r).

(** Assignments to single fields. *)
Definition set_ComponentNameFunc (o : Option) f : Option :=
  {| Tracer := Tracer o; ComponentName := ComponentName o;
     ComponentNameFunc := f; URLTagFunc := URLTagFunc o;
     SpanFilter := SpanFilter o; OperationNameFunc := OperationNameFunc o;
     SpanObserver := SpanObserver o |}.
Definition set_URLTagFunc (o : Option) f : Option :=
  {| Tracer := Tracer o; ComponentName := ComponentName o;
     ComponentNameFunc := ComponentNameFunc o; URLTagFunc := f;
     SpanFilter := SpanFilter o; OperationNameFunc := OperationNameFunc o;
     SpanObserver := SpanObserver o |}.
Definition set_SpanFilter (o : Option) f : Option :=
  {| Tracer := Tracer o; ComponentName := ComponentName o;
     ComponentNameFunc := ComponentNameFunc o; URLTagFunc := URLTagFunc o;
     SpanFilter := f; OperationNameFunc := OperationNameFunc o;
     SpanObserver := SpanObserver o |}.
Definition set_SpanObserver (o : Option) f : Option :=
  {| Tracer := Tracer o; ComponentName := ComponentName o;
     ComponentNameFunc := ComponentNameFunc o; URLTagFunc := URLTagFunc o;
     SpanFilter := SpanFilter o; OperationNameFunc := OperationNameFunc o;
     SpanObserver := f |}.
Definition set_OperationNameFunc (o : Option) f : Option :=
  {| Tracer := Tracer o; ComponentName := ComponentName o;
     ComponentNameFunc := ComponentNameFunc o; URLTagFunc := URLTagFunc o;
     SpanFilter := SpanFilter o; OperationNameFunc := f;
     SpanObserver := SpanObserver o |}.

Definition set_Tracer (o : Option) t : Option :=
  {| Tracer := t; ComponentName := ComponentName o;
     ComponentNameFunc := ComponentNameFunc o; URLTagFunc := URLTagFunc o;
     SpanFilter := SpanFilter o; OperationNameFunc := OperationNameFunc o;
     SpanObserver := SpanObserver o |}.

(** [func (o *Option) Init()]: the option after the call. *)
Definition Init (o : Option) : Option :=
  let o := if ComponentNameFunc o is Some _
           then o else set_ComponentNameFunc o (Some default_ComponentNameFunc) in
  let o := if URLTagFunc o is Some _
           then o else set_URLTagFunc o (Some default_URLTagFunc) in
  let o := if SpanFilter o is Some _
           then o else set_SpanFilter o (Some default_SpanFilter) in
  let o := if SpanObserver o is Some _
           then o else set_SpanObserver o (Some default_SpanObserver) in
  let o := if OperationNameFunc o is Some _
           then o else set_OperationNameFunc o (Some default_OperationNameFunc) in
  o.

(** Fetching a function value in order to call it: nil panics. *)
Definition nonnil {A} (f : option A) : M (World E) A :=
  match f with
  | Some a => ret a
  | None => panic nil_dereference
  end.

(** [func (o *Option) GetComponentName(req) string] *)
Definition GetComponentName (o : Option) (req : http.Request)
  : M (World E) string :=
  if String.eqb (ComponentName o) ""
  then let* f := nonnil (ComponentNameFunc o) in ret (f req)
  else ret (ComponentName o).

(** [func (o *Option) GetTracer() opentracing.Tracer] *)
Definition GetTracer (o : Option) : M (World E) (opentracing_go.Tracer E) :=
  match Tracer o with
  | Some t => ret t
  | None => observe (GlobalTracer env)
  end.

(** *** The calls on a span *)

(** [tag.Set(sp, value)], that is [sp.SetTag(tag, value)]. *)
Definition tag_Set (tag : string) (sp : opentracing_go.Span) (value : string)
  : M (World E) unit :=
  emit (CallSetTag sp tag value) >> effect (SetTag env sp tag value).

(** [sp.Finish()] *)
Definition finish (sp : opentracing_go.Span) : M (World E) unit :=
  emit (CallFinish sp) >> effect (Finish env sp).

(** [tracer.StartSpan(name, opts...)] *)
Definition startSpan (tracer : opentracing_go.Tracer E) (name : string)
  (opts : list opentracing_go.StartSpanOption)
  : M (World E) opentracing_go.Span :=
  emit (CallStartSpan name opts) >>
  extern (opentracing_go.StartSpan tracer name opts).

(** [o.SpanObserver(req, sp)] *)
Definition spanObserver (o : Option) (req : http.Request)
  (sp : opentracing_go.Span) : M (World E) unit :=
  let* f := nonnil (SpanObserver o) in
  emit (CallSpanObserver req sp) >> effect (f req sp).

(** *** RoundTripper (roundtripper.go) *)

(** The struct embeds an [http.RoundTripper], which may be nil, and an
    [Option]. *)
Record RoundTripper : Type := {
  rt_RoundTripper : option (http.RoundTripper E);
  rt_Option : Option;
}.

(** [func NewRoundTripper(rt http.RoundTripper) *RoundTripper] *)
Definition NewRoundTripper (rt : option (http.RoundTripper E)) : RoundTripper :=
  {| rt_RoundTripper := rt; rt_Option := Init zero_Option |}.

(** [func (rt *RoundTripper) WrappedRoundTripper() http.RoundTripper] *)
Definition WrappedRoundTripper (rt : RoundTripper)
  : option (http.RoundTripper E) := rt_RoundTripper rt.

(** [t.RoundTrip(req)] on a transport. *)
Definition transport_RoundTrip (t : http.RoundTripper E) (req : http.Request)
  : M (World E) (option http.Response * error) :=
  emit (CallRoundTrip (http.tid t) req) >> invoke (http.RoundTrip t req).

(** [func (rt *RoundTripper) roundTrip(req)] *)
Definition roundTrip (rt : RoundTripper) (req : http.Request)
  : M (World E) (option http.Response * error) :=
  match rt_RoundTripper rt with
  | None =>
      let* t := observe (DefaultTransport env) in
      transport_RoundTrip t req
  | Some t => transport_RoundTrip t req
  end.

(** [func (rt *RoundTripper) RoundTrip(req)] *)
Definition RoundTrip (rt : RoundTripper) (req : http.Request)
  : M (World E) (option http.Response * error) :=
  let* filter := nonnil (SpanFilter (rt_Option rt)) in
  if filter req then roundTrip rt req
  else
    let opts :=
      match http.SpanFromContext req with
      | Some pspan =>
          [opentracing_go.ChildOf (Some (opentracing_go.Context pspan))]
      | None => [ext.SpanKindRPCClient]
      end in
    let* tracer := GetTracer (rt_Option rt) in
    let* name := (let* f := nonnil (OperationNameFunc (rt_Option rt)) in
                  ret (f req)) in
    let* sp := startSpan tracer name opts in
    let* url := (let* f := nonnil (URLTagFunc (rt_Option rt)) in
                 ret (f (http.Url req))) in
    tag_Set ext.HTTPUrl sp url >>
    let* component := GetComponentName (rt_Option rt) req in
    tag_Set ext.Component sp component >>
    tag_Set ext.HTTPMethod sp (http.Method req) >>
    spanObserver (rt_Option rt) req sp >>
    defer (finish sp)
      (let carrier := http.Header req in
       let* injected :=
         (emit (CallInject (opentracing_go.Context sp) carrier) >>
          extern (opentracing_go.Inject tracer (opentracing_go.Context sp)
                    carrier)) in
       roundTrip rt (http.WithSpan (http.WithHeader req (fst injected)) sp)).

(** *** ServerHandler (server.go) *)

Record ServerHandler : Type := {
  sh_Handler : option (http.Handler E);
  sh_Option : Option;
  Start : option (http.ResponseWriter -> http.Request -> E
                  -> (http.ResponseWriter * http.Request) * E);
  End_ : option (http.ResponseWriter -> http.Request -> opentracing_go.Span
                 -> E -> E);
}.

(** [func NewServerHandler(handler http.Handler) *ServerHandler] *)
Definition NewServerHandler (handler : option (http.Handler E))
  : ServerHandler :=
  {| sh_Handler := handler; sh_Option := Init zero_Option;
     Start := None; End_ := None |}.

(** [func (sh *ServerHandler) WrappedHandler() http.Handler] *)
Definition WrappedHandler (sh : ServerHandler) : option (http.Handler E) :=
  sh_Handler sh.

(** [h.ServeHTTP(w, r)] on an interface value that may be nil. *)
Definition handler_ServeHTTP (h : option (http.Handler E))
  (w : http.ResponseWriter) (r : http.Request) : M (World E) unit :=
  match h with
  | Some hh =>
      emit (CallServeHTTP (http.hid hh) w r) >> invoke (http.ServeHTTP hh w r)
  | None => panic nil_dereference
  end.

(** The body of [Serve] from [tracer := sh.GetTracer()] to its end, on the
    writer and the request that the first part of the body leaves in [w]
    and [r]. *)
Definition serveSpan (sh : ServerHandler) (w : http.ResponseWriter)
  (r : http.Request) : M (World E) unit :=
  let* tracer := GetTracer (sh_Option sh) in
  let* extracted :=
    (emit (CallExtract (http.Header r)) >>
     extern (opentracing_go.Extract tracer (http.Header r))) in
  let sc := fst extracted in
  let* name := (let* f := nonnil (OperationNameFunc (sh_Option sh)) in
                ret (f r)) in
  let* sp := startSpan tracer name [opentracing_go.RPCServerOption sc] in
  tag_Set ext.HTTPMethod sp (http.Method r) >>
  let* component := GetComponentName (sh_Option sh) r in
  tag_Set ext.Component sp component >>
  let* url := (let* f := nonnil (URLTagFunc (sh_Option sh)) in
               ret (f (http.Url r))) in
  tag_Set ext.HTTPUrl sp url >>
  spanObserver (sh_Option sh) r sp >>
  let r := http.WithSpan r sp in
  defer (finish sp)
    (match End_ sh with
     | Some f =>
         defer (emit (CallEnd w r sp) >> effect (f w r sp))
           (handler_ServeHTTP (sh_Handler sh) w r)
     | None => handler_ServeHTTP (sh_Handler sh) w r
     end).

(** [func (sh *ServerHandler) Serve(h http.Handler, w, r)].  The parameter
    [h] does not occur in the body. *)
Definition Serve (sh : ServerHandler) (h : option (http.Handler E))
  (w : http.ResponseWriter) (r : http.Request) : M (World E) unit :=
  let* filter := nonnil (SpanFilter (sh_Option sh)) in
  if filter r then handler_ServeHTTP (sh_Handler sh) w r
  else
    let* wr :=
      match Start sh with
      | Some start => emit (CallStart w r) >> extern (start w r)
      | None => ret (w, r)
      end in
    serveSpan sh (fst wr) (snd wr).

(** [func (sh *ServerHandler) HandleHTTP(rw, req) error], written
    [return sh.Serve(sh.Handler, rw, req)].  [Serve] has no result in this
    package, so the only error this surface can hand back is nil. *)
Definition HandleHTTP (sh : ServerHandler) (rw : http.ResponseWriter)
  (req : http.Request) : M (World E) error :=
  Serve sh (sh_Handler sh) rw req >> ret None.

(** [func (sh *ServerHandler) ServeHTTP(rw, req)] *)
Definition ServeHTTP (sh : ServerHandler) (rw : http.ResponseWriter)
  (req : http.Request) : M (World E) unit :=
  Serve sh (sh_Handler sh) rw req.

(** [func Middleware(sh *ServerHandler) middlewares.Middleware]: [sh.Init()]
    is the promoted [Option.Init]; the result maps the next handler to the
    body of the [http.HandlerFunc] it returns. *)
Definition Middleware (sh : ServerHandler)
  : option (http.Handler E) -> http.ResponseWriter -> http.Request
    -> M (World E) unit :=
  let sh := {| sh_Handler := sh_Handler sh; sh_Option := Init (sh_Option sh);
               Start := Start sh; End_ := End_ sh |} in
  fun wrappedNext rw r => Serve sh wrappedNext rw r.

End Package.

End opentracing.

(* ===================================================================== *)
(** ** Package prometheus                                                 *)
(* ===================================================================== *)

Module prometheus.

Import world.

(** [DefaultHistogramBuckets], in milliseconds: .005 s is 5. *)
Definition DefaultHistogramBuckets : list Z :=
  [5; 10; 25; 50; 75; 100; 250; 500; 750; 1000; 1500; 2000]%Z.

(** [type Option struct]; the embedded registerer may be nil. *)
Record Option : Type := {
  Registerer : option client_golang.Registerer;
  Namespace : string;
  Subsystem : string;
  Buckets : list Z;
  Path : bool;
  Code : bool;
  Method : bool;
}.

Section Package.

Context {E : Type} (env : Env E).

(** [type ServerHandler struct]: the wrapped handler, the option, and the
    private fields that [_init2] fills. *)
Record ServerHandler : Type := {
  sh_Handler : option (http.Handler E);
  sh_Option : Option;
  once : bool;
  labels : list string;
  requestsTotal : option client_golang.CounterVec;
  requestDurations : option client_golang.HistogramVec;
}.

(** [func NewServerHandler(handler http.Handler) *ServerHandler] *)
Definition NewServerHandler (handler : option (http.Handler E))
  : ServerHandler :=
  {| sh_Handler := handler;
     sh_Option := {| Registerer := None; Namespace := ""; Subsystem := "";
                     Buckets := []; Path := false; Code := true;
                     Method := true |};
     once := false; labels := []; requestsTotal := None;
     requestDurations := None |}.

(** [func (sh *ServerHandler) WrappedHandler() http.Handler] *)
Definition WrappedHandler (sh : ServerHandler) : option (http.Handler E) :=
  sh_Handler sh.

(** A method with a pointer receiver runs over the handler it points to and
    the world. *)
Record State : Type := {
  this : ServerHandler;
  world : World E;
}.

Definition liftW {A} (c : M (World E) A) : M State A :=
  fun s => let '(o, w) := c (world s) in (o, {| this := this s; world := w |}).

Definition assign (f : ServerHandler -> ServerHandler) : M State unit :=
  modify (fun s => {| this := f (this s); world := world s |}).

Definition set_labels (l : list string) (sh : ServerHandler) : ServerHandler :=
  {| sh_Handler := sh_Handler sh; sh_Option := sh_Option sh; once := once sh;
     labels := l; requestsTotal := requestsTotal sh;
     requestDurations := requestDurations sh |}.
Definition set_requestsTotal (c : client_golang.CounterVec)
  (sh : ServerHandler) : ServerHandler :=
  {| sh_Handler := sh_Handler sh; sh_Option := sh_Option sh; once := once sh;
     labels := labels sh; requestsTotal := Some c;
     requestDurations := requestDurations sh |}.
Definition set_requestDurations (h : client_golang.HistogramVec)
  (sh : ServerHandler) : ServerHandler :=
  {| sh_Handler := sh_Handler sh; sh_Option := sh_Option sh; once := once sh;
     labels := labels sh; requestsTotal := requestsTotal sh;
     requestDurations := Some h |}.
Definition set_once (sh : ServerHandler) : ServerHandler :=
  {| sh_Handler := sh_Handler sh; sh_Option := sh_Option sh; once := true;
     labels := labels sh; requestsTotal := requestsTotal sh;
     requestDurations := requestDurations sh |}.
Definition set_Option (o : Option) (sh : ServerHandler) : ServerHandler :=
  {| sh_Handler := sh_Handler sh; sh_Option := o; once := once sh;
     labels := labels sh; requestsTotal := requestsTotal sh;
     requestDurations := requestDurations sh |}.

(** The label names that [_init2] appends, in its order. *)
Definition init_labels (o : Option) : list string :=
  let l : list string := [] in
  let l := if Method o then (l ++ ["method"])%list else l in
  let l := if Path o then (l ++ ["path"])%list else l in
  let l := if Code o then (l ++ ["code"])%list else l in
  l.

(** [func (sh *ServerHandler) _init2()] *)
Definition _init2 : M State unit :=
  let* sh := gets this in
  let o := sh_Option sh in
  let _buckets :=
    if (length (Buckets o) =? 0)%nat then DefaultHistogramBuckets
    else Buckets o in
  let buckets := _buckets in
  assign (set_labels (init_labels o)) >>
  let* sh := gets this in
  let reg :=
    match Registerer o with
    | None => DefaultRegisterer env
    | Some r => r
    end in
  let* c :=
    (let opts := {| client_golang.Namespace := Namespace o;
                    client_golang.Subsystem := Subsystem o;
                    client_golang.Name := "http_requests_total";
                    client_golang.Help := "The total number of the http requests";
                    client_golang.Buckets := [] |} in
     liftW (emit (CallNewCounterVec reg opts (labels sh)) >>
            extern (NewCounterVec env reg opts (labels sh)))) in
  assign (set_requestsTotal c) >>
  let* h :=
    (let opts := {| client_golang.Namespace := Namespace o;
                    client_golang.Subsystem := Subsystem o;
                    client_golang.Name := "http_request_duration_seconds";
                    client_golang.Help := "The duration to handle the http request";
                    client_golang.Buckets := buckets |} in
     liftW (emit (CallNewHistogramVec reg opts (labels sh)) >>
            extern (NewHistogramVec env reg opts (labels sh)))) in
  assign (set_requestDurations h).

(** [func (sh *ServerHandler) _init() { sh.once.Do(sh._init2) }]: the
    function runs on the first call only, and the call counts as done
    however the function ends. *)
Definition _init : M State unit :=
  let* sh := gets this in
  if once sh then ret tt else defer (assign set_once) _init2.

(** One turn of the loop of [handle], on [sh.labels[i]]. *)
Definition label_case (name : string) (code : Z) (r : http.Request)
  (m : gmap string string) : gmap string string :=
  if String.eqb name "code" then <["code" := pretty code]> m
  else if String.eqb name "path" then <["path" := http.Path (http.Url r)]> m
  else if String.eqb name "method" then <["method" := http.Method r]> m
  else m.

(** The loop [for _len := len(sh.labels) - 1; _len >= 0; _len--], with [n]
    turns left: the next index is [n - 1]. *)
Fixpoint label_loop (names : list string) (n : nat) (code : Z)
  (r : http.Request) (m : gmap string string) : gmap string string :=
  match n with
  | O => m
  | S i =>
      match names !! i with
      | Some name => label_loop names i code r (label_case name code r m)
      | None => label_loop names i code r m
      end
  end.

(** [func (sh *ServerHandler) handle(w, r, start)] *)
Definition handle (w : http.ResponseWriter) (r : http.Request) (start : Z)
  : M State unit :=
  let* code :=
    (if http.HasStatusCode w then liftW (observe (StatusCode env w))
     else ret 200%Z) in
  let* sh := gets this in
  let labels := label_loop (labels sh) (length (labels sh)) code r ∅ in
  let* c := (match requestsTotal sh with
             | Some c => ret c
             | None => panic nil_dereference
             end) in
  liftW (emit (CallInc c labels) >> effect (Inc env c labels)) >>
  let* sh := gets this in
  let* h := (match requestDurations sh with
             | Some h => ret h
             | None => panic nil_dereference
             end) in
  let* now := liftW (observe (Now env)) in
  let elapsed := (now - start)%Z in
  liftW (emit (CallObserve h labels elapsed) >>
         effect (Observe env h labels elapsed)).

(** [func (sh *ServerHandler) Serve(h http.Handler, w, r) (err error)] *)
Definition Serve (h : option (http.Handler E)) (w : http.ResponseWriter)
  (r : http.Request) : M State error :=
  _init >>
  let* start := liftW (observe (Now env)) in
  defer (handle w r start)
    (match h with
     | Some hh =>
         match http.HandleHTTP hh with
         | Some handleHTTP =>
             liftW (emit (CallHandleHTTP (http.hid hh) w r) >>
                    invoke (handleHTTP w r))
         | None =>
             liftW (emit (CallServeHTTP (http.hid hh) w r) >>
                    invoke (http.ServeHTTP hh w r)) >>
             ret None
         end
     | None => panic nil_dereference
     end).

(** [func (sh *ServerHandler) HandleHTTP(rw, req) error] *)
Definition HandleHTTP (rw : http.ResponseWriter) (req : http.Request)
  : M State error :=
  let* sh := gets this in
  Serve (sh_Handler sh) rw req.

(** [func (sh *ServerHandler) ServeHTTP(rw, req)] *)
Definition ServeHTTP (rw : http.ResponseWriter) (req : http.Request)
  : M State unit :=
  let* sh := gets this in
  Serve (sh_Handler sh) rw req >> ret tt.

(** [func Middleware(option *Option) middlewares.Middleware]: the handler
    that the middleware allocates and initialises when it is built ... *)
Definition Middleware_new (option : option Option) (w : World E) : State :=
  let sh := NewServerHandler None in
  let sh := match option with
            | Some o => set_Option o sh
            | None => sh
            end in
  snd (_init {| this := sh; world := w |}).

(** ... and the body of the [http.HandlerFunc] it returns for a next
    handler. *)
Definition Middleware (wrappedNext : option (http.Handler E))
  (rw : http.ResponseWriter) (r : http.Request) : M State unit :=
  Serve wrappedNext rw r >> ret tt.

End Package.

End prometheus.

(* ===================================================================== *)
(** ** A concrete world: a tracer, handlers and a transport to run on     *)
(* ===================================================================== *)

Module sample.

Import world.

Local Open Scope Z_scope.

(** The external state: a clock, the status the writer has recorded, the
    number of spans handed out and the spans closed so far. *)
Record Ext : Type := {
  clock : Z;
  status : Z;
  issued : N;
  closed : list N;
}.

Definition boot : Ext :=
  {| clock := 1000; status := 200; issued := 0%N; closed := [] |}.

Definition tick (d : Z) (code : Z) (e : Ext) : Ext :=
  {| clock := clock e + d; status := code; issued := issued e;
     closed := closed e |}.

(** A tracer that numbers its spans and carries the context in the header
    [trace-id]. *)
Definition testTracer : opentracing_go.Tracer Ext :=
  {| opentracing_go.StartSpan := fun _ _ e =>
       ({| opentracing_go.sid := (issued e + 1)%N;
           opentracing_go.Context := (issued e + 101)%N |},
        {| clock := clock e; status := status e; issued := (issued e + 1)%N;
           closed := closed e |});
     opentracing_go.Inject := fun sc carrier e =>
       ((<["trace-id" := [pretty sc]]> carrier, None), e);
     opentracing_go.Extract := fun carrier e =>
       match carrier !! "trace-id" with
       | Some [v] =>
           if String.eqb v "7" then ((Some 7%N, None), e)
           else ((None, Some "opentracing: SpanContext data corrupted in Extract carrier"), e)
       | _ => ((None, Some "opentracing: SpanContext not found in Extract carrier"), e)
       end |}.

Definition env : Env Ext :=
  {| GlobalTracer := fun _ => opentracing_go.NoopTracer;
     DefaultTransport := fun _ =>
       {| http.tid := 0%N;
          http.RoundTrip := fun _ e =>
            (Done (Some {| http.Status := 200 |}, None), e) |};
     SetTag := fun _ _ _ e => e;
     Finish := fun sp e =>
       {| clock := clock e; status := status e; issued := issued e;
          closed := opentracing_go.sid sp :: closed e |};
     StatusCode := fun _ e => status e;
     Now := clock;
     DefaultRegisterer := 0%N;
     NewCounterVec := fun _ _ _ e => ({| client_golang.cv := 1%N |}, e);
     NewHistogramVec := fun _ _ _ e => ({| client_golang.hv := 2%N |}, e);
     Inc := fun _ _ e => e;
     Observe := fun _ _ _ e => e |}.

(** A handler that answers 404 after three ticks. *)
Definition notFound : http.Handler Ext :=
  {| http.hid := 1%N;
     http.ServeHTTP := fun _ _ e => (Done tt, tick 3 404 e);
     http.HandleHTTP := None |}.

(** A handler with the error-returning form, which reports an error. *)
Definition failing : http.Handler Ext :=
  {| http.hid := 2%N;
     http.ServeHTTP := fun _ _ e => (Done tt, tick 1 500 e);
     http.HandleHTTP := Some (fun _ _ e => (Done (Some "boom"), tick 1 500 e)) |}.

(** A handler that panics. *)
Definition panicking : http.Handler Ext :=
  {| http.hid := 3%N;
     http.ServeHTTP := fun _ _ e => (Panic "oops", tick 1 200 e);
     http.HandleHTTP := None |}.

(** A transport that fails to connect. *)
Definition refusing : http.RoundTripper Ext :=
  {| http.tid := 4%N;
     http.RoundTrip := fun _ e => (Done (None, Some "connection refused"), e) |}.

Definition widgets : http.URL :=
  {| http.Path := "/widgets/42"; http.String := "http://shop.test/widgets/42" |}.

(** [GET /widgets/42] with no span in its context and no tracing header. *)
Definition get : http.Request :=
  {| http.Method := "GET"; http.Url := widgets; http.Header := ∅;
     http.Ctx := None |}.

(** The same request with the header of span context 7. *)
Definition getTraced : http.Request :=
  http.WithHeader get {["trace-id" := ["7"]]}.

(** The same request inside the span [parent]. *)
Definition parent : opentracing_go.Span :=
  {| opentracing_go.sid := 40%N; opentracing_go.Context := 41%N |}.
Definition getInSpan : http.Request := http.WithSpan get parent.

(** A plain writer, and one that reports its status code. *)
Definition plainWriter : http.ResponseWriter :=
  {| http.wid := 1%N; http.HasStatusCode := false |}.
Definition statusWriter : http.ResponseWriter :=
  {| http.wid := 2%N; http.HasStatusCode := true |}.

Definition start : World Ext := {| ext := boot; log := [] |}.

(** A pre-hook that swaps in the status-reporting writer, and a post-hook
    that does nothing. *)
Definition wrapWriter (w : http.ResponseWriter) (r : http.Request) (e : Ext)
  : (http.ResponseWriter * http.Request) * Ext := ((statusWriter, r), e).
Definition noEnd (w : http.ResponseWriter) (r : http.Request)
  (sp : opentracing_go.Span) (e : Ext) : Ext := e.

(** The wrappers the examples run. *)

(** A server handler with both hooks and no tracer of its own: the
    process-wide tracer, the no-op tracer, is in effect. *)
Definition hookedServer : opentracing.ServerHandler :=
  {| opentracing.sh_Handler := Some notFound;
     opentracing.sh_Option := opentracing.Init opentracing.zero_Option;
     opentracing.Start := Some wrapWriter;
     opentracing.End_ := Some noEnd |}.

(** The same handler with the no-op tracer configured. *)
Definition noopServer : opentracing.ServerHandler :=
  {| opentracing.sh_Handler := Some notFound;
     opentracing.sh_Option :=
       opentracing.set_Tracer (opentracing.Init opentracing.zero_Option)
         (Some opentracing_go.NoopTracer);
     opentracing.Start := Some wrapWriter;
     opentracing.End_ := Some noEnd |}.

(** The options of a wrapper that uses the numbering tracer, and of one
    that filters every request. *)
Definition tracedOption : opentracing.Option :=
  opentracing.set_Tracer (opentracing.Init opentracing.zero_Option)
    (Some testTracer).
Definition filteringOption : opentracing.Option :=
  opentracing.set_SpanFilter tracedOption (Some (fun _ => true)).

Definition tracedServer (h : http.Handler Ext) : opentracing.ServerHandler :=
  {| opentracing.sh_Handler := Some h;
     opentracing.sh_Option := tracedOption;
     opentracing.Start := None;
     opentracing.End_ := None |}.

Definition filteringServer : opentracing.ServerHandler :=
  {| opentracing.sh_Handler := Some notFound;
     opentracing.sh_Option := filteringOption;
     opentracing.Start := Some wrapWriter;
     opentracing.End_ := Some noEnd |}.

Definition tracedClient : opentracing.RoundTripper :=
  {| opentracing.rt_RoundTripper := Some refusing;
     opentracing.rt_Option := tracedOption |}.

Definition filteringClient : opentracing.RoundTripper :=
  {| opentracing.rt_RoundTripper := Some refusing;
     opentracing.rt_Option := filteringOption |}.

(** A new metrics handler, before its first request. *)
Definition fresh (h : http.Handler Ext) : prometheus.State :=
  {| prometheus.this := prometheus.NewServerHandler (Some h);
     prometheus.world := start |}.

(** The span that [testTracer] hands out first. *)
Definition firstSpan : opentracing_go.Span :=
  {| opentracing_go.sid := 1%N; opentracing_go.Context := 101%N |}.

End sample.

(* ===================================================================== *)
(** ** Views of a run: what a call does, step by step                     *)
(* ===================================================================== *)

(** The wrappers are monadic programs; the properties are stated over plain
    functions of the external state that give, for one call, the values it
    computes, the state it reaches and the entries it adds to the journal.
    The lemmas below prove that the programs compute exactly these. *)

Module opentracing_run.

Import world opentracing.

Section Run.

Context {E : Type} (env : Env E).

(** Every function field is set, as it is after [Init]. *)
Definition initialised (o : Option (E:=E)) : bool :=
  bool_decide (is_Some (ComponentNameFunc o))
  && bool_decide (is_Some (URLTagFunc o))
  && bool_decide (is_Some (SpanFilter o))
  && bool_decide (is_Some (SpanObserver o))
  && bool_decide (is_Some (OperationNameFunc o)).

(** The filter predicate is set and returns true for the request. *)
Definition filtered (o : Option (E:=E)) (r : http.Request) : bool :=
  match SpanFilter o with
  | Some f => f r
  | None => false
  end.

(** The values that the configuration yields for a request. *)
Definition tracerOf (o : Option) (e : E) : opentracing_go.Tracer E :=
  match Tracer o with
  | Some t => t
  | None => GlobalTracer env e
  end.

Definition operationName (o : Option (E:=E)) (r : http.Request) : string :=
  match OperationNameFunc o with
  | Some f => f r
  | None => ""
  end.

Definition componentName (o : Option (E:=E)) (r : http.Request) : string :=
  if String.eqb (ComponentName o) "" then
    match ComponentNameFunc o with
    | Some f => f r
    | None => ""
    end
  else ComponentName o.

Definition urlTag (o : Option (E:=E)) (u : http.URL) : string :=
  match URLTagFunc o with
  | Some f => f u
  | None => ""
  end.

Definition observer (o : Option) (r : http.Request)
  (sp : opentracing_go.Span) (e : E) : E :=
  match SpanObserver o with
  | Some f => f r sp e
  | None => e
  end.

(** *** The server side *)

(** The pre-hook, when set: the writer, the request and the external state
    it leaves. *)
Definition preHook (sh : ServerHandler) (w : http.ResponseWriter)
  (r : http.Request) (e : E) : (http.ResponseWriter * http.Request) * E :=
  match Start sh with
  | Some f => f w r e
  | None => ((w, r), e)
  end.

Definition preHookJournal (sh : ServerHandler (E:=E))
  (w : http.ResponseWriter) (r : http.Request) : list Event :=
  match Start sh with
  | Some _ => [CallStart w r]
  | None => []
  end.

(** From the extraction to the observer: the extracted context, the span
    and the external state before the delegation. *)
Definition serverSetup (o : Option) (r : http.Request) (e : E)
  : option opentracing_go.SpanContext * opentracing_go.Span * E :=
  let t := tracerOf o e in
  let '((sc, _), e1) := opentracing_go.Extract t (http.Header r) e in
  let '(sp, e2) :=
    opentracing_go.StartSpan t (operationName o r)
      [opentracing_go.RPCServerOption sc] e1 in
  let e3 := SetTag env sp ext.HTTPMethod (http.Method r) e2 in
  let e4 := SetTag env sp ext.Component (componentName o r) e3 in
  let e5 := SetTag env sp ext.HTTPUrl (urlTag o (http.Url r)) e4 in
  (sc, sp, observer o r sp e5).

Definition serverSetupJournal (o : Option (E:=E)) (r : http.Request)
  (sc : option opentracing_go.SpanContext) (sp : opentracing_go.Span)
  : list Event :=
  [CallExtract (http.Header r);
   CallStartSpan (operationName o r) [opentracing_go.RPCServerOption sc];
   CallSetTag sp ext.HTTPMethod (http.Method r);
   CallSetTag sp ext.Component (componentName o r);
   CallSetTag sp ext.HTTPUrl (urlTag o (http.Url r));
   CallSpanObserver r sp].

(** The call of the stored handler. *)
Definition delegate (h : option (http.Handler E)) (w : http.ResponseWriter)
  (r : http.Request) (e : E) : outcome unit * E :=
  match h with
  | Some hh => http.ServeHTTP hh w r e
  | None => (Panic nil_dereference, e)
  end.

Definition delegationJournal (h : option (http.Handler E))
  (w : http.ResponseWriter) (r : http.Request) : list Event :=
  match h with
  | Some hh => [CallServeHTTP (http.hid hh) w r]
  | None => []
  end.

Definition endHook (sh : ServerHandler) (w : http.ResponseWriter)
  (r : http.Request) (sp : opentracing_go.Span) (e : E) : E :=
  match End_ sh with
  | Some f => f w r sp e
  | None => e
  end.

Definition endJournal (sh : ServerHandler (E:=E)) (w : http.ResponseWriter)
  (r : http.Request) (sp : opentracing_go.Span) : list Event :=
  match End_ sh with
  | Some _ => [CallEnd w r sp]
  | None => []
  end.

(** The entries that the span part of [Serve] adds. *)
Definition spanJournal (sh : ServerHandler) (w : http.ResponseWriter)
  (r : http.Request) (e : E) : list Event :=
  let '(sc, sp, _) := serverSetup (sh_Option sh) r e in
  let r' := http.WithSpan r sp in
  serverSetupJournal (sh_Option sh) r sc sp
  ++ delegationJournal (sh_Handler sh) w r'
  ++ endJournal sh w r' sp ++ [CallFinish sp].

(** The writer and the request that the pre-hook leaves, and the span that
    the server wrapper then starts. *)
Definition hooked (sh : opentracing.ServerHandler) (w : http.ResponseWriter)
  (r : http.Request) (s : World E)
  : (http.ResponseWriter * http.Request) * E :=
  preHook sh w r (ext s).

Definition serverSpan (sh : opentracing.ServerHandler)
  (w : http.ResponseWriter) (r : http.Request) (s : World E)
  : opentracing_go.Span :=
  snd (fst (serverSetup (opentracing.sh_Option sh)
              (snd (fst (hooked sh w r s))) (snd (hooked sh w r s)))).

(** The span context that the server wrapper extracts. *)
Definition serverParent (sh : opentracing.ServerHandler)
  (w : http.ResponseWriter) (r : http.Request) (s : World E)
  : option opentracing_go.SpanContext :=
  fst (fst (serverSetup (opentracing.sh_Option sh)
              (snd (fst (hooked sh w r s))) (snd (hooked sh w r s)))).

(** The test that a journal entry, if it is a call of a handler, is a call
    of the handler stored in [sh]. *)
Definition calls_stored_handler (sh : opentracing.ServerHandler (E:=E))
  (ev : Event) : bool :=
  match delegated_to ev with
  | Some n =>
      match opentracing.sh_Handler sh with
      | Some hh => (http.hid hh =? n)%N
      | None => false
      end
  | None => true
  end.

(** *** The client side *)

(** The options that [RoundTrip] hands to [StartSpan]. *)
Definition clientOpts (req : http.Request)
  : list opentracing_go.StartSpanOption :=
  match http.SpanFromContext req with
  | Some pspan =>
      [opentracing_go.ChildOf (Some (opentracing_go.Context pspan))]
  | None => [ext.SpanKindRPCClient]
  end.

(** From [StartSpan] to [Inject]: the span, the carrier that the tracer
    leaves and the external state before the delegation. *)
Definition clientSetup (o : Option) (req : http.Request) (e : E)
  : opentracing_go.Span * gmap string (list string) * E :=
  let t := tracerOf o e in
  let '(sp, e1) :=
    opentracing_go.StartSpan t (operationName o req) (clientOpts req) e in
  let e2 := SetTag env sp ext.HTTPUrl (urlTag o (http.Url req)) e1 in
  let e3 := SetTag env sp ext.Component (componentName o req) e2 in
  let e4 := SetTag env sp ext.HTTPMethod (http.Method req) e3 in
  let e5 := observer o req sp e4 in
  let '((carrier, _), e6) :=
    opentracing_go.Inject t (opentracing_go.Context sp) (http.Header req) e5 in
  (sp, carrier, e6).

Definition clientSetupJournal (o : Option (E:=E)) (req : http.Request)
  (sp : opentracing_go.Span) : list Event :=
  [CallStartSpan (operationName o req) (clientOpts req);
   CallSetTag sp ext.HTTPUrl (urlTag o (http.Url req));
   CallSetTag sp ext.Component (componentName o req);
   CallSetTag sp ext.HTTPMethod (http.Method req);
   CallSpanObserver req sp;
   CallInject (opentracing_go.Context sp) (http.Header req)].

(** The transport that [roundTrip] calls. *)
Definition transportOf (rt : RoundTripper) (e : E) : http.RoundTripper E :=
  match rt_RoundTripper rt with
  | Some t => t
  | None => DefaultTransport env e
  end.

(** The request that the traced path delegates. *)
Definition tracedRequest (req : http.Request)
  (carrier : gmap string (list string)) (sp : opentracing_go.Span)
  : http.Request :=
  http.WithSpan (http.WithHeader req carrier) sp.

(** The entries that the traced path of [RoundTrip] adds. *)
Definition clientJournal (rt : RoundTripper) (req : http.Request) (e : E)
  : list Event :=
  let '(sp, carrier, e') := clientSetup (rt_Option rt) req e in
  clientSetupJournal (rt_Option rt) req sp
  ++ [CallRoundTrip (http.tid (transportOf rt e')) (tracedRequest req carrier sp);
      CallFinish sp].

(** The span that the client wrapper starts. *)
Definition clientSpan (rt : opentracing.RoundTripper) (req : http.Request)
  (s : World E) : opentracing_go.Span :=
  fst (fst (clientSetup (opentracing.rt_Option rt) req
              (ext s))).

(** *** A tracer that reports no error *)

(** The tracer that reports no error from [Extract] and is the same
    otherwise, the configuration that uses it, and the world in which the
    process-wide tracer is such a tracer. *)
Definition silenced (t : opentracing_go.Tracer E) : opentracing_go.Tracer E :=
  {| opentracing_go.StartSpan := opentracing_go.StartSpan t;
     opentracing_go.Inject := opentracing_go.Inject t;
     opentracing_go.Extract := fun carrier e =>
       (fst (fst (opentracing_go.Extract t carrier e)), None,
        snd (opentracing_go.Extract t carrier e)) |}.

Definition silencedHandler (sh : opentracing.ServerHandler)
  : opentracing.ServerHandler :=
  {| opentracing.sh_Handler := opentracing.sh_Handler sh;
     opentracing.sh_Option :=
       {| opentracing.Tracer :=
            silenced <$> opentracing.Tracer (opentracing.sh_Option sh);
          opentracing.ComponentName :=
            opentracing.ComponentName (opentracing.sh_Option sh);
          opentracing.ComponentNameFunc :=
            opentracing.ComponentNameFunc (opentracing.sh_Option sh);
          opentracing.URLTagFunc :=
            opentracing.URLTagFunc (opentracing.sh_Option sh);
          opentracing.SpanFilter :=
            opentracing.SpanFilter (opentracing.sh_Option sh);
          opentracing.OperationNameFunc :=
            opentracing.OperationNameFunc (opentracing.sh_Option sh);
          opentracing.SpanObserver :=
            opentracing.SpanObserver (opentracing.sh_Option sh) |};
     opentracing.Start := opentracing.Start sh;
     opentracing.End_ := opentracing.End_ sh |}.

Definition silencedEnv : Env E :=
  {| GlobalTracer := fun e => silenced (GlobalTracer env e);
     DefaultTransport := DefaultTransport env;
     SetTag := SetTag env;
     Finish := Finish env;
     StatusCode := StatusCode env;
     Now := Now env;
     DefaultRegisterer := DefaultRegisterer env;
     NewCounterVec := NewCounterVec env;
     NewHistogramVec := NewHistogramVec env;
     Inc := Inc env;
     Observe := Observe env |}.

End Run.

End opentracing_run.

Module prometheus_run.

Import world prometheus.

Section Run.

Context {E : Type} (env : Env E).

(** The private fields agree with the option once the one-time
    initialisation has run: the label names are those the option selects
    and both vectors exist.  It holds of a new handler and every method
    keeps it. *)
Definition consistent (sh : ServerHandler (E:=E)) : Prop :=
  once sh = true ->
  labels sh = init_labels (sh_Option sh)
  /\ is_Some (requestsTotal sh) /\ is_Some (requestDurations sh).

(** The state that [_init] leaves. *)
Definition initialise (st : State) : State := snd (_init env st).

(** The call of the handler given to [Serve], with the error it yields. *)
Definition delegate (h : option (http.Handler E)) (w : http.ResponseWriter)
  (r : http.Request) (e : E) : outcome error * E :=
  match h with
  | Some hh =>
      match http.HandleHTTP hh with
      | Some handleHTTP => handleHTTP w r e
      | None =>
          match http.ServeHTTP hh w r e with
          | (Done _, e') => (Done None, e')
          | (Panic v, e') => (Panic v, e')
          end
      end
  | None => (Panic nil_dereference, e)
  end.

Definition delegationJournal (h : option (http.Handler E))
  (w : http.ResponseWriter) (r : http.Request) : list Event :=
  match h with
  | Some hh =>
      match http.HandleHTTP hh with
      | Some _ => [CallHandleHTTP (http.hid hh) w r]
      | None => [CallServeHTTP (http.hid hh) w r]
      end
  | None => []
  end.

(** The status code that [handle] reads. *)
Definition codeOf (w : http.ResponseWriter) (e : E) : Z :=
  if http.HasStatusCode w then StatusCode env w e else 200%Z.

(** The label map that [handle] builds. *)
Definition labelsOf (sh : ServerHandler (E:=E)) (code : Z) (r : http.Request)
  : gmap string string :=
  label_loop (labels sh) (length (labels sh)) code r ∅.

End Run.

End prometheus_run.

(* ===================================================================== *)
(** ** Further views: journals, tracers, requests on the wire            *)
(* ===================================================================== *)

Module journal.

Import world.

Definition is_end_hook (e : Event) : bool :=
  match e with CallEnd _ _ _ => true | _ => false end.

Definition is_factory (e : Event) : bool :=
  match e with
  | CallNewCounterVec _ _ _ | CallNewHistogramVec _ _ _ => true
  | _ => false
  end.

Definition is_round_trip (e : Event) : bool :=
  match e with CallRoundTrip _ _ => true | _ => false end.

(** The tags that a journal sets, as pairs of a key and a value. *)
Definition tagsOf (j : list Event) : list (string * string) :=
  omap (fun ev => match ev with
                  | CallSetTag _ k v => Some (k, v)
                  | _ => None
                  end) j.

(** The values that a journal observes on histograms. *)
Definition observed (j : list Event) : list Z :=
  omap (fun ev => match ev with
                  | CallObserve _ _ v => Some v
                  | _ => None
                  end) j.

End journal.

Module opentracing_more.

Import world opentracing.

Section More.

Context {E : Type} (env : Env E).

(** The world with another process-wide tracer. *)
Definition withGlobalTracer (g : E -> opentracing_go.Tracer E) : Env E :=
  {| GlobalTracer := g;
     DefaultTransport := DefaultTransport env;
     SetTag := SetTag env;
     Finish := Finish env;
     StatusCode := StatusCode env;
     Now := Now env;
     DefaultRegisterer := DefaultRegisterer env;
     NewCounterVec := NewCounterVec env;
     NewHistogramVec := NewHistogramVec env;
     Inc := Inc env;
     Observe := Observe env |}.

(** The wrappers with the field [Tracer] assigned. *)
Definition serverUsing (t : option (opentracing_go.Tracer E))
  (sh : ServerHandler) : ServerHandler :=
  {| sh_Handler := sh_Handler sh; sh_Option := set_Tracer (sh_Option sh) t;
     Start := Start sh; End_ := End_ sh |}.

Definition clientUsing (t : option (opentracing_go.Tracer E))
  (rt : RoundTripper) : RoundTripper :=
  {| rt_RoundTripper := rt_RoundTripper rt;
     rt_Option := set_Tracer (rt_Option rt) t |}.

(** The tracer that reports no error from [Inject] and is the same
    otherwise. *)
Definition uncomplaining (t : opentracing_go.Tracer E)
  : opentracing_go.Tracer E :=
  {| opentracing_go.StartSpan := opentracing_go.StartSpan t;
     opentracing_go.Inject := fun sc carrier e =>
       (fst (fst (opentracing_go.Inject t sc carrier e)), None,
        snd (opentracing_go.Inject t sc carrier e));
     opentracing_go.Extract := opentracing_go.Extract t |}.

(** The world in which the process-wide tracer reports no error from
    [Inject], and the client wrapper in which the configured one
    reports none. *)
Definition uncomplainingEnv : Env E :=
  withGlobalTracer (fun e => uncomplaining (GlobalTracer env e)).

Definition uncomplainingClient (rt : RoundTripper) : RoundTripper :=
  clientUsing (uncomplaining <$> Tracer (rt_Option rt)) rt.

(** A function that the traced path calls once the span is started is
    nil. *)
Definition lacking (o : Option (E:=E)) : bool :=
  (String.eqb (ComponentName o) "" && negb (bool_decide (is_Some (ComponentNameFunc o))))
  || negb (bool_decide (is_Some (URLTagFunc o)))
  || negb (bool_decide (is_Some (SpanObserver o))).

(** The request that the traced path of [RoundTrip] hands to the
    transport. *)
Definition delegatedRequest (rt : RoundTripper) (req : http.Request)
  (s : World E) : http.Request :=
  let setup := opentracing_run.clientSetup env (rt_Option rt) req (ext s) in
  opentracing_run.tracedRequest req (snd (fst setup)) (fst (fst setup)).

(** The request that the traced path of [Serve] hands to the handler. *)
Definition servedRequest (sh : ServerHandler) (w : http.ResponseWriter)
  (r : http.Request) (s : World E) : http.Request :=
  http.WithSpan (snd (fst (opentracing_run.hooked sh w r s)))
    (opentracing_run.serverSpan env sh w r s).

(** A request as it arrives at a server: the context of the sender does
    not travel, the method, the URL and the headers do. *)
Definition onTheWire (req : http.Request) : http.Request :=
  {| http.Method := http.Method req; http.Url := http.Url req;
     http.Header := http.Header req; http.Ctx := None |}.

(** The receiving tracer reads from a carrier the context that the sending
    tracer wrote into it. *)
Definition carries (sender receiver : opentracing_go.Tracer E) : Prop :=
  forall sc carrier e e',
    fst (fst (opentracing_go.Extract receiver
                (fst (fst (opentracing_go.Inject sender sc carrier e))) e'))
    = Some sc.

End More.

End opentracing_more.

Module prometheus_more.

Import world prometheus.

(** The value that [handle] gives a label. *)
Definition labelValue (name : string) (code : Z) (r : http.Request) : string :=
  if String.eqb name "code" then pretty code
  else if String.eqb name "path" then http.Path (http.Url r)
  else http.Method r.

(** The names that the switch of [handle] knows. *)
Definition knownLabel (name : string) : bool :=
  String.eqb name "code" || String.eqb name "path" || String.eqb name "method".

(** What [_init2] hands to the factory. *)
Definition counterOpts (o : Option) : client_golang.Opts :=
  {| client_golang.Namespace := Namespace o;
     client_golang.Subsystem := Subsystem o;
     client_golang.Name := "http_requests_total";
     client_golang.Help := "The total number of the http requests";
     client_golang.Buckets := [] |}.

Definition histogramOpts (o : Option) : client_golang.Opts :=
  {| client_golang.Namespace := Namespace o;
     client_golang.Subsystem := Subsystem o;
     client_golang.Name := "http_request_duration_seconds";
     client_golang.Help := "The duration to handle the http request";
     client_golang.Buckets :=
       match Buckets o with
       | [] => DefaultHistogramBuckets
       | _ :: _ => Buckets o
       end |}.

Section More.

Context {E : Type} (env : Env E).

Definition registererOf (o : Option) : client_golang.Registerer :=
  default (DefaultRegisterer env) (Registerer o).

(** The entries that the one-time initialisation adds. *)
Definition initJournal (o : Option) : list Event :=
  [CallNewCounterVec (registererOf o) (counterOpts o) (init_labels o);
   CallNewHistogramVec (registererOf o) (histogramOpts o) (init_labels o)].

(** The vectors that the factory returns, and the state it leaves. *)
Definition newVectors (o : Option) (e : E)
  : client_golang.CounterVec * client_golang.HistogramVec * E :=
  let '(c, e1) :=
    NewCounterVec env (registererOf o) (counterOpts o) (init_labels o) e in
  let '(hv, e2) :=
    NewHistogramVec env (registererOf o) (histogramOpts o) (init_labels o) e1 in
  (c, hv, e2).

(** Requests served one after the other by one handler, each with the
    handler, the writer and the request given to [Serve]; a request that
    ended in a panic is followed by the next one all the same. *)
Fixpoint serveAll
  (reqs : list (option (http.Handler E) * http.ResponseWriter * http.Request))
  (st : State) : State :=
  match reqs with
  | [] => st
  | (h, w, r) :: rest => serveAll rest (snd (Serve env h w r st))
  end.

End More.

End prometheus_more.

(* ===================================================================== *)
(** ** Further wrappers of the concrete world                            *)
(* ===================================================================== *)

Module sample_more.

Import world sample.

Local Open Scope Z_scope.

(** A tracer whose carrier can be read back: it writes the span context
    into the header [trace-id] as that many values and reads it by counting
    them. *)
Definition wireTracer : opentracing_go.Tracer Ext :=
  {| opentracing_go.StartSpan := fun _ _ e =>
       ({| opentracing_go.sid := (issued e + 1)%N;
           opentracing_go.Context := (issued e + 3)%N |},
        {| clock := clock e; status := status e; issued := (issued e + 1)%N;
           closed := closed e |});
     opentracing_go.Inject := fun sc carrier e =>
       ((<["trace-id" := replicate (N.to_nat sc) "x"]> carrier, None), e);
     opentracing_go.Extract := fun carrier e =>
       match carrier !! "trace-id" with
       | Some vs => ((Some (N.of_nat (length vs)), None), e)
       | None =>
           ((None, Some "opentracing: SpanContext not found in Extract carrier"), e)
       end |}.

Definition wireOption : opentracing.Option :=
  opentracing.set_Tracer (opentracing.Init opentracing.zero_Option)
    (Some wireTracer).

Definition wireClient : opentracing.RoundTripper :=
  {| opentracing.rt_RoundTripper := Some refusing;
     opentracing.rt_Option := wireOption |}.

Definition wireServer : opentracing.ServerHandler :=
  {| opentracing.sh_Handler := Some notFound;
     opentracing.sh_Option := wireOption;
     opentracing.Start := None;
     opentracing.End_ := None |}.

(** Wrappers written as struct literals, with no call of [Init]. *)
Definition literalServer : opentracing.ServerHandler :=
  {| opentracing.sh_Handler := Some notFound;
     opentracing.sh_Option := opentracing.zero_Option;
     opentracing.Start := None;
     opentracing.End_ := None |}.

Definition literalClient : opentracing.RoundTripper :=
  {| opentracing.rt_RoundTripper := Some refusing;
     opentracing.rt_Option := opentracing.zero_Option |}.

(** An option literal that sets the tracer, the filter and the operation
    name and leaves the other functions nil. *)
Definition halfOption : opentracing.Option :=
  {| opentracing.Tracer := Some testTracer;
     opentracing.ComponentName := "";
     opentracing.ComponentNameFunc := None;
     opentracing.URLTagFunc := None;
     opentracing.SpanFilter := Some (fun _ => false);
     opentracing.OperationNameFunc := Some (fun r => http.Method r);
     opentracing.SpanObserver := None |}.

Definition halfServer : opentracing.ServerHandler :=
  {| opentracing.sh_Handler := Some notFound;
     opentracing.sh_Option := halfOption;
     opentracing.Start := Some wrapWriter;
     opentracing.End_ := Some noEnd |}.

Definition halfClient : opentracing.RoundTripper :=
  {| opentracing.rt_RoundTripper := Some refusing;
     opentracing.rt_Option := halfOption |}.

(** A server literal that names its component. *)
Definition namedServer : opentracing.ServerHandler :=
  {| opentracing.sh_Handler := Some notFound;
     opentracing.sh_Option :=
       {| opentracing.Tracer := Some testTracer;
          opentracing.ComponentName := "gateway";
          opentracing.ComponentNameFunc := Some (fun _ => "unused");
          opentracing.URLTagFunc := None;
          opentracing.SpanFilter := None;
          opentracing.OperationNameFunc := None;
          opentracing.SpanObserver := None |};
     opentracing.Start := None;
     opentracing.End_ := None |}.

(** Three requests in a row: one answered 404, one given no handler, one
    whose handler reports an error. *)
Definition busy
  : list (option (http.Handler Ext) * http.ResponseWriter * http.Request) :=
  [(Some notFound, statusWriter, get);
   (None, plainWriter, get);
   (Some failing, plainWriter, getTraced)].

(** A metrics handler that has served a request. *)
Definition warm : prometheus.State :=
  snd (prometheus.Serve env (Some notFound) statusWriter get (fresh notFound)).

(** Another configuration of the metrics. *)
Definition pathOption : prometheus.Option :=
  {| prometheus.Registerer := Some 9%N;
     prometheus.Namespace := "shop";
     prometheus.Subsystem := "api";
     prometheus.Buckets := [1; 2];
     prometheus.Path := true;
     prometheus.Code := false;
     prometheus.Method := false |}.

End sample_more.

(* ===================================================================== *)
(** ** Proof steps                                                        *)
(* ===================================================================== *)

(** Unfolding the monad, and splitting on every result a run depends on. *)
Ltac unfold_go :=
  unfold bind, ret, defer, world.emit, world.extern, world.effect,
    world.invoke, world.observe, modify, gets, panic in *;
  simpl in *.

(** The results are split in the order of the calls, so that every use of
    one result is replaced at once. *)
Ltac split_call :=
  match goal with
  | |- context [opentracing_go.Extract ?t ?c ?e] =>
      destruct (opentracing_go.Extract t c e) as [[? ?] ?]
  | |- context [opentracing_go.StartSpan ?t ?n ?o ?e] =>
      destruct (opentracing_go.StartSpan t n o e) as [? ?]
  | |- context [String.eqb ?a ?b] => destruct (String.eqb a b)
  | |- context [opentracing_go.Inject ?t ?sc ?c ?e] =>
      destruct (opentracing_go.Inject t sc c e) as [[? ?] ?]
  | |- context [http.ServeHTTP ?h ?w ?r ?e] =>
      destruct (http.ServeHTTP h w r e) as [[?|?] ?]
  | |- context [http.RoundTrip ?t ?r ?e] =>
      destruct (http.RoundTrip t r e) as [[?|?] ?]
  | |- context [world.NewCounterVec ?v ?g ?o ?l ?e] =>
      destruct (world.NewCounterVec v g o l e) as [? ?]
  | |- context [world.NewHistogramVec ?v ?g ?o ?l ?e] =>
      destruct (world.NewHistogramVec v g o l e) as [? ?]
  end.

Ltac split_results := repeat (split_call; simpl in * ).

Ltac same_journal :=
  rewrite <- ?app_assoc; simpl; try reflexivity; try congruence.

(* ===================================================================== *)
(** ** The runs computed                                                  *)
(* ===================================================================== *)

Lemma count_app (p : world.Event -> bool) (l1 l2 : list world.Event) :
  world.count p (l1 ++ l2) = world.count p l1 + world.count p l2.
Proof. unfold world.count. now rewrite List.filter_app, length_app. Qed.

Lemma added_app {E : Type} (s : world.World E) (e : E) (l : list world.Event) :
  world.added s {| world.ext := e; world.log := world.log s ++ l |} = l.
Proof. unfold world.added; simpl. apply drop_app_length. Qed.

Lemma added_self {E : Type} (s : world.World E) : world.added s s = [].
Proof. unfold world.added. apply drop_all. Qed.

Module opentracing_facts.

Import world opentracing opentracing_run.

Section Facts.

Context {E : Type} (env : Env E).

Lemma serveSpan_run sh w r s :
  initialised (sh_Option sh) = true ->
  serveSpan env sh w r s =
  let '(sc, sp, e) := serverSetup env (sh_Option sh) r (ext s) in
  let r' := http.WithSpan r sp in
  let '(res, e') := delegate (sh_Handler sh) w r' e in
  (res, {| ext := Finish env sp (endHook sh w r' sp e');
           log := log s ++ spanJournal env sh w r (ext s) |}).
Proof.
  destruct sh as [h o st en]; destruct o as [tr cn cnf utf sf onf so].
  unfold initialised; simpl.
  destruct cnf, utf, sf, so, onf; simpl; try discriminate. intros _.
  unfold serveSpan, spanJournal, serverSetup, serverSetupJournal, GetTracer,
    GetComponentName, startSpan, tag_Set, spanObserver, finish,
    handler_ServeHTTP, delegate, endHook, endJournal, delegationJournal,
    nonnil.
  unfold tracerOf, componentName, observer, operationName, urlTag; simpl.
  unfold_go.
  destruct tr, h, en; simpl; split_results; same_journal.
Qed.

Lemma Serve_filtered sh h w r s :
  filtered (sh_Option sh) r = true ->
  Serve env sh h w r s =
  let '(res, e') := delegate (sh_Handler sh) w r (ext s) in
  (res, {| ext := e';
           log := log s ++ delegationJournal (sh_Handler sh) w r |}).
Proof.
  unfold filtered, Serve, handler_ServeHTTP, delegate, delegationJournal,
    nonnil.
  destruct (SpanFilter (sh_Option sh)) as [f|]; [|discriminate].
  intros Hf. unfold_go. rewrite Hf. destruct (sh_Handler sh); simpl.
  - split_results; same_journal.
  - rewrite app_nil_r. now destruct s.
Qed.

Lemma Serve_traced sh h w r s :
  is_Some (SpanFilter (sh_Option sh)) ->
  filtered (sh_Option sh) r = false ->
  Serve env sh h w r s =
  let '((w', r'), e) := preHook sh w r (ext s) in
  serveSpan env sh w' r' {| ext := e; log := log s ++ preHookJournal sh w r |}.
Proof.
  unfold filtered, Serve, preHook, preHookJournal, nonnil.
  intros [f ->] Hf. unfold_go. rewrite Hf.
  destruct (Start sh) as [g|]; simpl.
  - destruct (g w r (ext s)) as [[w' r'] e]; reflexivity.
  - rewrite app_nil_r. now destruct s.
Qed.

Lemma RoundTrip_filtered rt req s :
  filtered (rt_Option rt) req = true ->
  RoundTrip env rt req s =
  let t := transportOf env rt (ext s) in
  let '(res, e') := http.RoundTrip t req (ext s) in
  (res, {| ext := e'; log := log s ++ [CallRoundTrip (http.tid t) req] |}).
Proof.
  unfold filtered, RoundTrip, roundTrip, transport_RoundTrip, transportOf,
    nonnil.
  destruct (SpanFilter (rt_Option rt)) as [f|]; [|discriminate].
  intros Hf. unfold_go. rewrite Hf.
  destruct (rt_RoundTripper rt); simpl; split_results; same_journal.
Qed.

Lemma RoundTrip_traced rt req s :
  initialised (rt_Option rt) = true ->
  filtered (rt_Option rt) req = false ->
  RoundTrip env rt req s =
  let '(sp, carrier, e) := clientSetup env (rt_Option rt) req (ext s) in
  let '(res, e') :=
    http.RoundTrip (transportOf env rt e) (tracedRequest req carrier sp) e in
  (res, {| ext := Finish env sp e';
           log := log s ++ clientJournal env rt req (ext s) |}).
Proof.
  destruct rt as [tr o]; destruct o as [tc cn cnf utf sf onf so].
  unfold initialised, filtered; simpl.
  destruct cnf, utf, sf, so, onf; simpl; try discriminate. intros _ Hf.
  unfold RoundTrip, roundTrip, transport_RoundTrip, clientJournal,
    clientSetup, clientSetupJournal, tracedRequest, GetTracer,
    GetComponentName, startSpan, tag_Set, spanObserver, finish, nonnil.
  unfold transportOf, tracerOf, componentName, observer, operationName,
    urlTag, clientOpts; simpl.
  unfold_go. rewrite Hf.
  destruct tc, tr; simpl; split_results; same_journal.
Qed.

Lemma Init_initialised (o : Option (E:=E)) : initialised (Init o) = true.
Proof.
  destruct o as [tc cn cnf utf sf onf so].
  destruct cnf, utf, sf, onf, so; reflexivity.
Qed.

(** The constructors of the package leave the option initialised. *)
Lemma constructors_initialise (h : option (http.Handler E))
  (t : option (http.RoundTripper E)) :
  initialised (sh_Option (NewServerHandler h)) = true
  /\ initialised (rt_Option (NewRoundTripper t)) = true.
Proof. split; apply Init_initialised. Qed.

End Facts.

End opentracing_facts.

Module prometheus_facts.

Import world prometheus prometheus_run.

Section Facts.

Context {E : Type} (env : Env E).

Lemma _init_done st : fst (_init env st) = Done tt.
Proof.
  unfold _init, _init2, liftW, assign. unfold_go.
  destruct (once (this st)); simpl; [reflexivity|].
  split_results. reflexivity.
Qed.

Lemma initialise_once st : once (this (initialise env st)) = true.
Proof.
  unfold initialise, _init, _init2, liftW, assign. unfold_go.
  destruct (once (this st)) eqn:Ho; simpl; [exact Ho|].
  split_results. reflexivity.
Qed.

Lemma initialise_Option st :
  sh_Option (this (initialise env st)) = sh_Option (this st)
  /\ sh_Handler (this (initialise env st)) = sh_Handler (this st).
Proof.
  unfold initialise, _init, _init2, liftW, assign. unfold_go.
  destruct (once (this st)); simpl; [tauto|].
  split_results. tauto.
Qed.

Lemma initialise_consistent st :
  consistent (this st) -> consistent (this (initialise env st)).
Proof.
  unfold consistent, initialise, _init, _init2, liftW, assign. unfold_go.
  destruct (once (this st)) eqn:Ho; simpl; [tauto|].
  split_results. intros _ _. repeat split; eauto.
Qed.

(** [_init] calls the factory, and nothing else. *)
Lemma initialise_journal st :
  exists l : list Event, log (world (initialise env st)) = (log (world st) ++ l)%list
            /\ forallb (fun ev => match ev with
                                  | CallNewCounterVec _ _ _
                                  | CallNewHistogramVec _ _ _ => true
                                  | _ => false
                                  end) l = true.
Proof.
  unfold initialise, _init, _init2, liftW, assign. unfold_go.
  destruct (once (this st)); simpl.
  - exists []. now rewrite app_nil_r.
  - split_results. eexists. rewrite <- app_assoc. split; reflexivity.
Qed.

Lemma Serve_run h w r st c hv :
  requestsTotal (this (initialise env st)) = Some c ->
  requestDurations (this (initialise env st)) = Some hv ->
  Serve env h w r st =
  let st1 := initialise env st in
  let e := ext (world st1) in
  let '(res, e1) := delegate h w r e in
  let labels := labelsOf (this st1) (codeOf env w e1) r in
  let e2 := Inc env c labels e1 in
  let elapsed := (Now env e2 - Now env e)%Z in
  (res, {| this := this st1;
           world := {| ext := Observe env hv labels elapsed e2;
                       log := log (world st1) ++ delegationJournal h w r
                              ++ [CallInc c labels;
                                  CallObserve hv labels elapsed] |} |}).
Proof.
  unfold Serve. unfold bind at 1.
  pose proof (_init_done st) as Hd. unfold initialise.
  destruct (_init env st) as [o st1]; simpl in *. subst o.
  intros Hc Hh.
  unfold handle, delegate, delegationJournal, labelsOf, codeOf, liftW.
  unfold_go.
  destruct h as [hh|]; simpl;
    [destruct (http.HandleHTTP hh) as [f|]; simpl;
     [destruct (f w r (ext (world st1))) as [[err|v] e1]
     |destruct (http.ServeHTTP hh w r (ext (world st1))) as [[[]|v] e1]]|];
    simpl; destruct (http.HasStatusCode w); simpl;
    rewrite Hc; simpl; rewrite Hh; simpl; same_journal.
Qed.

(** The label map has the keys that the option selects, with the values of
    the request and the status code. *)
Lemma labelsOf_lookup (sh : ServerHandler (E:=E)) code r :
  labels sh = init_labels (sh_Option sh) ->
  labelsOf sh code r !! "method"
  = (if Method (sh_Option sh) then Some (http.Method r) else None)
  /\ labelsOf sh code r !! "path"
     = (if Path (sh_Option sh) then Some (http.Path (http.Url r)) else None)
  /\ labelsOf sh code r !! "code"
     = (if Code (sh_Option sh) then Some (pretty code) else None)
  /\ dom (labelsOf sh code r)
     = list_to_set (C := gset string) (init_labels (sh_Option sh)).
Proof.
  unfold labelsOf. intros ->. unfold init_labels.
  destruct (Method (sh_Option sh)), (Path (sh_Option sh)),
    (Code (sh_Option sh)); cbn [app length label_loop lookup list_lookup];
    unfold label_case; simpl String.eqb; cbv iota;
    rewrite ?dom_insert_L, ?dom_empty_L; simpl list_to_set;
    repeat split; try (simplify_map_eq; reflexivity); try set_solver.
Qed.

End Facts.

End prometheus_facts.

(* ===================================================================== *)
(** ** The properties of the wrappers                                     *)
(* ===================================================================== *)

Section Properties.

Context {E : Type} (env : world.Env E).

Import world opentracing_run.

Lemma initialised_filter (o : opentracing.Option (E:=E)) :
  initialised o = true -> is_Some (opentracing.SpanFilter o).
Proof.
  unfold initialised. destruct o as [tc cn cnf utf sf onf so].
  simpl. destruct sf; [eauto|]. rewrite !andb_false_r, ?andb_false_l.
  destruct cnf, utf; discriminate.
Qed.

Lemma Serve_journal (sh : opentracing.ServerHandler)
  (h : option (http.Handler E)) (w : http.ResponseWriter) (r : http.Request)
  (s : World E) :
  initialised (opentracing.sh_Option sh) = true ->
  filtered (opentracing.sh_Option sh) r = false ->
  added s (snd (opentracing.Serve env sh h w r s))
  = (preHookJournal sh w r
     ++ spanJournal env sh (fst (fst (hooked sh w r s)))
          (snd (fst (hooked sh w r s))) (snd (hooked sh w r s)))%list
  /\ exists e, ext (snd (opentracing.Serve env sh h w r s))
               = Finish env (serverSpan env sh w r s) e.
Proof.
  intros Hi Hf.
  rewrite (opentracing_facts.Serve_traced env sh h w r s
             (initialised_filter _ Hi) Hf).
  unfold serverSpan, hooked.
  destruct (preHook sh w r (ext s)) as [[w' r'] e0]. simpl.
  rewrite (opentracing_facts.serveSpan_run env sh w' r' _ Hi). simpl.
  destruct (serverSetup env _ r' e0) as [[sc sp] e1]. simpl.
  destruct (delegate _ w' _ e1) as [res e2]. simpl.
  rewrite <- app_assoc, added_app. eauto.
Qed.

Lemma spanJournal_shape (sh : opentracing.ServerHandler)
  (w : http.ResponseWriter) (r : http.Request) (e : E) :
  let sc := fst (fst (serverSetup env
                        (opentracing.sh_Option sh) r e)) in
  let sp := snd (fst (serverSetup env
                        (opentracing.sh_Option sh) r e)) in
  let j := spanJournal env sh w r e in
  List.filter is_start_span j
  = [CallStartSpan
       (operationName (opentracing.sh_Option sh) r)
       [opentracing_go.RPCServerOption sc]]
  /\ List.filter is_finish j = [CallFinish sp]
  /\ last j = Some (CallFinish sp)
  /\ count is_start_hook j = 0.
Proof.
  unfold spanJournal, count.
  destruct (serverSetup env _ r e) as [[sc sp] e1]. simpl.
  unfold delegationJournal, endJournal.
  destruct (opentracing.sh_Handler sh), (opentracing.End_ sh); simpl;
    repeat split; reflexivity.
Qed.

Lemma RoundTrip_journal (rt : opentracing.RoundTripper) (req : http.Request)
  (s : World E) :
  initialised (opentracing.rt_Option rt) = true ->
  filtered (opentracing.rt_Option rt) req = false ->
  added s (snd (opentracing.RoundTrip env rt req s))
  = clientJournal env rt req (ext s)
  /\ exists e, ext (snd (opentracing.RoundTrip env rt req s))
               = Finish env (clientSpan env rt req s) e.
Proof.
  intros Hi Hf.
  rewrite (opentracing_facts.RoundTrip_traced env rt req s Hi Hf).
  unfold clientSpan.
  destruct (clientSetup env _ req (ext s)) as [[sp c] e1].
  destruct (http.RoundTrip _ _ e1) as [res e2]. simpl.
  rewrite added_app. eauto.
Qed.

Lemma clientJournal_shape (rt : opentracing.RoundTripper)
  (req : http.Request) (e : E) :
  let sp := fst (fst (clientSetup env
                        (opentracing.rt_Option rt) req e)) in
  let j := clientJournal env rt req e in
  List.filter is_start_span j
  = [CallStartSpan
       (operationName (opentracing.rt_Option rt) req)
       (clientOpts req)]
  /\ List.filter is_finish j = [CallFinish sp]
  /\ last j = Some (CallFinish sp).
Proof.
  unfold clientJournal.
  destruct (clientSetup env _ req e) as [[sp c] e1]. simpl.
  repeat split; reflexivity.
Qed.

Lemma filter_start_span_preHook (sh : opentracing.ServerHandler (E:=E))
  (w : http.ResponseWriter) (r : http.Request) (j : list Event) :
  List.filter is_start_span (preHookJournal sh w r ++ j)
  = List.filter is_start_span j
  /\ List.filter is_finish (preHookJournal sh w r ++ j)
     = List.filter is_finish j.
Proof.
  unfold preHookJournal.
  destruct (opentracing.Start sh); split; reflexivity.
Qed.

Lemma serverParent_extracted (sh : opentracing.ServerHandler)
  (w : http.ResponseWriter) (r : http.Request) (s : World E) :
  serverParent env sh w r s
  = fst (fst (opentracing_go.Extract
                (tracerOf env (opentracing.sh_Option sh)
                   (snd (hooked sh w r s)))
                (http.Header (snd (fst (hooked sh w r s))))
                (snd (hooked sh w r s)))).
Proof.
  unfold serverParent, serverSetup.
  destruct (opentracing_go.Extract _ _ (snd (hooked sh w r s)))
    as [[sc er] e1]. simpl.
  now destruct (opentracing_go.StartSpan _ _ _ e1).
Qed.

Lemma Serve_start_span (sh : opentracing.ServerHandler)
  (h : option (http.Handler E)) (w : http.ResponseWriter) (r : http.Request)
  (s : World E) :
  initialised (opentracing.sh_Option sh) = true ->
  filtered (opentracing.sh_Option sh) r = false ->
  List.filter is_start_span (added s (snd (opentracing.Serve env sh h w r s)))
  = [CallStartSpan
       (operationName (opentracing.sh_Option sh)
          (snd (fst (hooked sh w r s))))
       [opentracing_go.RPCServerOption (serverParent env sh w r s)]].
Proof.
  intros Hi Hf. destruct (Serve_journal sh h w r s Hi Hf) as [-> _].
  rewrite (proj1 (filter_start_span_preHook sh w r _)).
  apply spanJournal_shape.
Qed.

(** Every entry that the span part of [Serve] adds is, if a call of a
    handler, a call of the stored one; whatever is set or nil. *)
Lemma serveSpan_calls_stored sh w r s :
  exists l : list Event,
    log (snd (opentracing.serveSpan env sh w r s)) = (log s ++ l)%list
    /\ forallb (calls_stored_handler sh) l = true.
Proof.
  destruct sh as [h o st en]; destruct o as [tr cn cnf utf sf onf so].
  unfold opentracing.serveSpan, opentracing.GetTracer,
    opentracing.GetComponentName, opentracing.startSpan, opentracing.tag_Set,
    opentracing.spanObserver, opentracing.finish,
    opentracing.handler_ServeHTTP, opentracing.nonnil, calls_stored_handler;
    simpl.
  unfold_go.
  destruct tr, onf; simpl; split_results;
    try (exists []; rewrite app_nil_r; split; reflexivity);
    destruct cnf, utf, so; simpl; split_results;
    try (eexists; split;
         [rewrite <- ?app_assoc; simpl; reflexivity | reflexivity]);
    destruct en, h; simpl; split_results;
    (eexists; split;
     [rewrite <- ?app_assoc; simpl; reflexivity
     | simpl; rewrite ?N.eqb_refl; reflexivity]).
Qed.

Lemma serveSpan_silenced (sh : opentracing.ServerHandler)
  (w : http.ResponseWriter) (r : http.Request) (s : World E) :
  opentracing.serveSpan (silencedEnv env) (silencedHandler sh) w r s
  = opentracing.serveSpan env sh w r s.
Proof.
  destruct sh as [h o st en]; destruct o as [tr cn cnf utf sf onf so].
  unfold opentracing.serveSpan, opentracing.GetTracer,
    opentracing.GetComponentName, opentracing.startSpan, opentracing.tag_Set,
    opentracing.spanObserver, opentracing.finish,
    opentracing.handler_ServeHTTP, opentracing.nonnil, silencedHandler,
    silencedEnv, silenced;
    simpl.
  unfold_go.
  destruct tr, onf; simpl; split_results; try reflexivity;
    destruct cnf, utf, so; simpl; split_results; try reflexivity;
    destruct en, h; simpl; split_results; reflexivity.
Qed.

Lemma Serve_silenced (sh : opentracing.ServerHandler)
  (h : option (http.Handler E)) (w : http.ResponseWriter) (r : http.Request)
  (s : World E) :
  opentracing.Serve (silencedEnv env) (silencedHandler sh) h w r s
  = opentracing.Serve env sh h w r s.
Proof.
  unfold opentracing.Serve, opentracing.nonnil. simpl.
  destruct (opentracing.SpanFilter (opentracing.sh_Option sh)) as [f|];
    unfold_go; [|reflexivity].
  destruct (f r); [reflexivity|].
  destruct (opentracing.Start sh) as [g|]; simpl.
  - destruct (g w r (ext s)) as [[w' r'] e]; simpl. apply serveSpan_silenced.
  - apply serveSpan_silenced.
Qed.

Lemma initialise_vectors (st : prometheus.State) :
  prometheus_run.consistent (prometheus.this st) ->
  exists c hv,
    prometheus.requestsTotal (prometheus.this (prometheus_run.initialise env st))
    = Some c
    /\ prometheus.requestDurations
         (prometheus.this (prometheus_run.initialise env st)) = Some hv
    /\ prometheus.labels (prometheus.this (prometheus_run.initialise env st))
       = prometheus.init_labels (prometheus.sh_Option (prometheus.this st)).
Proof.
  intros Hc.
  destruct (prometheus_facts.initialise_consistent env st Hc
              (prometheus_facts.initialise_once env st))
    as (Hl & [c Hrt] & [hv Hrd]).
  exists c, hv. repeat split; try assumption.
  rewrite Hl. f_equal. apply prometheus_facts.initialise_Option.
Qed.

(** [Serve] keeps the private fields consistent, for the next request. *)
Lemma Serve_keeps_consistent (h : option (http.Handler E))
  (w : http.ResponseWriter) (r : http.Request) (st : prometheus.State) :
  prometheus_run.consistent (prometheus.this st) ->
  prometheus_run.consistent
    (prometheus.this (snd (prometheus.Serve env h w r st))).
Proof.
  intros Hc.
  destruct (initialise_vectors st Hc) as (c & hv & Hrt & Hrd & _).
  rewrite (prometheus_facts.Serve_run env h w r st c hv Hrt Hrd). cbv zeta.
  destruct (prometheus_run.delegate h w r _) as [res e1]. simpl.
  now apply prometheus_facts.initialise_consistent.
Qed.

(** A new metrics handler is consistent: nothing is initialised yet. *)
Lemma new_handler_consistent (h : option (http.Handler E)) :
  prometheus_run.consistent (prometheus.NewServerHandler h).
Proof. intros H. discriminate H. Qed.

(** The handler that the metrics [Middleware] allocates is consistent. *)
Lemma Middleware_new_consistent (option : option prometheus.Option)
  (w : World E) :
  prometheus_run.consistent
    (prometheus.this (prometheus.Middleware_new env option w)).
Proof.
  unfold prometheus.Middleware_new.
  apply (prometheus_facts.initialise_consistent env).
  simpl. destruct option; intros H; discriminate H.
Qed.

(** Calls of the factory are neither records of a request nor
    delegations. *)
Lemma factory_calls_only (l : list Event) :
  forallb (fun ev => match ev with
                     | CallNewCounterVec _ _ _
                     | CallNewHistogramVec _ _ _ => true
                     | _ => false
                     end) l = true ->
  count is_inc l = 0 /\ count is_observe l = 0 /\ count is_delegation l = 0.
Proof.
  unfold count. induction l as [|ev l IH]; simpl; [tauto|].
  intros H. apply andb_prop in H as [Hev Hl].
  destruct ev; try discriminate; simpl; auto.
Qed.

(** *** The properties *)

(** C1 (amended). No tracer disables the pre-hook: whatever tracer is
    configured or in effect, when a pre-hook is set it is skipped for a
    filtered request and invoked exactly once for any other, as the first
    thing the wrapper does and so before the span is created, and the
    rest of the handling is the span part of Serve run on the writer and
    the request that the hook returned. *)
Theorem pre_hook_runs_whatever_the_tracer (sh : opentracing.ServerHandler)
  (h : option (http.Handler E)) (w : http.ResponseWriter) (r : http.Request)
  (s : World E)
  (hook : http.ResponseWriter -> http.Request -> E
          -> (http.ResponseWriter * http.Request) * E) :
  initialised (opentracing.sh_Option sh) = true ->
  opentracing.Start sh = Some hook ->
  let served := opentracing.Serve env sh h w r s in
  if filtered (opentracing.sh_Option sh) r
  then count is_start_hook (added s (snd served)) = 0
  else
    let w' := fst (fst (hook w r (ext s))) in
    let r' := snd (fst (hook w r (ext s))) in
    let e := snd (hook w r (ext s)) in
    served = opentracing.serveSpan env sh w' r'
               {| ext := e; log := log s ++ [CallStart w r] |}
    /\ added s (snd served)
       = CallStart w r :: spanJournal env sh w' r' e
    /\ count is_start_hook (added s (snd served)) = 1
    /\ count is_start_hook (spanJournal env sh w' r' e) = 0
    /\ count is_start_span (spanJournal env sh w' r' e) = 1.
Proof.
  intros Hi Hs. cbv zeta.
  destruct (filtered (opentracing.sh_Option sh) r) eqn:Hf.
  - rewrite (opentracing_facts.Serve_filtered env sh h w r s Hf).
    destruct (delegate _ w r (ext s)) as [res e']. simpl.
    rewrite added_app. unfold delegationJournal.
    now destruct (opentracing.sh_Handler sh).
  - pose proof (Serve_journal sh h w r s Hi Hf) as [Hj _].
    pose proof (opentracing_facts.Serve_traced env sh h w r s
                  (initialised_filter _ Hi) Hf) as Hrun.
    unfold hooked, preHook, preHookJournal
      in Hj, Hrun.
    rewrite Hs in Hj, Hrun.
    destruct (hook w r (ext s)) as [[w' r'] e] eqn:Hh. simpl in *.
    pose proof (spanJournal_shape sh w' r' e) as (Hst & _ & _ & Hno).
    repeat split.
    + exact Hrun.
    + exact Hj.
    + rewrite Hj. unfold count in *. simpl. now rewrite Hno.
    + exact Hno.
    + unfold count. now rewrite Hst.
Qed.

(** C2. Filter bypass: when the filter returns true, the server wrapper
    does nothing but call the stored handler on the writer and the request
    it was given, and the client wrapper nothing but call the transport on
    the request it was given; no span is started or finished, nothing is
    extracted or injected, no hook runs, and the result and the external
    state are those of the delegated call. *)
Theorem filter_bypass (sh : opentracing.ServerHandler)
  (h : option (http.Handler E)) (w : http.ResponseWriter) (r : http.Request)
  (rt : opentracing.RoundTripper) (req : http.Request) (s : World E) :
  filtered (opentracing.sh_Option sh) r = true ->
  filtered (opentracing.rt_Option rt) req = true ->
  let t := transportOf env rt (ext s) in
  opentracing.Serve env sh h w r s
  = (fst (delegate (opentracing.sh_Handler sh) w r (ext s)),
     {| ext := snd (delegate (opentracing.sh_Handler sh) w r
                      (ext s));
        log := log s
               ++ delegationJournal
                    (opentracing.sh_Handler sh) w r |})
  /\ opentracing.RoundTrip env rt req s
     = (fst (http.RoundTrip t req (ext s)),
        {| ext := snd (http.RoundTrip t req (ext s));
           log := log s ++ [CallRoundTrip (http.tid t) req] |})
  /\ (forall p, In p [is_start_span; is_finish; is_extract; is_inject;
                      is_start_hook] ->
        count p (added s (snd (opentracing.Serve env sh h w r s))) = 0
        /\ count p (added s (snd (opentracing.RoundTrip env rt req s))) = 0).
Proof.
  intros Hs Hc. cbv zeta.
  rewrite (opentracing_facts.Serve_filtered env sh h w r s Hs).
  rewrite (opentracing_facts.RoundTrip_filtered env rt req s Hc). cbv zeta.
  destruct (delegate _ w r (ext s)) as [res e'].
  destruct (http.RoundTrip _ req (ext s)) as [res' e'']. simpl.
  repeat split; rewrite added_app; simpl in H;
    unfold delegationJournal;
    destruct (opentracing.sh_Handler sh);
    intuition (subst; reflexivity).
Qed.

(** C3. Exactly-once finish: for a request that is not filtered, the server
    wrapper and the client wrapper each start one span and finish one span,
    the one the tracer returned; the finish is the last thing the wrapper
    does, after the delegated call, whatever handler or transport is
    wrapped and however its call ends (a normal return, an error result or
    a panic). *)
Theorem span_finished_exactly_once (sh : opentracing.ServerHandler)
  (h : option (http.Handler E)) (w : http.ResponseWriter) (r : http.Request)
  (rt : opentracing.RoundTripper) (req : http.Request) (s : World E) :
  initialised (opentracing.sh_Option sh) = true ->
  filtered (opentracing.sh_Option sh) r = false ->
  initialised (opentracing.rt_Option rt) = true ->
  filtered (opentracing.rt_Option rt) req = false ->
  let served := opentracing.Serve env sh h w r s in
  let sent := opentracing.RoundTrip env rt req s in
  (count is_start_span (added s (snd served)) = 1
   /\ List.filter is_finish (added s (snd served))
      = [CallFinish (serverSpan env sh w r s)]
   /\ last (added s (snd served)) = Some (CallFinish (serverSpan env sh w r s))
   /\ exists e, ext (snd served) = Finish env (serverSpan env sh w r s) e)
  /\ (count is_start_span (added s (snd sent)) = 1
      /\ List.filter is_finish (added s (snd sent))
         = [CallFinish (clientSpan env rt req s)]
      /\ last (added s (snd sent)) = Some (CallFinish (clientSpan env rt req s))
      /\ exists e, ext (snd sent) = Finish env (clientSpan env rt req s) e).
Proof.
  intros His Hfs Hic Hfc. cbv zeta. split.
  - destruct (Serve_journal sh h w r s His Hfs) as [-> Hext].
    pose proof (spanJournal_shape sh (fst (fst (hooked sh w r s)))
                  (snd (fst (hooked sh w r s))) (snd (hooked sh w r s)))
      as (Hst & Hfin & Hlast & _).
    pose proof (filter_start_span_preHook sh w r
                  (spanJournal env sh
                     (fst (fst (hooked sh w r s)))
                     (snd (fst (hooked sh w r s))) (snd (hooked sh w r s))))
      as [Hp1 Hp2].
    unfold count. rewrite Hp1, Hp2, Hst, Hfin. fold (serverSpan env sh w r s).
    repeat split; try reflexivity; [|exact Hext].
    rewrite last_app. unfold serverSpan. now rewrite Hlast.
  - destruct (RoundTrip_journal rt req s Hic Hfc) as [-> Hext].
    pose proof (clientJournal_shape rt req (ext s)) as (Hst & Hfin & Hlast).
    unfold count. rewrite Hst, Hfin, Hlast. fold (clientSpan env rt req s).
    repeat split; try reflexivity. exact Hext.
Qed.

(** C4. Parent propagation.  The client wrapper starts its one span with
    the option [ChildOf] of the context of the span that the request's
    context holds, which makes it a child of that context, and with the
    RPC-client kind tag and no reference, a root span, when the context
    holds none.  The server wrapper starts its one span with
    [RPCServerOption] of whatever context the tracer extracts from the
    headers of the request: a child of that context when there is one. *)
Theorem parent_propagation (sh : opentracing.ServerHandler)
  (h : option (http.Handler E)) (w : http.ResponseWriter) (r : http.Request)
  (rt : opentracing.RoundTripper) (req : http.Request) (s : World E) :
  initialised (opentracing.sh_Option sh) = true ->
  filtered (opentracing.sh_Option sh) r = false ->
  initialised (opentracing.rt_Option rt) = true ->
  filtered (opentracing.rt_Option rt) req = false ->
  let opts := clientOpts req in
  let sc := serverParent env sh w r s in
  (List.filter is_start_span
     (added s (snd (opentracing.RoundTrip env rt req s)))
   = [CallStartSpan
        (operationName (opentracing.rt_Option rt) req) opts]
   /\ match http.Ctx req with
      | Some parent =>
          opts = [opentracing_go.ChildOf
                    (Some (opentracing_go.Context parent))]
          /\ opentracing_go.is_child_of (opentracing_go.Context parent)
               (opentracing_go.apply_all opts)
      | None =>
          opts = [ext.SpanKindRPCClient]
          /\ opentracing_go.is_root (opentracing_go.apply_all opts) = true
          /\ opentracing_go.Tags (opentracing_go.apply_all opts)
             !! "span.kind" = Some "client"
      end)
  /\ (List.filter is_start_span
        (added s (snd (opentracing.Serve env sh h w r s)))
      = [CallStartSpan
           (operationName (opentracing.sh_Option sh)
              (snd (fst (hooked sh w r s))))
           [opentracing_go.RPCServerOption sc]]
      /\ sc = fst (fst (opentracing_go.Extract
                          (tracerOf env
                             (opentracing.sh_Option sh)
                             (snd (hooked sh w r s)))
                          (http.Header (snd (fst (hooked sh w r s))))
                          (snd (hooked sh w r s))))
      /\ match sc with
         | Some c =>
             opentracing_go.is_child_of c
               (opentracing_go.apply_all [opentracing_go.RPCServerOption sc])
         | None =>
             opentracing_go.is_root
               (opentracing_go.apply_all [opentracing_go.RPCServerOption sc])
             = true
         end).
Proof.
  intros His Hfs Hic Hfc. cbv zeta. split; [split|repeat split].
  - destruct (RoundTrip_journal rt req s Hic Hfc) as [-> _].
    apply clientJournal_shape.
  - unfold clientOpts, http.SpanFromContext.
    destruct (http.Ctx req) as [parent|]; repeat split; reflexivity.
  - apply Serve_start_span; assumption.
  - apply serverParent_extracted.
  - destruct (serverParent env sh w r s); reflexivity.
Qed.

(** C5. A failed extraction is not an error of the request.  When the
    tracer finds no span context in the headers, whatever error it reports
    with that, the server wrapper starts its span with [RPCServerOption] of
    the nil context, a root span with the server kind tag; the result of
    the call is the result of the handler; and the call is, in result and in
    effect, the call it would be under a tracer that reports no error. *)
Theorem extraction_failure_is_silent (sh : opentracing.ServerHandler)
  (h : option (http.Handler E)) (w : http.ResponseWriter) (r : http.Request)
  (s : World E) (err : error) (e1 : E) :
  initialised (opentracing.sh_Option sh) = true ->
  filtered (opentracing.sh_Option sh) r = false ->
  opentracing_go.Extract
    (tracerOf env (opentracing.sh_Option sh)
       (snd (hooked sh w r s)))
    (http.Header (snd (fst (hooked sh w r s)))) (snd (hooked sh w r s))
  = ((None, err), e1) ->
  let opts := [opentracing_go.RPCServerOption None] in
  let w' := fst (fst (hooked sh w r s)) in
  let r' := snd (fst (hooked sh w r s)) in
  let setup :=
    serverSetup env (opentracing.sh_Option sh) r'
      (snd (hooked sh w r s)) in
  List.filter is_start_span (added s (snd (opentracing.Serve env sh h w r s)))
  = [CallStartSpan
       (operationName (opentracing.sh_Option sh) r') opts]
  /\ opentracing_go.is_root (opentracing_go.apply_all opts) = true
  /\ opentracing_go.Tags (opentracing_go.apply_all opts) !! "span.kind"
     = Some "server"
  /\ fst (opentracing.Serve env sh h w r s)
     = fst (delegate (opentracing.sh_Handler sh) w'
              (http.WithSpan r' (snd (fst setup))) (snd setup))
  /\ opentracing.Serve (silencedEnv env) (silencedHandler sh) h w r s
     = opentracing.Serve env sh h w r s.
Proof.
  intros Hi Hf Hx. cbv zeta. repeat split.
  - rewrite (Serve_start_span sh h w r s Hi Hf).
    now rewrite serverParent_extracted, Hx.
  - rewrite (opentracing_facts.Serve_traced env sh h w r s
               (initialised_filter _ Hi) Hf).
    unfold hooked.
    destruct (preHook sh w r (ext s)) as [[w' r'] e0]. simpl.
    rewrite (opentracing_facts.serveSpan_run env sh w' r' _ Hi). simpl.
    destruct (serverSetup env _ r' e0) as [[sc sp] e2]. simpl.
    now destruct (delegate _ w' _ e2).
  - apply Serve_silenced.
Qed.

(** C6. The result of the wrapped call is handed back as it is.  The client
    wrapper returns the pair that the transport returned for the request
    delegated to it (the request itself when filtered, else the request
    with the injected headers and the span), also when it carries an
    error; Serve of the metrics wrapper returns the error that the
    error-returning form of the handler returned, and nil for a handler
    that has the plain form only; and the tracing server wrapper, whose
    Serve has no result, ends as the call of the stored handler ends.  No
    wrapper turns a panic into a return or a return into a panic. *)
Theorem results_pass_through (rt : opentracing.RoundTripper)
  (req : http.Request) (s : World E) (h : http.Handler E)
  (w : http.ResponseWriter) (r : http.Request) (st : prometheus.State)
  (sh : opentracing.ServerHandler) (h' : option (http.Handler E)) :
  initialised (opentracing.rt_Option rt) = true ->
  prometheus_run.consistent (prometheus.this st) ->
  initialised (opentracing.sh_Option sh) = true ->
  let setup :=
    clientSetup env (opentracing.rt_Option rt) req (ext s) in
  let e := ext (prometheus.world (prometheus_run.initialise env st)) in
  let hk := hooked sh w r s in
  let served :=
    serverSetup env (opentracing.sh_Option sh) (snd (fst hk))
      (snd hk) in
  fst (opentracing.RoundTrip env rt req s)
  = (if filtered (opentracing.rt_Option rt) req
     then fst (http.RoundTrip (transportOf env rt (ext s))
                 req (ext s))
     else fst (http.RoundTrip
                 (transportOf env rt (snd setup))
                 (tracedRequest req (snd (fst setup))
                    (fst (fst setup)))
                 (snd setup)))
  /\ fst (prometheus.Serve env (Some h) w r st)
     = match http.HandleHTTP h with
       | Some handleHTTP => fst (handleHTTP w r e)
       | None => as_nil_error (fst (http.ServeHTTP h w r e))
       end
  /\ fst (opentracing.Serve env sh h' w r s)
     = (if filtered (opentracing.sh_Option sh) r
        then fst (delegate (opentracing.sh_Handler sh) w r
                    (ext s))
        else fst (delegate (opentracing.sh_Handler sh)
                    (fst (fst hk))
                    (http.WithSpan (snd (fst hk)) (snd (fst served)))
                    (snd served))).
Proof.
  intros Hi Hc His. cbv zeta. repeat split.
  - destruct (filtered (opentracing.rt_Option rt) req) eqn:Hf.
    + rewrite (opentracing_facts.RoundTrip_filtered env rt req s Hf). cbv zeta.
      now destruct (http.RoundTrip _ req (ext s)).
    + rewrite (opentracing_facts.RoundTrip_traced env rt req s Hi Hf).
      destruct (clientSetup env _ req (ext s)) as [[sp c] e1].
      simpl. now destruct (http.RoundTrip _ _ e1).
  - destruct (initialise_vectors st Hc) as (c & hv & Hrt & Hrd & _).
    rewrite (prometheus_facts.Serve_run env (Some h) w r st c hv Hrt Hrd).
    cbv zeta. unfold prometheus_run.delegate.
    destruct (http.HandleHTTP h) as [f|].
    + now destruct (f w r _).
    + now destruct (http.ServeHTTP h w r _) as [[[]|v] e1].
  - destruct (filtered (opentracing.sh_Option sh) r) eqn:Hf.
    + rewrite (opentracing_facts.Serve_filtered env sh h' w r s Hf).
      now destruct (delegate _ w r (ext s)).
    + rewrite (opentracing_facts.Serve_traced env sh h' w r s
                 (initialised_filter _ His) Hf).
      unfold hooked.
      destruct (preHook sh w r (ext s)) as [[w1 r1] e0]. simpl.
      rewrite (opentracing_facts.serveSpan_run env sh w1 r1 _ His). simpl.
      destruct (serverSetup env _ r1 e0) as [[sc sp] e2].
      simpl. now destruct (delegate _ w1 _ e2).
Qed.

(** C7. One request through the metrics wrapper records one increment of
    the counter and one observation of the histogram, after the delegated
    call and however it ended, both under the same label map.  The map has
    exactly the labels that the option selects among method, path and code,
    with the method and the path of the request; the code is the status
    that the writer reports once the delegated call is over when the writer
    has a StatusCode method, and 200 otherwise.  This holds of a new
    handler and of one that has served requests: the private fields stay
    consistent with the option. *)
Theorem metrics_recorded_once (h : option (http.Handler E))
  (w : http.ResponseWriter) (r : http.Request) (st : prometheus.State) :
  prometheus_run.consistent (prometheus.this st) ->
  let st1 := prometheus_run.initialise env st in
  let e1 := snd (prometheus_run.delegate h w r (ext (prometheus.world st1))) in
  let code := if http.HasStatusCode w then StatusCode env w e1 else 200%Z in
  let labels := prometheus_run.labelsOf (prometheus.this st1) code r in
  let o := prometheus.sh_Option (prometheus.this st) in
  let j := added (prometheus.world st)
             (prometheus.world (snd (prometheus.Serve env h w r st))) in
  count is_inc j = 1 /\ count is_observe j = 1
  /\ (exists c hv elapsed (pre : list Event),
        j = (pre ++ prometheus_run.delegationJournal h w r
             ++ [CallInc c labels; CallObserve hv labels elapsed])%list
        /\ count is_inc pre = 0 /\ count is_observe pre = 0
        /\ count is_delegation pre = 0)
  /\ dom labels = list_to_set (C := gset string) (prometheus.init_labels o)
  /\ labels !! "method"
     = (if prometheus.Method o then Some (http.Method r) else None)
  /\ labels !! "path"
     = (if prometheus.Path o then Some (http.Path (http.Url r)) else None)
  /\ labels !! "code"
     = (if prometheus.Code o then Some (pretty code) else None)
  /\ prometheus_run.consistent
       (prometheus.this (snd (prometheus.Serve env h w r st))).
Proof.
  intros Hc. cbv zeta.
  destruct (initialise_vectors st Hc) as (c & hv & Hrt & Hrd & Hl).
  destruct (prometheus_facts.initialise_journal env st) as (pre & Hpre & Hfac).
  destruct (factory_calls_only pre Hfac) as (Hi & Ho & Hd).
  destruct (prometheus_facts.initialise_Option env st) as [Hopt _].
  rewrite <- Hopt in Hl.
  rewrite (prometheus_facts.Serve_run env h w r st c hv Hrt Hrd) in *.
  cbv zeta in *. unfold prometheus_run.codeOf in *.
  destruct (prometheus_run.delegate h w r _) as [res e1]. simpl in *.
  set (code := if http.HasStatusCode w then StatusCode env w e1 else 200%Z).
  set (labels := prometheus_run.labelsOf _ code r).
  destruct (prometheus_facts.labelsOf_lookup _ code r Hl)
    as (Hm & Hp & Hcd & Hdom).
  rewrite Hopt in Hm, Hp, Hcd, Hdom. fold labels in Hm, Hp, Hcd, Hdom.
  rewrite Hpre, <- app_assoc, added_app, !count_app, Hi, Ho.
  assert (Hdel : count is_inc (prometheus_run.delegationJournal h w r) = 0
                 /\ count is_observe (prometheus_run.delegationJournal h w r)
                    = 0).
  { unfold prometheus_run.delegationJournal.
    destruct h as [hh|]; [destruct (http.HandleHTTP hh)|]; split; reflexivity. }
  destruct Hdel as [-> ->].
  repeat split; try assumption; try reflexivity;
    try (eexists; eassumption).
  exists c, hv, (Now env (Inc env c labels e1)
                 - Now env (ext (prometheus.world
                                   (prometheus_run.initialise env st))))%Z, pre.
  repeat split; assumption.
Qed.

(** C8. Option.Init is idempotent and never replaces what the user set:
    initialising twice gives the option that initialising once gives; the
    tracer and the component name are left as they are; a function field
    that was set keeps its function, and one that was nil gets the
    default. *)
Theorem Init_idempotent_keeps_user_fields (o : opentracing.Option (E:=E)) :
  opentracing.Init (opentracing.Init o) = opentracing.Init o
  /\ opentracing.Tracer (opentracing.Init o) = opentracing.Tracer o
  /\ opentracing.ComponentName (opentracing.Init o)
     = opentracing.ComponentName o
  /\ opentracing.ComponentNameFunc (opentracing.Init o)
     = Some (default opentracing.default_ComponentNameFunc
               (opentracing.ComponentNameFunc o))
  /\ opentracing.URLTagFunc (opentracing.Init o)
     = Some (default opentracing.default_URLTagFunc
               (opentracing.URLTagFunc o))
  /\ opentracing.SpanFilter (opentracing.Init o)
     = Some (default opentracing.default_SpanFilter
               (opentracing.SpanFilter o))
  /\ opentracing.SpanObserver (opentracing.Init o)
     = Some (default opentracing.default_SpanObserver
               (opentracing.SpanObserver o))
  /\ opentracing.OperationNameFunc (opentracing.Init o)
     = Some (default opentracing.default_OperationNameFunc
               (opentracing.OperationNameFunc o)).
Proof.
  destruct o as [tc cn cnf utf sf onf so].
  destruct cnf, utf, sf, onf, so; repeat split; reflexivity.
Qed.

(** C9. Both surfaces of both server handlers run the one Serve operation
    on the stored handler: they leave the same world behind (the same
    spans, metrics and delegated call), and differ only in how they present
    the result, ServeHTTP dropping it and HandleHTTP returning it. *)
Theorem both_surfaces_run_Serve (sh : opentracing.ServerHandler)
  (rw : http.ResponseWriter) (req : http.Request) (s : World E)
  (st : prometheus.State) :
  let served := opentracing.Serve env sh (opentracing.sh_Handler sh) rw req s in
  let measured :=
    prometheus.Serve env (prometheus.sh_Handler (prometheus.this st)) rw req st in
  opentracing.ServeHTTP env sh rw req s = served
  /\ opentracing.HandleHTTP env sh rw req s
     = (as_nil_error (fst served), snd served)
  /\ prometheus.HandleHTTP env rw req st = measured
  /\ prometheus.ServeHTTP env rw req st = (as_plain (fst measured), snd measured).
Proof.
  cbv zeta. repeat split.
  - unfold opentracing.HandleHTTP. unfold_go.
    now destruct (opentracing.Serve env sh _ rw req s) as [[[]|v] s'].
  - unfold prometheus.ServeHTTP, prometheus.HandleHTTP. unfold_go.
    now destruct (prometheus.Serve env _ rw req st) as [[err|v] st'].
Qed.

(** Every call of a handler that [Serve] makes is a call of the stored
    one. *)
Lemma Serve_calls_stored (sh : opentracing.ServerHandler)
  (h : option (http.Handler E)) (w : http.ResponseWriter) (r : http.Request)
  (s : World E) :
  forallb (calls_stored_handler sh)
    (added s (snd (opentracing.Serve env sh h w r s))) = true.
Proof.
  unfold opentracing.Serve, opentracing.nonnil.
  destruct (opentracing.SpanFilter (opentracing.sh_Option sh)) as [f|];
    unfold_go; [|now rewrite added_self].
  destruct (f r).
  - unfold opentracing.handler_ServeHTTP, calls_stored_handler.
    destruct (opentracing.sh_Handler sh) as [hh|]; unfold_go;
      [|now rewrite added_self].
    destruct (http.ServeHTTP hh w r (ext s)) as [res e']; simpl.
    rewrite added_app. simpl. now rewrite N.eqb_refl.
  - destruct (opentracing.Start sh) as [g|]; simpl.
    + destruct (g w r (ext s)) as [[w' r'] e]; simpl.
      destruct (serveSpan_calls_stored sh w' r'
                  {| ext := e; log := log s ++ [CallStart w r] |})
        as [l [Hl Hok]].
      simpl in Hl. unfold added. rewrite Hl, <- app_assoc, drop_app_length.
      simpl. exact Hok.
    + destruct (serveSpan_calls_stored sh w r s) as [l [Hl Hok]].
      unfold added. rewrite Hl, drop_app_length. exact Hok.
Qed.

(** C10. Serve never looks at the handler it is given: two calls that
    differ in that argument alone are the same call, and so are two
    handlers that Middleware builds from different next handlers; every
    call of a handler that Serve makes, on its own or inside the handler
    that Middleware builds, is a call of the stored one and never one of
    the handler passed in. *)
Theorem Serve_ignores_its_handler_argument (sh : opentracing.ServerHandler)
  (h1 h2 : option (http.Handler E)) (w : http.ResponseWriter)
  (r : http.Request) (s : World E) :
  opentracing.Serve env sh h1 w r s = opentracing.Serve env sh h2 w r s
  /\ opentracing.Middleware env sh h1 w r s
     = opentracing.Middleware env sh h2 w r s
  /\ forallb (calls_stored_handler sh)
       (added s (snd (opentracing.Serve env sh h1 w r s))) = true
  /\ forallb (calls_stored_handler sh)
       (added s (snd (opentracing.Middleware env sh h1 w r s))) = true.
Proof.
  split; [reflexivity|]. split; [reflexivity|]. split.
  - apply Serve_calls_stored.
  - unfold opentracing.Middleware.
    exact (Serve_calls_stored
             {| opentracing.sh_Handler := opentracing.sh_Handler sh;
                opentracing.sh_Option :=
                  opentracing.Init (opentracing.sh_Option sh);
                opentracing.Start := opentracing.Start sh;
                opentracing.End_ := opentracing.End_ sh |} h1 w r s).
Qed.

End Properties.

(* ===================================================================== *)
(** ** The properties at work on the concrete world                       *)
(* ===================================================================== *)

Import world opentracing_run sample.

(** C1, as stated, fails: with the no-op tracer in effect, whether because
    no tracer is configured or because the no-op tracer is the configured
    one, the pre-hook of a request that is not filtered is invoked, not
    skipped. *)
Lemma pre_hook_runs_under_the_noop_tracer :
  (opentracing.Tracer (opentracing.sh_Option hookedServer) = None
   /\ tracerOf env (opentracing.sh_Option hookedServer) boot
      = opentracing_go.NoopTracer
   /\ opentracing.Start hookedServer = Some wrapWriter
   /\ log (snd (opentracing.Serve env hookedServer None plainWriter get start))
      !! 0%nat = Some (CallStart plainWriter get)
   /\ count is_start_hook
        (log (snd (opentracing.Serve env hookedServer None plainWriter get
                     start))) <> 0)
  /\ (opentracing.Tracer (opentracing.sh_Option noopServer)
      = Some opentracing_go.NoopTracer
      /\ opentracing.Start noopServer = Some wrapWriter
      /\ log (snd (opentracing.Serve env noopServer None plainWriter get start))
         !! 0%nat = Some (CallStart plainWriter get)
      /\ count is_start_hook
           (log (snd (opentracing.Serve env noopServer None plainWriter get
                        start))) <> 0).
Proof.
  repeat split; try reflexivity; vm_compute; discriminate.
Qed.

(** C1 (amended) at work: the hooked server under the no-op tracer, on a
    request that is not filtered. *)
Lemma pre_hook_runs_whatever_the_tracer_witness :
  initialised (opentracing.sh_Option hookedServer) = true
  /\ opentracing.Start hookedServer = Some wrapWriter
  /\ opentracing.Serve env hookedServer None plainWriter get start
     = opentracing.serveSpan env hookedServer statusWriter get
         {| ext := boot; log := [CallStart plainWriter get] |}
  /\ added start
       (snd (opentracing.Serve env hookedServer None plainWriter get start))
     = CallStart plainWriter get
       :: spanJournal env hookedServer statusWriter get boot
  /\ count is_start_hook
       (added start
          (snd (opentracing.Serve env hookedServer None plainWriter get start)))
     = 1
  /\ count is_start_hook
       (spanJournal env hookedServer statusWriter get boot) = 0
  /\ count is_start_span
       (spanJournal env hookedServer statusWriter get boot) = 1.
Proof.
  split; [reflexivity|]. split; [reflexivity|].
  exact (pre_hook_runs_whatever_the_tracer env hookedServer None plainWriter
           get start wrapWriter eq_refl eq_refl).
Defined.

(** C2 at work: a server and a client that filter every request, given a
    request with a tracing header and a request inside a span. *)
Lemma filter_bypass_witness :
  filtered (opentracing.sh_Option filteringServer) getTraced
  = true
  /\ filtered (opentracing.rt_Option filteringClient)
       getInSpan = true
  /\ opentracing.Serve env filteringServer None plainWriter getTraced start
     = (Done tt,
        {| ext := tick 3 404 boot;
           log := [CallServeHTTP 1 plainWriter getTraced] |})
  /\ opentracing.RoundTrip env filteringClient getInSpan start
     = (Done (None, Some "connection refused"),
        {| ext := boot; log := [CallRoundTrip 4 getInSpan] |})
  /\ (forall p, In p [is_start_span; is_finish; is_extract; is_inject;
                      is_start_hook] ->
        count p (added start
                   (snd (opentracing.Serve env filteringServer None
                           plainWriter getTraced start))) = 0
        /\ count p (added start
                      (snd (opentracing.RoundTrip env filteringClient
                              getInSpan start))) = 0).
Proof.
  split; [reflexivity|]. split; [reflexivity|].
  exact (filter_bypass env filteringServer None plainWriter getTraced
           filteringClient getInSpan start eq_refl eq_refl).
Defined.

(** C3 at work: a handler that panics and a transport that returns an
    error; the span is finished once in both. *)
Lemma span_finished_exactly_once_witness :
  initialised
    (opentracing.sh_Option (tracedServer panicking)) = true
  /\ filtered
       (opentracing.sh_Option (tracedServer panicking)) get = false
  /\ initialised (opentracing.rt_Option tracedClient) = true
  /\ filtered (opentracing.rt_Option tracedClient) get = false
  /\ fst (opentracing.Serve env (tracedServer panicking) None plainWriter get
            start) = Panic "oops"
  /\ fst (opentracing.RoundTrip env tracedClient get start)
     = Done (None, Some "connection refused")
  /\ (count is_start_span
        (added start
           (snd (opentracing.Serve env (tracedServer panicking) None
                   plainWriter get start))) = 1
      /\ List.filter is_finish
           (added start
              (snd (opentracing.Serve env (tracedServer panicking) None
                      plainWriter get start)))
         = [CallFinish firstSpan]
      /\ last (added start
                 (snd (opentracing.Serve env (tracedServer panicking) None
                         plainWriter get start)))
         = Some (CallFinish firstSpan)
      /\ exists e,
           ext (snd (opentracing.Serve env (tracedServer panicking) None
                       plainWriter get start))
           = Finish env firstSpan e)
  /\ (count is_start_span
        (added start (snd (opentracing.RoundTrip env tracedClient get start)))
      = 1
      /\ List.filter is_finish
           (added start
              (snd (opentracing.RoundTrip env tracedClient get start)))
         = [CallFinish firstSpan]
      /\ last (added start
                 (snd (opentracing.RoundTrip env tracedClient get start)))
         = Some (CallFinish firstSpan)
      /\ exists e,
           ext (snd (opentracing.RoundTrip env tracedClient get start))
           = Finish env firstSpan e).
Proof.
  do 6 (split; [reflexivity|]).
  exact (span_finished_exactly_once env (tracedServer panicking) None
           plainWriter get tracedClient get start
           eq_refl eq_refl eq_refl eq_refl).
Defined.

(** C4 at work: a client request inside the span [parent], and a server
    request that carries the header of span context 7. *)
Lemma parent_propagation_witness :
  initialised
    (opentracing.sh_Option (tracedServer notFound)) = true
  /\ filtered
       (opentracing.sh_Option (tracedServer notFound)) getTraced = false
  /\ initialised (opentracing.rt_Option tracedClient) = true
  /\ filtered (opentracing.rt_Option tracedClient) getInSpan
     = false
  /\ (List.filter is_start_span
        (added start
           (snd (opentracing.RoundTrip env tracedClient getInSpan start)))
      = [CallStartSpan "HTTP GET /widgets/42"
           [opentracing_go.ChildOf (Some 41%N)]]
      /\ [opentracing_go.ChildOf (Some 41%N)]
         = [opentracing_go.ChildOf (Some (opentracing_go.Context parent))]
      /\ opentracing_go.is_child_of (opentracing_go.Context parent)
           (opentracing_go.apply_all [opentracing_go.ChildOf (Some 41%N)]))
  /\ (List.filter is_start_span
        (added start
           (snd (opentracing.Serve env (tracedServer notFound) None
                   plainWriter getTraced start)))
      = [CallStartSpan "HTTP GET /widgets/42"
           [opentracing_go.RPCServerOption (Some 7%N)]]
      /\ Some 7%N
         = fst (fst (opentracing_go.Extract testTracer
                       (http.Header getTraced) boot))
      /\ opentracing_go.is_child_of 7%N
           (opentracing_go.apply_all
              [opentracing_go.RPCServerOption (Some 7%N)])).
Proof.
  do 4 (split; [reflexivity|]).
  exact (parent_propagation env (tracedServer notFound) None plainWriter
           getTraced tracedClient getInSpan start
           eq_refl eq_refl eq_refl eq_refl).
Defined.

(** C5 at work: a server request with no tracing header. *)
Lemma extraction_failure_is_silent_witness :
  initialised
    (opentracing.sh_Option (tracedServer notFound)) = true
  /\ filtered
       (opentracing.sh_Option (tracedServer notFound)) get = false
  /\ opentracing_go.Extract testTracer (http.Header get) boot
     = ((None, Some "opentracing: SpanContext not found in Extract carrier"),
        boot)
  /\ List.filter is_start_span
       (added start
          (snd (opentracing.Serve env (tracedServer notFound) None plainWriter
                  get start)))
     = [CallStartSpan "HTTP GET /widgets/42"
          [opentracing_go.RPCServerOption None]]
  /\ opentracing_go.is_root
       (opentracing_go.apply_all [opentracing_go.RPCServerOption None]) = true
  /\ opentracing_go.Tags
       (opentracing_go.apply_all [opentracing_go.RPCServerOption None])
     !! "span.kind" = Some "server"
  /\ fst (opentracing.Serve env (tracedServer notFound) None plainWriter get
            start) = Done tt
  /\ opentracing.Serve (silencedEnv env) (silencedHandler (tracedServer notFound))
       None plainWriter get start
     = opentracing.Serve env (tracedServer notFound) None plainWriter get start.
Proof.
  do 3 (split; [reflexivity|]).
  exact (extraction_failure_is_silent env (tracedServer notFound) None
           plainWriter get start
           (Some "opentracing: SpanContext not found in Extract carrier") boot
           eq_refl eq_refl eq_refl).
Defined.

(** C6 at work: the error of the transport, the error of the handler and
    the panic of the handler come back as they are. *)
Lemma results_pass_through_witness :
  initialised (opentracing.rt_Option tracedClient) = true
  /\ prometheus_run.consistent (prometheus.this (fresh failing))
  /\ initialised
       (opentracing.sh_Option (tracedServer panicking)) = true
  /\ fst (opentracing.RoundTrip env tracedClient get start)
     = Done (None, Some "connection refused")
  /\ fst (prometheus.Serve env (Some failing) plainWriter get (fresh failing))
     = Done (Some "boom")
  /\ fst (opentracing.Serve env (tracedServer panicking) None plainWriter get
            start) = Panic "oops".
Proof.
  split; [reflexivity|]. split; [apply new_handler_consistent|].
  split; [reflexivity|].
  exact (results_pass_through env tracedClient get start failing plainWriter
           get (fresh failing) (tracedServer panicking) None eq_refl
           (new_handler_consistent (Some failing)) eq_refl).
Defined.

(** C7 at work: the first request of a new handler, answered 404 through a
    writer that reports its status. *)
Lemma metrics_recorded_once_witness :
  prometheus_run.consistent (prometheus.this (fresh notFound))
  /\ count is_inc
       (added start
          (prometheus.world
             (snd (prometheus.Serve env (Some notFound) statusWriter get
                     (fresh notFound))))) = 1
  /\ count is_observe
       (added start
          (prometheus.world
             (snd (prometheus.Serve env (Some notFound) statusWriter get
                     (fresh notFound))))) = 1
  /\ (exists c hv elapsed (pre : list Event),
        added start
          (prometheus.world
             (snd (prometheus.Serve env (Some notFound) statusWriter get
                     (fresh notFound))))
        = (pre ++ [CallServeHTTP 1 statusWriter get]
           ++ [CallInc c
                 (prometheus_run.labelsOf
                    (prometheus.this
                       (prometheus_run.initialise env (fresh notFound)))
                    404 get);
               CallObserve hv
                 (prometheus_run.labelsOf
                    (prometheus.this
                       (prometheus_run.initialise env (fresh notFound)))
                    404 get) elapsed])%list
        /\ count is_inc pre = 0 /\ count is_observe pre = 0
        /\ count is_delegation pre = 0)
  /\ dom (prometheus_run.labelsOf
            (prometheus.this (prometheus_run.initialise env (fresh notFound)))
            404 get)
     = list_to_set (C := gset string) ["method"; "code"]
  /\ prometheus_run.labelsOf
       (prometheus.this (prometheus_run.initialise env (fresh notFound)))
       404 get !! "method" = Some "GET"
  /\ prometheus_run.labelsOf
       (prometheus.this (prometheus_run.initialise env (fresh notFound)))
       404 get !! "path" = None
  /\ prometheus_run.labelsOf
       (prometheus.this (prometheus_run.initialise env (fresh notFound)))
       404 get !! "code" = Some "404"
  /\ prometheus_run.consistent
       (prometheus.this
          (snd (prometheus.Serve env (Some notFound) statusWriter get
                  (fresh notFound)))).
Proof.
  split; [apply new_handler_consistent|].
  exact (metrics_recorded_once env (Some notFound) statusWriter get
           (fresh notFound) (new_handler_consistent (Some notFound))).
Defined.

(** The scenario of a GET of /widgets/42 answered 404, through the metrics
    wrapper with the default labels: the journal of the first request. *)
Example widgets_404 :
  added start
    (prometheus.world
       (snd (prometheus.Serve env (Some notFound) statusWriter get
               (fresh notFound))))
  = [CallNewCounterVec 0%N
       {| client_golang.Namespace := ""; client_golang.Subsystem := "";
          client_golang.Name := "http_requests_total";
          client_golang.Help := "The total number of the http requests";
          client_golang.Buckets := [] |} ["method"; "code"];
     CallNewHistogramVec 0%N
       {| client_golang.Namespace := ""; client_golang.Subsystem := "";
          client_golang.Name := "http_request_duration_seconds";
          client_golang.Help := "The duration to handle the http request";
          client_golang.Buckets := prometheus.DefaultHistogramBuckets |}
       ["method"; "code"];
     CallServeHTTP 1 statusWriter get;
     CallInc {| client_golang.cv := 1 |} {["method" := "GET"; "code" := "404"]};
     CallObserve {| client_golang.hv := 2 |}
       {["method" := "GET"; "code" := "404"]} 3].
Proof. vm_compute. reflexivity. Qed.

(** The same request through a writer with no StatusCode method is counted
    under code 200, whatever the handler answered. *)
Example plain_writer_counts_200 :
  List.filter is_inc
    (added start
       (prometheus.world
          (snd (prometheus.Serve env (Some notFound) plainWriter get
                  (fresh notFound)))))
  = [CallInc {| client_golang.cv := 1 |} {["method" := "GET"; "code" := "200"]}]
  /\ status
       (ext (prometheus.world
               (snd (prometheus.Serve env (Some notFound) plainWriter get
                       (fresh notFound))))) = 404%Z.
Proof. split; vm_compute; reflexivity. Qed.

(** The middleware of the tracing package, built from a handler that
    stores none, does not reach the next handler: the call panics on the
    nil stored handler after the span is set up, and the span is finished
    all the same. *)
Example Middleware_drops_next :
  fst (opentracing.Middleware env (opentracing.NewServerHandler None)
         (Some notFound) plainWriter get start)
  = Panic nil_dereference
  /\ count is_delegation
       (log (snd (opentracing.Middleware env (opentracing.NewServerHandler None)
                    (Some notFound) plainWriter get start))) = 0
  /\ count is_finish
       (log (snd (opentracing.Middleware env (opentracing.NewServerHandler None)
                    (Some notFound) plainWriter get start))) = 1.
Proof. repeat split; reflexivity. Qed.

(* ===================================================================== *)
(** ** Further properties of the wrappers                                *)
(* ===================================================================== *)

Module prometheus_more_facts.

Import world prometheus prometheus_run prometheus_more.

(** One turn of the loop of [handle], read through a key. *)
Lemma label_case_lookup name code r (m : gmap string string) k :
  label_case name code r m !! k
  = if knownLabel name && String.eqb name k then Some (labelValue name code r)
    else m !! k.
Proof.
  unfold label_case, knownLabel, labelValue.
  destruct (String.eqb name k) eqn:Hk.
  - apply String.eqb_eq in Hk. subst k. rewrite andb_true_r.
    destruct (String.eqb name "code") eqn:H1; cbn [orb];
      [apply String.eqb_eq in H1; subst; apply lookup_insert_eq|].
    destruct (String.eqb name "path") eqn:H2; cbn [orb];
      [apply String.eqb_eq in H2; subst; apply lookup_insert_eq|].
    destruct (String.eqb name "method") eqn:H3;
      [apply String.eqb_eq in H3; subst; apply lookup_insert_eq|reflexivity].
  - apply String.eqb_neq in Hk. rewrite andb_false_r.
    destruct (String.eqb name "code") eqn:H1;
      [apply String.eqb_eq in H1; subst; now apply lookup_insert_ne|].
    destruct (String.eqb name "path") eqn:H2;
      [apply String.eqb_eq in H2; subst; now apply lookup_insert_ne|].
    destruct (String.eqb name "method") eqn:H3;
      [apply String.eqb_eq in H3; subst; now apply lookup_insert_ne|].
    reflexivity.
Qed.

(** The loop of [handle] with [n] turns left, read through a key: the
    names at the first [n] indices have been seen. *)
Lemma label_loop_lookup (names : list string) n code r (m : gmap string string) k :
  label_loop names n code r m !! k
  = if knownLabel k && bool_decide (k ∈ take n names)
    then Some (labelValue k code r) else m !! k.
Proof.
  revert m. induction n as [|i IH]; intros m.
  - cbn [label_loop]. rewrite take_0.
    rewrite bool_decide_eq_false_2 by apply not_elem_of_nil.
    now rewrite andb_false_r.
  - cbn [label_loop]. destruct (names !! i) as [name|] eqn:Hi.
    + rewrite IH, label_case_lookup.
      rewrite (take_S_r _ _ _ Hi).
      destruct (knownLabel k) eqn:Hk; cbn [andb]; [|
        destruct (String.eqb_spec name k) as [->|Hne];
        [rewrite Hk|rewrite andb_false_r]; reflexivity].
      destruct (bool_decide (k ∈ take i names)) eqn:Hin.
      * apply bool_decide_eq_true in Hin.
        rewrite bool_decide_eq_true_2; [reflexivity|]. apply elem_of_app; auto.
      * apply bool_decide_eq_false in Hin.
        destruct (String.eqb_spec name k) as [->|Hne].
        -- rewrite Hk. cbn [andb]. rewrite bool_decide_eq_true_2; [reflexivity|].
           apply elem_of_app. right. apply list_elem_of_singleton. reflexivity.
        -- rewrite andb_false_r. rewrite bool_decide_eq_false_2; [reflexivity|].
           intros [H|H]%elem_of_app; [auto|]. apply list_elem_of_singleton in H. congruence.
    + rewrite IH. apply lookup_ge_None in Hi.
      rewrite !take_ge by lia. reflexivity.
Qed.

Section Facts.

Context {E : Type} (env : Env E).

(** [_init] after the first call does nothing. *)
Lemma initialise_again (st : State (E:=E)) :
  once (this st) = true -> initialise env st = st.
Proof.
  intros Ho. unfold initialise, _init. unfold_go. rewrite Ho.
  now destruct st.
Qed.

(** The first call of [_init] computed. *)
Lemma initialise_first (st : State (E:=E)) :
  once (this st) = false ->
  initialise env st
  = let o := sh_Option (this st) in
    let '(c, hv, e) := newVectors env o (ext (world st)) in
    {| this := {| sh_Handler := sh_Handler (this st); sh_Option := o;
                  once := true; labels := init_labels o;
                  requestsTotal := Some c; requestDurations := Some hv |};
       world := {| ext := e;
                   log := (log (world st) ++ initJournal env o)%list |} |}.
Proof.
  intros Ho.
  unfold initialise, _init, _init2, liftW, assign, newVectors, initJournal,
    registererOf, histogramOpts, counterOpts.
  unfold_go. rewrite Ho. simpl.
  destruct (Registerer (sh_Option (this st))) as [reg|];
    destruct (Buckets (sh_Option (this st))) as [|b bs] eqn:Hb; simpl;
    split_results; rewrite <- ?app_assoc; reflexivity.
Qed.

End Facts.

End prometheus_more_facts.


Section MoreProperties.
Context {E : Type} (env : world.Env E).
Import world opentracing_run journal opentracing_more prometheus_more.

(** The parts of the journal of the span part of [Serve]: the one
    delegation, the post-hook, the tags, and what comes before them. *)
Lemma spanJournal_parts (sh : opentracing.ServerHandler)
  (w : http.ResponseWriter) (r : http.Request) (e : E) :
  let sp := snd (fst (serverSetup env (opentracing.sh_Option sh) r e)) in
  let j := spanJournal env sh w r e in
  List.filter is_delegation j
  = delegationJournal (opentracing.sh_Handler sh) w (http.WithSpan r sp)
  /\ List.filter is_end_hook j = endJournal sh w (http.WithSpan r sp) sp
  /\ tagsOf j
     = [(ext.HTTPMethod, http.Method r);
        (ext.Component, componentName (opentracing.sh_Option sh) r);
        (ext.HTTPUrl, urlTag (opentracing.sh_Option sh) (http.Url r))]
  /\ exists pre,
       j = (pre ++ delegationJournal (opentracing.sh_Handler sh) w
                     (http.WithSpan r sp)
            ++ endJournal sh w (http.WithSpan r sp) sp ++ [CallFinish sp])%list
       /\ count is_delegation pre = 0 /\ count is_end_hook pre = 0
       /\ count is_finish pre = 0.
Proof.
  unfold spanJournal.
  destruct (serverSetup env _ r e) as [[sc sp] e1]. simpl.
  unfold delegationJournal, endJournal.
  repeat split;
    try (destruct (opentracing.sh_Handler sh), (opentracing.End_ sh);
         reflexivity).
  exists (serverSetupJournal (opentracing.sh_Option sh) r sc sp).
  repeat split; reflexivity.
Qed.

(** The entry of the pre-hook is no entry of any other kind. *)
Lemma filter_preHook (p : Event -> bool) (sh : opentracing.ServerHandler (E:=E))
  (w : http.ResponseWriter) (r : http.Request) (j : list Event) :
  (forall w r, p (CallStart w r) = false) ->
  List.filter p (preHookJournal sh w r ++ j) = List.filter p j.
Proof.
  intros Hp. unfold preHookJournal.
  destruct (opentracing.Start sh); simpl; [rewrite Hp|]; reflexivity.
Qed.

(** X1. Each wrapper hands a request on exactly once.  One call of the
    tracing Serve makes one call of the stored handler, filtered or not, and
    none when no handler is stored; one call of RoundTrip makes one call of
    the transport; one call of the metrics Serve makes one call of the
    handler it was given, and none when it was given nil. *)
Theorem delegated_exactly_once (sh : opentracing.ServerHandler)
  (h : option (http.Handler E)) (w : http.ResponseWriter) (r : http.Request)
  (rt : opentracing.RoundTripper) (req : http.Request) (s : World E)
  (h' : option (http.Handler E)) (st : prometheus.State) :
  initialised (opentracing.sh_Option sh) = true ->
  initialised (opentracing.rt_Option rt) = true ->
  prometheus_run.consistent (prometheus.this st) ->
  count is_delegation (added s (snd (opentracing.Serve env sh h w r s)))
  = (if opentracing.sh_Handler sh is Some _ then 1 else 0)
  /\ count is_delegation (added s (snd (opentracing.RoundTrip env rt req s)))
     = 1
  /\ count is_delegation
       (added (prometheus.world st)
          (prometheus.world (snd (prometheus.Serve env h' w r st))))
     = (if h' is Some _ then 1 else 0).
Proof.
  intros His Hic Hc. repeat split.
  - destruct (filtered (opentracing.sh_Option sh) r) eqn:Hf.
    + rewrite (opentracing_facts.Serve_filtered env sh h w r s Hf).
      destruct (delegate _ w r (ext s)) as [res e']. simpl.
      rewrite added_app. unfold delegationJournal.
      now destruct (opentracing.sh_Handler sh).
    + destruct (Serve_journal env sh h w r s His Hf) as [-> _].
      unfold count. rewrite filter_preHook by reflexivity.
      rewrite (proj1 (spanJournal_parts sh _ _ _)).
      unfold delegationJournal. now destruct (opentracing.sh_Handler sh).
  - destruct (filtered (opentracing.rt_Option rt) req) eqn:Hf.
    + rewrite (opentracing_facts.RoundTrip_filtered env rt req s Hf). cbv zeta.
      destruct (http.RoundTrip _ req (ext s)) as [res e']. simpl.
      now rewrite added_app.
    + destruct (RoundTrip_journal env rt req s Hic Hf) as [-> _].
      unfold clientJournal.
      now destruct (clientSetup env _ req (ext s)) as [[sp c] e1].
  - destruct (initialise_vectors env st Hc) as (c & hv & Hrt & Hrd & _).
    destruct (prometheus_facts.initialise_journal env st) as (pre & Hpre & Hfac).
    destruct (factory_calls_only pre Hfac) as (_ & _ & Hd).
    rewrite (prometheus_facts.Serve_run env h' w r st c hv Hrt Hrd). cbv zeta.
    destruct (prometheus_run.delegate h' w r _) as [res e1]. simpl.
    rewrite Hpre, <- app_assoc, added_app, !count_app, Hd.
    unfold prometheus_run.delegationJournal.
    destruct h' as [hh|]; [destruct (http.HandleHTTP hh)|]; reflexivity.
Qed.

(** The way a call of the tracing [Serve] ends is the way the call of the
    stored handler ends. *)
Lemma Serve_outcome (sh : opentracing.ServerHandler)
  (h : option (http.Handler E)) (w : http.ResponseWriter) (r : http.Request)
  (s : World E) :
  initialised (opentracing.sh_Option sh) = true ->
  let hk := hooked sh w r s in
  let setup := serverSetup env (opentracing.sh_Option sh) (snd (fst hk)) (snd hk) in
  let out :=
    if filtered (opentracing.sh_Option sh) r
    then delegate (opentracing.sh_Handler sh) w r (ext s)
    else delegate (opentracing.sh_Handler sh) (fst (fst hk))
           (http.WithSpan (snd (fst hk)) (snd (fst setup))) (snd setup) in
  fst (opentracing.Serve env sh h w r s) = fst out
  /\ ext (snd (opentracing.Serve env sh h w r s))
     = (if filtered (opentracing.sh_Option sh) r then snd out
        else Finish env (snd (fst setup))
               (endHook sh (fst (fst hk))
                  (http.WithSpan (snd (fst hk)) (snd (fst setup)))
                  (snd (fst setup)) (snd out))).
Proof.
  intros His. cbv zeta.
  destruct (filtered (opentracing.sh_Option sh) r) eqn:Hf.
  - rewrite (opentracing_facts.Serve_filtered env sh h w r s Hf).
    now destruct (delegate _ w r (ext s)).
  - rewrite (opentracing_facts.Serve_traced env sh h w r s
               (initialised_filter _ His) Hf).
    unfold hooked.
    destruct (preHook sh w r (ext s)) as [[w1 r1] e0]. simpl.
    rewrite (opentracing_facts.serveSpan_run env sh w1 r1 _ His). simpl.
    destruct (serverSetup env _ r1 e0) as [[sc sp] e2].
    simpl. now destruct (delegate _ w1 _ e2).
Qed.

(** X2. The handler that the tracing Middleware builds from a server
    handler that stores no handler panics on every request with a nil
    dereference, whatever next handler it was given, and calls no handler;
    a span it started on the way, which it does unless the request is
    filtered, is finished. *)
Theorem Middleware_without_stored_handler_panics
  (sh : opentracing.ServerHandler) (next : option (http.Handler E))
  (w : http.ResponseWriter) (r : http.Request) (s : World E) :
  opentracing.sh_Handler sh = None ->
  let run := opentracing.Middleware env sh next w r s in
  fst run = Panic nil_dereference
  /\ count is_delegation (added s (snd run)) = 0
  /\ count is_start_span (added s (snd run))
     = count is_finish (added s (snd run))
  /\ count is_start_span (added s (snd run))
     = (if filtered (opentracing.Init (opentracing.sh_Option sh)) r
        then 0 else 1).
Proof.
  intros Hnil. cbv zeta. unfold opentracing.Middleware.
  set (sh' := {| opentracing.sh_Handler := opentracing.sh_Handler sh;
                 opentracing.sh_Option := opentracing.Init (opentracing.sh_Option sh);
                 opentracing.Start := opentracing.Start sh;
                 opentracing.End_ := opentracing.End_ sh |}).
  assert (Hi : initialised (opentracing.sh_Option sh') = true)
    by apply opentracing_facts.Init_initialised.
  assert (Hn : opentracing.sh_Handler sh' = None) by exact Hnil.
  change (opentracing.Init (opentracing.sh_Option sh))
    with (opentracing.sh_Option sh').
  destruct (Serve_outcome sh' next w r s Hi) as [Hout _]. cbv zeta in Hout.
  split.
  { rewrite Hout, Hn. now destruct (filtered _ r). }
  destruct (filtered (opentracing.sh_Option sh') r) eqn:Hf.
  - rewrite (opentracing_facts.Serve_filtered env sh' next w r s Hf), Hn.
    simpl. rewrite app_nil_r. destruct s. simpl. rewrite added_self.
    repeat split; reflexivity.
  - destruct (Serve_journal env sh' next w r s Hi Hf) as [-> _].
    pose proof (spanJournal_shape env sh' (fst (fst (hooked sh' w r s)))
                  (snd (fst (hooked sh' w r s))) (snd (hooked sh' w r s)))
      as (Hst & Hfin & _ & _).
    pose proof (spanJournal_parts sh' (fst (fst (hooked sh' w r s)))
                  (snd (fst (hooked sh' w r s))) (snd (hooked sh' w r s)))
      as (Hdel & _).
    unfold count.
    rewrite !filter_preHook by reflexivity.
    rewrite Hst, Hfin, Hdel, Hn. repeat split; reflexivity.
Qed.

(** X3. The post-hook End.  For a filtered request it is not called.  For
    any other it is called exactly once, right after the call of the stored
    handler and right before the span is finished, whatever way the handler
    ended; it gets the writer that the pre-hook left and the request that
    holds the span, and the span is finished in the state it leaves. *)
Theorem post_hook_runs_once_before_finish (sh : opentracing.ServerHandler)
  (h : option (http.Handler E)) (w : http.ResponseWriter) (r : http.Request)
  (s : World E)
  (f : http.ResponseWriter -> http.Request -> opentracing_go.Span -> E -> E) :
  initialised (opentracing.sh_Option sh) = true ->
  opentracing.End_ sh = Some f ->
  let j := added s (snd (opentracing.Serve env sh h w r s)) in
  if filtered (opentracing.sh_Option sh) r
  then count is_end_hook j = 0
  else
    let w1 := fst (fst (hooked sh w r s)) in
    let sp := serverSpan env sh w r s in
    let r2 := servedRequest env sh w r s in
    let setup :=
      serverSetup env (opentracing.sh_Option sh)
        (snd (fst (hooked sh w r s))) (snd (hooked sh w r s)) in
    (exists pre : list Event,
       j = (pre ++ delegationJournal (opentracing.sh_Handler sh) w1 r2
            ++ [CallEnd w1 r2 sp; CallFinish sp])%list
       /\ count is_end_hook pre = 0 /\ count is_delegation pre = 0)
    /\ count is_end_hook j = 1
    /\ ext (snd (opentracing.Serve env sh h w r s))
       = Finish env sp
           (f w1 r2 sp
              (snd (delegate (opentracing.sh_Handler sh) w1 r2 (snd setup)))).
Proof.
  intros Hi He. cbv zeta.
  destruct (Serve_outcome sh h w r s Hi) as [_ Hext]. cbv zeta in Hext.
  destruct (filtered (opentracing.sh_Option sh) r) eqn:Hf.
  - rewrite (opentracing_facts.Serve_filtered env sh h w r s Hf).
    destruct (delegate _ w r (ext s)) as [res e']. simpl.
    rewrite added_app. unfold delegationJournal.
    now destruct (opentracing.sh_Handler sh).
  - destruct (Serve_journal env sh h w r s Hi Hf) as [Hj _].
    pose proof (spanJournal_parts sh (fst (fst (hooked sh w r s)))
                  (snd (fst (hooked sh w r s))) (snd (hooked sh w r s)))
      as (_ & Hend & _ & pre & Hpre & Hd & Hen & _).
    cbv zeta in Hend, Hpre. unfold endJournal in Hend, Hpre.
    rewrite He in Hend, Hpre.
    fold (serverSpan env sh w r s) in Hend, Hpre.
    fold (servedRequest env sh w r s) in Hend, Hpre.
    repeat split.
    + exists (preHookJournal sh w r ++ pre)%list. rewrite Hj, Hpre.
      rewrite <- !app_assoc. repeat split; rewrite ?count_app, ?Hd, ?Hen;
        unfold preHookJournal; destruct (opentracing.Start sh); reflexivity.
    + rewrite Hj. unfold count. rewrite filter_preHook by reflexivity.
      now rewrite Hend.
    + rewrite Hext. unfold endHook. rewrite He. reflexivity.
Qed.

(** X4. The server wrapper, with no pre-hook to change the request, and
    the client wrapper set the same three tags on their span for one option
    and one request: the method, the component
    and the URL; the server sets them in that order and the client in the
    reverse order. *)
Theorem both_sides_tag_alike (sh : opentracing.ServerHandler)
  (h : option (http.Handler E)) (w : http.ResponseWriter)
  (rt : opentracing.RoundTripper) (r : http.Request) (s s' : World E) :
  initialised (opentracing.sh_Option sh) = true ->
  opentracing.rt_Option rt = opentracing.sh_Option sh ->
  opentracing.Start sh = None ->
  filtered (opentracing.sh_Option sh) r = false ->
  let o := opentracing.sh_Option sh in
  let served := tagsOf (added s (snd (opentracing.Serve env sh h w r s))) in
  let sent := tagsOf (added s' (snd (opentracing.RoundTrip env rt r s'))) in
  served = [(ext.HTTPMethod, http.Method r);
            (ext.Component, componentName o r);
            (ext.HTTPUrl, urlTag o (http.Url r))]
  /\ sent = [(ext.HTTPUrl, urlTag o (http.Url r));
             (ext.Component, componentName o r);
             (ext.HTTPMethod, http.Method r)]
  /\ served ≡ₚ sent.
Proof.
  intros Hi Ho Hs Hf. cbv zeta.
  assert (Hserved : tagsOf (added s (snd (opentracing.Serve env sh h w r s)))
                    = [(ext.HTTPMethod, http.Method r);
                       (ext.Component, componentName (opentracing.sh_Option sh) r);
                       (ext.HTTPUrl, urlTag (opentracing.sh_Option sh) (http.Url r))]).
  { destruct (Serve_journal env sh h w r s Hi Hf) as [-> _].
    unfold hooked, preHook, preHookJournal. rewrite Hs. simpl.
    apply spanJournal_parts. }
  assert (Hsent : tagsOf (added s' (snd (opentracing.RoundTrip env rt r s')))
                  = [(ext.HTTPUrl, urlTag (opentracing.sh_Option sh) (http.Url r));
                     (ext.Component, componentName (opentracing.sh_Option sh) r);
                     (ext.HTTPMethod, http.Method r)]).
  { assert (Hic : initialised (opentracing.rt_Option rt) = true) by now rewrite Ho.
    assert (Hfc : filtered (opentracing.rt_Option rt) r = false) by now rewrite Ho.
    destruct (RoundTrip_journal env rt r s' Hic Hfc) as [-> _].
    unfold clientJournal. rewrite Ho.
    now destruct (clientSetup env _ r (ext s')) as [[sp c] e1]. }
  rewrite Hserved, Hsent. repeat split.
  rewrite (Permutation_swap _ _ [_]).  
  apply Permutation_sym, Permutation_cons_append.
Qed.



(** The span part of [Serve] under a configured tracer does not look at the
    process-wide one; with none configured it runs as if the process-wide
    tracer of that moment were. *)
Lemma serveSpan_tracer (g : E -> opentracing_go.Tracer E)
  (t : opentracing_go.Tracer E) (sh : opentracing.ServerHandler)
  (w : http.ResponseWriter) (r : http.Request) (s : World E) :
  opentracing.serveSpan (withGlobalTracer env g) (serverUsing (Some t) sh) w r s
  = opentracing.serveSpan env (serverUsing (Some t) sh) w r s
  /\ opentracing.serveSpan (withGlobalTracer env g) (serverUsing None sh) w r s
     = opentracing.serveSpan env (serverUsing (Some (g (ext s))) sh) w r s.
Proof.
  destruct sh as [h o st en]; destruct o as [tr cn cnf utf sf onf so].
  unfold opentracing.serveSpan, opentracing.GetTracer,
    opentracing.GetComponentName, opentracing.startSpan, opentracing.tag_Set,
    opentracing.spanObserver, opentracing.finish,
    opentracing.handler_ServeHTTP, opentracing.nonnil, serverUsing,
    withGlobalTracer;
    simpl.
  unfold_go. split; reflexivity.
Qed.

(** X5. The tracer of a request.  With a tracer configured, Serve and
    RoundTrip never consult the process-wide tracer.  With none configured
    they run as if the process-wide tracer of the moment of the request were
    configured: for Serve that moment is after the pre-hook, and the one
    tracer read then serves the extraction and the span. *)
Theorem tracer_is_resolved_at_each_request
  (g : E -> opentracing_go.Tracer E) (t : opentracing_go.Tracer E)
  (sh : opentracing.ServerHandler) (h : option (http.Handler E))
  (w : http.ResponseWriter) (r : http.Request)
  (rt : opentracing.RoundTripper) (req : http.Request) (s : World E) :
  opentracing.Serve (withGlobalTracer env g) (serverUsing (Some t) sh) h w r s
  = opentracing.Serve env (serverUsing (Some t) sh) h w r s
  /\ opentracing.RoundTrip (withGlobalTracer env g) (clientUsing (Some t) rt)
       req s
     = opentracing.RoundTrip env (clientUsing (Some t) rt) req s
  /\ opentracing.Serve (withGlobalTracer env g) (serverUsing None sh) h w r s
     = opentracing.Serve env
         (serverUsing (Some (g (snd (hooked sh w r s)))) sh) h w r s
  /\ opentracing.RoundTrip (withGlobalTracer env g) (clientUsing None rt) req s
     = opentracing.RoundTrip env (clientUsing (Some (g (ext s))) rt) req s.
Proof.
  split; [reflexivity|]. split; [reflexivity|]. split;
    [|unfold opentracing.RoundTrip, opentracing.nonnil; simpl;
      destruct (opentracing.SpanFilter (opentracing.rt_Option rt)) as [f|];
      [unfold_go; destruct (f req)|]; reflexivity].
  unfold opentracing.Serve, opentracing.nonnil, hooked, preHook. simpl.
  destruct (opentracing.SpanFilter (opentracing.sh_Option sh)) as [f|];
    unfold_go; [|reflexivity].
  destruct (f r); [reflexivity|].
  destruct (opentracing.Start sh) as [k|]; simpl.
  - destruct (k w r (ext s)) as [[w' r'] e]; simpl.
    apply (proj2 (serveSpan_tracer g t sh w' r'
             {| ext := e; log := (log s ++ [CallStart w r])%list |})).
  - apply (proj2 (serveSpan_tracer g t sh _ _ _)).
Qed.

(** [RoundTrip] does not look at the error of [Inject]. *)
Lemma RoundTrip_uncomplaining (rt : opentracing.RoundTripper)
  (req : http.Request) (s : World E) :
  opentracing.RoundTrip (uncomplainingEnv env) (uncomplainingClient rt) req s
  = opentracing.RoundTrip env rt req s.
Proof.
  destruct rt as [tr o]; destruct o as [tc cn cnf utf sf onf so].
  unfold opentracing.RoundTrip, opentracing.roundTrip,
    opentracing.transport_RoundTrip, opentracing.GetTracer,
    opentracing.GetComponentName, opentracing.startSpan, opentracing.tag_Set,
    opentracing.spanObserver, opentracing.finish, opentracing.nonnil,
    uncomplainingClient, uncomplainingEnv, clientUsing, withGlobalTracer,
    uncomplaining;
    simpl.
  unfold_go.
  destruct sf as [f|]; simpl; [|reflexivity].
  destruct (f req); simpl; [destruct tr; reflexivity|].
  destruct tc, onf; simpl; split_results; try reflexivity;
    destruct utf; simpl; try reflexivity;
    destruct cnf; simpl; split_results; try reflexivity;
    destruct so; simpl; split_results; try reflexivity;
    destruct tr; simpl; split_results; reflexivity.
Qed.

(** X6. An error of Inject is dropped: the call of RoundTrip is, in result
    and in effect, the call it would be under a tracer whose Inject reports
    no error.  The transport gets one request: the method and the URL of
    the original, the carrier that the tracer left as its header, and the
    new span in its context. *)
Theorem injection_failure_is_silent (rt : opentracing.RoundTripper)
  (req : http.Request) (s : World E) :
  initialised (opentracing.rt_Option rt) = true ->
  filtered (opentracing.rt_Option rt) req = false ->
  let o := opentracing.rt_Option rt in
  let sp := clientSpan env rt req s in
  let sent := delegatedRequest env rt req s in
  opentracing.RoundTrip (uncomplainingEnv env) (uncomplainingClient rt) req s
  = opentracing.RoundTrip env rt req s
  /\ (exists e : E,
        List.filter is_round_trip
          (added s (snd (opentracing.RoundTrip env rt req s)))
        = [CallRoundTrip (http.tid (transportOf env rt e)) sent])
  /\ http.Method sent = http.Method req
  /\ http.Url sent = http.Url req
  /\ http.SpanFromContext sent = Some sp
  /\ exists e : E,
       http.Header sent
       = fst (fst (opentracing_go.Inject (tracerOf env o (ext s))
                     (opentracing_go.Context sp) (http.Header req) e)).
Proof.
  intros Hi Hf. cbv zeta. split; [apply RoundTrip_uncomplaining|].
  destruct (RoundTrip_journal env rt req s Hi Hf) as [-> _].
  unfold clientJournal, delegatedRequest, clientSpan, clientSetup.
  destruct (opentracing_go.StartSpan _ _ _ (ext s)) as [sp e1].
  match goal with
  | |- context [opentracing_go.Inject ?t ?c ?k ?e] =>
      destruct (opentracing_go.Inject t c k e) as [[carrier er] e6] eqn:Hinj
  end.
  simpl. repeat split; eauto.
  eexists. rewrite Hinj. reflexivity.
Qed.

(** X7. The wrappers that NewServerHandler and NewRoundTripper build, left
    as they are: no request is filtered, the tracer is the process-wide one,
    the span is named HTTP, method and path, the component tag is net/http
    and the URL tag is the rendering of the URL; the client built from a nil
    transport sends through the default transport. *)
Theorem new_wrappers_use_the_defaults (hh : http.Handler E)
  (h : option (http.Handler E)) (w : http.ResponseWriter) (r : http.Request)
  (s : World E) :
  let name := "HTTP " +:+ http.Method r +:+ " " +:+ http.Path (http.Url r) in
  let t := GlobalTracer env (ext s) in
  let extracted := opentracing_go.Extract t (http.Header r) (ext s) in
  let sc := fst (fst extracted) in
  let sp :=
    fst (opentracing_go.StartSpan t name [opentracing_go.RPCServerOption sc]
           (snd extracted)) in
  let csp :=
    fst (opentracing_go.StartSpan t name (clientOpts r) (ext s)) in
  added s (snd (opentracing.Serve env (opentracing.NewServerHandler (Some hh))
                  h w r s))
  = [CallExtract (http.Header r);
     CallStartSpan name [opentracing_go.RPCServerOption sc];
     CallSetTag sp "http.method" (http.Method r);
     CallSetTag sp "component" "net/http";
     CallSetTag sp "http.url" (http.String (http.Url r));
     CallSpanObserver r sp;
     CallServeHTTP (http.hid hh) w (http.WithSpan r sp);
     CallFinish sp]
  /\ exists (e : E) (carrier : gmap string (list string)),
       added s (snd (opentracing.RoundTrip env (opentracing.NewRoundTripper None)
                       r s))
       = [CallStartSpan name (clientOpts r);
          CallSetTag csp "http.url" (http.String (http.Url r));
          CallSetTag csp "component" "net/http";
          CallSetTag csp "http.method" (http.Method r);
          CallSpanObserver r csp;
          CallInject (opentracing_go.Context csp) (http.Header r);
          CallRoundTrip (http.tid (DefaultTransport env e))
            (http.WithSpan (http.WithHeader r carrier) csp);
          CallFinish csp].
Proof.
  cbv zeta. split.
  - destruct (Serve_journal env (opentracing.NewServerHandler (Some hh)) h w r s
                eq_refl eq_refl) as [-> _].
    unfold hooked, preHook, preHookJournal, spanJournal, serverSetup. simpl.
    unfold tracerOf. simpl.
    destruct (opentracing_go.Extract _ _ (ext s)) as [[sc er] e1]. simpl.
    destruct (opentracing_go.StartSpan _ _ _ e1) as [sp e2]. reflexivity.
  - destruct (RoundTrip_journal env (opentracing.NewRoundTripper None) r s
                eq_refl eq_refl) as [-> _].
    unfold clientJournal, clientSetup, tracerOf. simpl.
    destruct (opentracing_go.StartSpan _ _ _ (ext s)) as [sp e1]. simpl.
    match goal with
    | |- context [opentracing_go.Inject ?t ?c ?k ?e] =>
        destruct (opentracing_go.Inject t c k e) as [[carrier er] e6]
    end.
    simpl. eauto.
Qed.

(** X8. The component tag of a handler run through Middleware: the second
    tag set is the component, with the component name of the option when it
    is not empty, whatever the component-name function is, and else with
    what that function gives for the request, net/http when the function
    is nil. *)
Theorem explicit_component_name_wins (sh : opentracing.ServerHandler)
  (next : option (http.Handler E)) (w : http.ResponseWriter)
  (r : http.Request) (s : World E) :
  let o := opentracing.sh_Option sh in
  filtered (opentracing.Init o) r = false ->
  let r1 := snd (fst (hooked sh w r s)) in
  tagsOf (added s (snd (opentracing.Middleware env sh next w r s))) !! 1%nat
  = Some (ext.Component,
          if String.eqb (opentracing.ComponentName o) ""
          then default opentracing.default_ComponentNameFunc
                 (opentracing.ComponentNameFunc o) r1
          else opentracing.ComponentName o).
Proof.
  cbv zeta. intros Hf. unfold opentracing.Middleware.
  set (sh' := {| opentracing.sh_Handler := opentracing.sh_Handler sh;
                 opentracing.sh_Option := opentracing.Init (opentracing.sh_Option sh);
                 opentracing.Start := opentracing.Start sh;
                 opentracing.End_ := opentracing.End_ sh |}).
  assert (Hi : initialised (opentracing.sh_Option sh') = true)
    by apply opentracing_facts.Init_initialised.
  destruct (Serve_journal env sh' next w r s Hi Hf) as [-> _].
  assert (Htags : forall j, tagsOf (preHookJournal sh' w r ++ j) = tagsOf j).
  { intros j. unfold preHookJournal. now destruct (opentracing.Start sh'). }
  rewrite Htags.
  destruct (spanJournal_parts sh' (fst (fst (hooked sh' w r s)))
              (snd (fst (hooked sh' w r s))) (snd (hooked sh' w r s)))
    as (_ & _ & -> & _).
  change (hooked sh' w r s) with (hooked sh w r s).
  cbn [lookup list_lookup]. do 2 f_equal.
  unfold componentName, sh'. cbn [opentracing.sh_Option].
  destruct (opentracing.sh_Option sh) as [tc cn cnf utf sf onf so].
  destruct cnf, utf, sf, so, onf; reflexivity.
Qed.

(** X9. A wrapper written as a literal whose option has a nil filter
    panics with a nil dereference on every call of Serve, ServeHTTP,
    HandleHTTP or RoundTrip, before it has called anything; the same server
    handler run through Middleware, which initialises the option, starts
    its span. *)
Theorem nil_filter_panics_before_any_call (sh : opentracing.ServerHandler)
  (h : option (http.Handler E)) (w : http.ResponseWriter) (r : http.Request)
  (rt : opentracing.RoundTripper) (req : http.Request) (s : World E) :
  opentracing.SpanFilter (opentracing.sh_Option sh) = None ->
  opentracing.SpanFilter (opentracing.rt_Option rt) = None ->
  opentracing.Serve env sh h w r s = (Panic nil_dereference, s)
  /\ opentracing.ServeHTTP env sh w r s = (Panic nil_dereference, s)
  /\ opentracing.HandleHTTP env sh w r s = (Panic nil_dereference, s)
  /\ opentracing.RoundTrip env rt req s = (Panic nil_dereference, s)
  /\ count is_start_span
       (added s (snd (opentracing.Middleware env sh h w r s))) = 1.
Proof.
  intros Hs Hr.
  assert (HS : forall h', opentracing.Serve env sh h' w r s
                          = (Panic nil_dereference, s)).
  { intros h'. unfold opentracing.Serve. now rewrite Hs. }
  repeat split.
  - apply HS.
  - apply HS.
  - unfold opentracing.HandleHTTP. unfold bind. now rewrite HS.
  - unfold opentracing.RoundTrip. now rewrite Hr.
  - unfold opentracing.Middleware.
    set (sh' := {| opentracing.sh_Handler := opentracing.sh_Handler sh;
                   opentracing.sh_Option := opentracing.Init (opentracing.sh_Option sh);
                   opentracing.Start := opentracing.Start sh;
                   opentracing.End_ := opentracing.End_ sh |}).
    assert (Hi : initialised (opentracing.sh_Option sh') = true)
      by apply opentracing_facts.Init_initialised.
    assert (Hf : filtered (opentracing.sh_Option sh') r = false).
    { unfold filtered, sh'. cbn [opentracing.sh_Option].
      destruct (opentracing.sh_Option sh) as [tc cn cnf utf sf onf so].
      simpl in Hs. subst sf. now destruct cnf, utf, so, onf. }
    unfold count. rewrite (Serve_start_span env sh' h w r s Hi Hf). reflexivity.
Qed.

(** X10. An option with the filter and the operation-name function set
    and one of the functions called later nil (the component-name function
    while the component name is empty, the URL-tag function or the
    observer): a request that is not filtered starts a span and then panics
    with a nil dereference; the span is never finished and the handler or
    the transport is never called. *)
Theorem nil_function_after_StartSpan_leaks_the_span
  (sh : opentracing.ServerHandler) (h : option (http.Handler E))
  (w : http.ResponseWriter) (r : http.Request)
  (rt : opentracing.RoundTripper) (req : http.Request) (s : World E) :
  is_Some (opentracing.SpanFilter (opentracing.sh_Option sh)) ->
  is_Some (opentracing.OperationNameFunc (opentracing.sh_Option sh)) ->
  filtered (opentracing.sh_Option sh) r = false ->
  lacking (opentracing.sh_Option sh) = true ->
  is_Some (opentracing.SpanFilter (opentracing.rt_Option rt)) ->
  is_Some (opentracing.OperationNameFunc (opentracing.rt_Option rt)) ->
  filtered (opentracing.rt_Option rt) req = false ->
  lacking (opentracing.rt_Option rt) = true ->
  let served := opentracing.Serve env sh h w r s in
  let sent := opentracing.RoundTrip env rt req s in
  (fst served = Panic nil_dereference
   /\ count is_start_span (added s (snd served)) = 1
   /\ count is_finish (added s (snd served)) = 0
   /\ count is_delegation (added s (snd served)) = 0)
  /\ (fst sent = Panic nil_dereference
      /\ count is_start_span (added s (snd sent)) = 1
      /\ count is_finish (added s (snd sent)) = 0
      /\ count is_delegation (added s (snd sent)) = 0).
Proof.
  intros [f Hsf] [g Hon] Hf Hl [f' Hsf'] [g' Hon'] Hf' Hl'. cbv zeta.
  split.
  - destruct sh as [hd o st en]; destruct o as [tc cn cnf utf sf onf so].
    simpl in *. subst sf onf. unfold filtered in Hf. simpl in Hf.
    unfold lacking in Hl. simpl in Hl.
    unfold opentracing.Serve, opentracing.serveSpan, opentracing.GetTracer,
      opentracing.GetComponentName, opentracing.startSpan,
      opentracing.tag_Set, opentracing.spanObserver, opentracing.finish,
      opentracing.handler_ServeHTTP, opentracing.nonnil; simpl.
    unfold_go. rewrite Hf.
    destruct st as [k|]; simpl; [destruct (k w r (ext s)) as [[w' r'] e0]|];
      simpl;
      (destruct tc; simpl; split_call; simpl; split_call; simpl;
       destruct (String.eqb cn "") eqn:Hcn; simpl in *;
       destruct cnf, utf, so; simpl in *; try discriminate;
       unfold added; simpl;
       rewrite <- ?app_assoc, drop_app_length; repeat split; reflexivity).
  - destruct rt as [tr o]; destruct o as [tc cn cnf utf sf onf so].
    simpl in *. subst sf onf. unfold filtered in Hf'. simpl in Hf'.
    unfold lacking in Hl'. simpl in Hl'.
    unfold opentracing.RoundTrip, opentracing.roundTrip,
      opentracing.transport_RoundTrip, opentracing.GetTracer,
      opentracing.GetComponentName, opentracing.startSpan,
      opentracing.tag_Set, opentracing.spanObserver, opentracing.finish,
      opentracing.nonnil; simpl.
    unfold_go. rewrite Hf'.
    destruct tc; simpl; split_call; simpl;
      destruct (String.eqb cn "") eqn:Hcn; simpl in *;
      destruct cnf, utf, so; simpl in *; try discriminate;
      unfold added; simpl;
      rewrite <- ?app_assoc, drop_app_length; repeat split; reflexivity.
Qed.

(** X11. The server wrapper hands its handler the request with the server
    span in its context.  A request with that context, sent through the
    client wrapper, starts the client span with ChildOf of the context of
    the server span alone: a child of the server span, with no span-kind
    tag. *)
Theorem handler_client_span_is_child_of_server_span
  (sh : opentracing.ServerHandler) (h : option (http.Handler E))
  (w : http.ResponseWriter) (r : http.Request)
  (rt : opentracing.RoundTripper) (req : http.Request) (s s' : World E) :
  initialised (opentracing.sh_Option sh) = true ->
  filtered (opentracing.sh_Option sh) r = false ->
  initialised (opentracing.rt_Option rt) = true ->
  filtered (opentracing.rt_Option rt) req = false ->
  let served := servedRequest env sh w r s in
  let sp := serverSpan env sh w r s in
  http.Ctx req = http.Ctx served ->
  let opts := [opentracing_go.ChildOf (Some (opentracing_go.Context sp))] in
  List.filter is_delegation (added s (snd (opentracing.Serve env sh h w r s)))
  = delegationJournal (opentracing.sh_Handler sh)
      (fst (fst (hooked sh w r s))) served
  /\ http.SpanFromContext served = Some sp
  /\ List.filter is_start_span
       (added s' (snd (opentracing.RoundTrip env rt req s')))
     = [CallStartSpan (operationName (opentracing.rt_Option rt) req) opts]
  /\ opentracing_go.is_child_of (opentracing_go.Context sp)
       (opentracing_go.apply_all opts)
  /\ opentracing_go.Tags (opentracing_go.apply_all opts) !! "span.kind" = None.
Proof.
  intros His Hfs Hic Hfc. cbv zeta. intros Hctx. repeat split.
  - destruct (Serve_journal env sh h w r s His Hfs) as [-> _].
    rewrite filter_preHook by reflexivity.
    apply spanJournal_parts.
  - destruct (RoundTrip_journal env rt req s' Hic Hfc) as [-> _].
    destruct (clientJournal_shape env rt req (ext s')) as (-> & _).
    unfold clientOpts, http.SpanFromContext. rewrite Hctx. reflexivity.
Qed.

(** X12. Across the wire.  The client wrapper sends the request with the
    carrier that the tracer wrote the client span into.  When the server's
    tracer reads from a carrier the context that the client's tracer wrote,
    the server wrapper, given the request as it arrives (the context of the
    sender does not travel), starts its span as a child of the client
    span. *)
Theorem server_span_is_child_of_client_span
  (rt : opentracing.RoundTripper) (req : http.Request) (s : World E)
  (sh : opentracing.ServerHandler) (h : option (http.Handler E))
  (w : http.ResponseWriter) (s' : World E) :
  initialised (opentracing.rt_Option rt) = true ->
  filtered (opentracing.rt_Option rt) req = false ->
  let sent := delegatedRequest env rt req s in
  let arrived := onTheWire sent in
  let csp := clientSpan env rt req s in
  initialised (opentracing.sh_Option sh) = true ->
  filtered (opentracing.sh_Option sh) arrived = false ->
  opentracing.Start sh = None ->
  carries (tracerOf env (opentracing.rt_Option rt) (ext s))
    (tracerOf env (opentracing.sh_Option sh) (ext s')) ->
  let opts :=
    [opentracing_go.RPCServerOption (Some (opentracing_go.Context csp))] in
  (exists e : E,
     List.filter is_round_trip
       (added s (snd (opentracing.RoundTrip env rt req s)))
     = [CallRoundTrip (http.tid (transportOf env rt e)) sent])
  /\ List.filter is_start_span
       (added s' (snd (opentracing.Serve env sh h w arrived s')))
     = [CallStartSpan (operationName (opentracing.sh_Option sh) arrived) opts]
  /\ opentracing_go.is_child_of (opentracing_go.Context csp)
       (opentracing_go.apply_all opts).
Proof.
  intros Hic Hfc. cbv zeta. intros His Hfs Hst Hcar. repeat split.
  - destruct (RoundTrip_journal env rt req s Hic Hfc) as [-> _].
    unfold clientJournal, delegatedRequest.
    destruct (clientSetup env _ req (ext s)) as [[sp c] e1]. simpl. eauto.
  - rewrite (Serve_start_span env sh h w _ s' His Hfs).
    rewrite serverParent_extracted.
    unfold hooked, preHook. rewrite Hst. cbn [fst snd].
    unfold delegatedRequest, clientSpan, clientSetup, onTheWire, tracedRequest.
    destruct (opentracing_go.StartSpan _ _ _ (ext s)) as [sp e1].
    match goal with
    | |- context [opentracing_go.Inject ?t ?c ?k ?e] =>
        pose proof (Hcar c k e (ext s')) as Hx;
        destruct (opentracing_go.Inject t c k e) as [[carrier er] e6]
    end.
    simpl in *. rewrite Hx. reflexivity.
Qed.

(** What one call of the metrics [Serve] adds to the journal. *)
Lemma Serve_step (h : option (http.Handler E)) (w : http.ResponseWriter)
  (r : http.Request) (st : prometheus.State) :
  prometheus_run.consistent (prometheus.this st) ->
  exists l : list Event,
    log (prometheus.world (snd (prometheus.Serve env h w r st)))
    = (log (prometheus.world st) ++ l)%list
    /\ count is_factory l = (if prometheus.once (prometheus.this st) then 0 else 2)
    /\ count is_inc l = 1 /\ count is_observe l = 1
    /\ count is_delegation l = (if h is Some _ then 1 else 0)
    /\ prometheus.once (prometheus.this (snd (prometheus.Serve env h w r st)))
       = true
    /\ prometheus.sh_Option (prometheus.this (snd (prometheus.Serve env h w r st)))
       = prometheus.sh_Option (prometheus.this st).
Proof.
  intros Hc.
  destruct (initialise_vectors env st Hc) as (c & hv & Hrt & Hrd & _).
  rewrite (prometheus_facts.Serve_run env h w r st c hv Hrt Hrd). cbv zeta.
  destruct (prometheus_run.delegate h w r _) as [res e1]. simpl.
  rewrite (prometheus_facts.initialise_once env st).
  rewrite (proj1 (prometheus_facts.initialise_Option env st)).
  assert (Hd : forall p, (forall n w r, p (CallServeHTTP n w r) = false) ->
                 (forall n w r, p (CallHandleHTTP n w r) = false) ->
                 count p (prometheus_run.delegationJournal h w r) = 0).
  { intros p H1 H2. unfold prometheus_run.delegationJournal, count.
    destruct h as [hh|]; [destruct (http.HandleHTTP hh)|]; simpl;
      rewrite ?H1, ?H2; reflexivity. }
  assert (Hdd : count is_delegation (prometheus_run.delegationJournal h w r)
                = (if h is Some _ then 1 else 0)).
  { unfold prometheus_run.delegationJournal.
    destruct h as [hh|]; [destruct (http.HandleHTTP hh)|]; reflexivity. }
  destruct (prometheus.once (prometheus.this st)) eqn:Ho.
  - rewrite (prometheus_more_facts.initialise_again env st Ho).
    eexists. split; [reflexivity|].
    rewrite !count_app, !Hd, Hdd by reflexivity.
    repeat split; try reflexivity; destruct h; reflexivity.
  - rewrite (prometheus_more_facts.initialise_first env st Ho). cbv zeta.
    destruct (newVectors env _ _) as [[c' hv'] e']. simpl.
    eexists. rewrite <- app_assoc. split; [reflexivity|].
    rewrite !count_app, !Hd, Hdd by reflexivity.
    repeat split; try reflexivity; destruct h; reflexivity.
Qed.

(** What a sequence of requests adds to the journal. *)
Lemma serveAll_journal
  (reqs : list (option (http.Handler E) * http.ResponseWriter * http.Request))
  (st : prometheus.State) :
  prometheus_run.consistent (prometheus.this st) ->
  exists l : list Event,
    log (prometheus.world (serveAll env reqs st))
    = (log (prometheus.world st) ++ l)%list
    /\ count is_factory l
       = (if prometheus.once (prometheus.this st) then 0
          else match reqs with [] => 0 | _ :: _ => 2 end)
    /\ count is_inc l = length reqs /\ count is_observe l = length reqs
    /\ count is_delegation l
       = length (List.filter (fun q => bool_decide (is_Some (fst (fst q)))) reqs)
    /\ prometheus.sh_Option (prometheus.this (serveAll env reqs st))
       = prometheus.sh_Option (prometheus.this st).
Proof.
  revert st. induction reqs as [|[[h w] r] reqs IH]; intros st Hc.
  - exists []. rewrite app_nil_r. simpl.
    destruct (prometheus.once (prometheus.this st)); repeat split; reflexivity.
  - cbn [serveAll].
    destruct (Serve_step h w r st Hc) as (l1 & Hl1 & Hf1 & Hi1 & Ho1 & Hd1 & Hon & Hop).
    destruct (IH _ (Serve_keeps_consistent env h w r st Hc))
      as (l2 & Hl2 & Hf2 & Hi2 & Ho2 & Hd2 & Hop2).
    rewrite Hon in Hf2.
    exists (l1 ++ l2)%list. rewrite Hl2, Hl1, <- app_assoc.
    rewrite !count_app, Hf1, Hf2, Hi1, Hi2, Ho1, Ho2, Hd1, Hd2, Hop2, Hop.
    repeat split; try reflexivity.
    + destruct (prometheus.once (prometheus.this st)); reflexivity.
    + cbn [List.filter fst]. destruct h; reflexivity.
Qed.

(** X13. Requests served one after the other by one metrics handler: the
    two vectors are created once for the whole sequence, and not at all by a
    handler that is already initialised; every request adds
    one increment and one observation, also one given a nil handler; the
    option is left as it was. *)
Theorem vectors_are_registered_once_for_all_requests
  (reqs : list (option (http.Handler E) * http.ResponseWriter * http.Request))
  (st : prometheus.State) :
  prometheus_run.consistent (prometheus.this st) ->
  let j := added (prometheus.world st)
             (prometheus.world (serveAll env reqs st)) in
  count is_factory j
  = (if prometheus.once (prometheus.this st) then 0
     else match reqs with [] => 0 | _ :: _ => 2 end)
  /\ count is_inc j = length reqs
  /\ count is_observe j = length reqs
  /\ count is_delegation j
     = length (List.filter (fun q => bool_decide (is_Some (fst (fst q)))) reqs)
  /\ prometheus.sh_Option (prometheus.this (serveAll env reqs st))
     = prometheus.sh_Option (prometheus.this st).
Proof.
  intros Hc. cbv zeta.
  destruct (serveAll_journal reqs st Hc) as (l & Hl & H).
  unfold added. rewrite Hl, drop_app_length. exact H.
Qed.

(** X14. The first request through a metrics handler creates the counter
    vector http_requests_total and then the histogram vector
    http_request_duration_seconds, both at the registerer of the option, the
    default registerer when that is nil, with the namespace and the
    subsystem of the option and the label names method, path, code as far
    as selected, in that order; the histogram gets the buckets of the
    option, the default buckets when there are none.  The vectors that the
    factory returned are stored, and are the ones this request records
    on. *)
Theorem first_request_registers_both_vectors (h : option (http.Handler E))
  (w : http.ResponseWriter) (r : http.Request) (st : prometheus.State) :
  prometheus.once (prometheus.this st) = false ->
  let o := prometheus.sh_Option (prometheus.this st) in
  let reg := default (DefaultRegisterer env) (prometheus.Registerer o) in
  let names :=
    ((if prometheus.Method o then ["method"] else [])
     ++ (if prometheus.Path o then ["path"] else [])
     ++ (if prometheus.Code o then ["code"] else []))%list in
  let copts :=
    {| client_golang.Namespace := prometheus.Namespace o;
       client_golang.Subsystem := prometheus.Subsystem o;
       client_golang.Name := "http_requests_total";
       client_golang.Help := "The total number of the http requests";
       client_golang.Buckets := [] |} in
  let hopts :=
    {| client_golang.Namespace := prometheus.Namespace o;
       client_golang.Subsystem := prometheus.Subsystem o;
       client_golang.Name := "http_request_duration_seconds";
       client_golang.Help := "The duration to handle the http request";
       client_golang.Buckets :=
         if bool_decide (prometheus.Buckets o = [])
         then prometheus.DefaultHistogramBuckets else prometheus.Buckets o |} in
  let made := NewCounterVec env reg copts names (ext (prometheus.world st)) in
  let made' := NewHistogramVec env reg hopts names (snd made) in
  let after := snd (prometheus.Serve env h w r st) in
  (exists (labels : gmap string string) (elapsed : Z),
     added (prometheus.world st) (prometheus.world after)
     = ([CallNewCounterVec reg copts names;
         CallNewHistogramVec reg hopts names]
        ++ prometheus_run.delegationJournal h w r
        ++ [CallInc (fst made) labels;
            CallObserve (fst made') labels elapsed])%list)
  /\ prometheus.this after
     = {| prometheus.sh_Handler := prometheus.sh_Handler (prometheus.this st);
          prometheus.sh_Option := o;
          prometheus.once := true;
          prometheus.labels := names;
          prometheus.requestsTotal := Some (fst made);
          prometheus.requestDurations := Some (fst made') |}.
Proof.
  intros Ho. cbv zeta.
  pose proof (prometheus_more_facts.initialise_first env st Ho) as Hin.
  cbv zeta in Hin.
  unfold newVectors, initJournal, registererOf, counterOpts, histogramOpts,
    prometheus.init_labels in Hin.
  assert (Hb : (if bool_decide (prometheus.Buckets
                                  (prometheus.sh_Option (prometheus.this st)) = [])
                then prometheus.DefaultHistogramBuckets
                else prometheus.Buckets (prometheus.sh_Option (prometheus.this st)))
               = match prometheus.Buckets
                         (prometheus.sh_Option (prometheus.this st)) with
                 | [] => prometheus.DefaultHistogramBuckets
                 | _ :: _ => prometheus.Buckets
                               (prometheus.sh_Option (prometheus.this st))
                 end).
  { now destruct (prometheus.Buckets _). }
  rewrite Hb.
  assert (Hn : ((if prometheus.Method (prometheus.sh_Option (prometheus.this st))
                 then ["method"] else [])
                ++ (if prometheus.Path (prometheus.sh_Option (prometheus.this st))
                    then ["path"] else [])
                ++ (if prometheus.Code (prometheus.sh_Option (prometheus.this st))
                    then ["code"] else []))%list
               = prometheus.init_labels (prometheus.sh_Option (prometheus.this st))).
  { unfold prometheus.init_labels.
    now destruct (prometheus.Method _), (prometheus.Path _), (prometheus.Code _). }
  rewrite Hn. unfold prometheus.init_labels.
  destruct (NewCounterVec env _ _ _ (ext (prometheus.world st))) as [c e1] eqn:Hc.
  cbn [fst snd].
  destruct (NewHistogramVec env _ _ _ e1) as [hv e2] eqn:Hh.
  cbn [fst snd].
  assert (Hrt : prometheus.requestsTotal
                  (prometheus.this (prometheus_run.initialise env st)) = Some c)
    by now rewrite Hin.
  assert (Hrd : prometheus.requestDurations
                  (prometheus.this (prometheus_run.initialise env st)) = Some hv)
    by now rewrite Hin.
  rewrite (prometheus_facts.Serve_run env h w r st c hv Hrt Hrd). cbv zeta.
  destruct (prometheus_run.delegate h w r _) as [res e3]. cbn [snd].
  cbn [prometheus.this prometheus.world].
  split.
  - do 2 eexists. rewrite Hin. cbn [prometheus.world log].
    rewrite <- app_assoc, added_app. reflexivity.
  - rewrite Hin. reflexivity.
Qed.

(** X15. The option is read at the first request only.  Assigning another
    option to a handler that is already initialised changes nothing of what
    a request records or returns. *)
Theorem option_is_read_at_the_first_request_only
  (h : option (http.Handler E)) (w : http.ResponseWriter) (r : http.Request)
  (st : prometheus.State) (o' : prometheus.Option) :
  prometheus.once (prometheus.this st) = true ->
  let reconfigured :=
    {| prometheus.this := prometheus.set_Option o' (prometheus.this st);
       prometheus.world := prometheus.world st |} in
  fst (prometheus.Serve env h w r reconfigured)
  = fst (prometheus.Serve env h w r st)
  /\ prometheus.world (snd (prometheus.Serve env h w r reconfigured))
     = prometheus.world (snd (prometheus.Serve env h w r st))
  /\ prometheus.this (snd (prometheus.Serve env h w r reconfigured))
     = prometheus.set_Option o'
         (prometheus.this (snd (prometheus.Serve env h w r st))).
Proof.
  intros Ho. cbv zeta.
  destruct st as [sh s]. destruct sh as [hd o on ls rt rd].
  simpl in Ho. subst on.
  unfold prometheus.Serve, prometheus._init, prometheus.handle,
    prometheus.liftW, prometheus.set_Option.
  unfold_go.
  destruct h as [hh|]; simpl;
    [destruct (http.HandleHTTP hh) as [f|]; simpl;
     [destruct (f w r (ext s)) as [[err|v] e1]
     |destruct (http.ServeHTTP hh w r (ext s)) as [[[]|v] e1]]|];
    simpl; destruct (http.HasStatusCode w); simpl;
    destruct rt; simpl; try (repeat split; reflexivity);
    destruct rd; simpl; repeat split; reflexivity.
Qed.

(** X16. The label map that handle builds from any list of label names:
    a key is in the map exactly when it is one of code, path and method and
    occurs in the list, with the status code rendered, the path of the URL
    and the method as values.  Unknown names are skipped, and neither the
    order nor a repetition of names changes the map: the backward loop
    builds what a forward loop would. *)
Theorem label_map_of_any_label_list (names : list string) (code : Z)
  (r : http.Request) (k : string) :
  let m := prometheus.label_loop names (length names) code r ∅ in
  m !! k = (if knownLabel k && bool_decide (k ∈ names)
            then Some (labelValue k code r) else None)
  /\ prometheus.label_loop (reverse names) (length (reverse names)) code r ∅
     = m
  /\ prometheus.label_loop (names ++ names) (length (names ++ names)) code r ∅
     = m.
Proof.
  cbv zeta.
  assert (H : forall l k',
             prometheus.label_loop l (length l) code r ∅ !! k'
             = (if knownLabel k' && bool_decide (k' ∈ l)
                then Some (labelValue k' code r) else None)).
  { intros l k'. rewrite prometheus_more_facts.label_loop_lookup.
    rewrite firstn_all, lookup_empty. reflexivity. }
  split; [apply H|]. split; apply map_eq; intros k'; rewrite !H.
  - destruct (knownLabel k'); [|reflexivity]. cbn [andb].
    rewrite (bool_decide_ext _ (k' ∈ names)); [reflexivity|].
    apply elem_of_reverse.
  - destruct (knownLabel k'); [|reflexivity]. cbn [andb].
    rewrite (bool_decide_ext _ (k' ∈ names)); [reflexivity|].
    rewrite elem_of_app. tauto.
Qed.

(** X17. The metrics Middleware creates the vectors when it is built, not
    at the first request: with the given option, which replaces the
    defaults as a whole, or with the labels method and code when the option
    is nil.  The handler it returns for a next handler calls that handler,
    records on the vectors created then, creates none, and drops the error
    that the next handler returned. *)
Theorem metrics_middleware_registers_when_built
  (opt : option prometheus.Option) (s0 s : World E)
  (next : option (http.Handler E)) (rw : http.ResponseWriter)
  (r : http.Request) :
  let o := default (prometheus.sh_Option (prometheus.NewServerHandler (E:=E) None))
             opt in
  let built := prometheus.Middleware_new env opt s0 in
  let vectors := newVectors env o (ext s0) in
  let st := {| prometheus.this := prometheus.this built;
               prometheus.world := s |} in
  let run := prometheus.Middleware env next rw r st in
  added s0 (prometheus.world built) = initJournal env o
  /\ prometheus.this built
     = {| prometheus.sh_Handler := None; prometheus.sh_Option := o;
          prometheus.once := true;
          prometheus.labels := prometheus.init_labels o;
          prometheus.requestsTotal := Some (fst (fst vectors));
          prometheus.requestDurations := Some (snd (fst vectors)) |}
  /\ match opt with
     | Some o' => prometheus.labels (prometheus.this built)
                  = prometheus.init_labels o'
     | None => prometheus.labels (prometheus.this built) = ["method"; "code"]
     end
  /\ fst run = as_plain (fst (prometheus_run.delegate next rw r (ext s)))
  /\ exists (labels : gmap string string) (elapsed : Z),
       added s (prometheus.world (snd run))
       = (prometheus_run.delegationJournal next rw r
          ++ [CallInc (fst (fst vectors)) labels;
              CallObserve (snd (fst vectors)) labels elapsed])%list.
Proof.
  cbv zeta.
  set (o := default (prometheus.sh_Option (prometheus.NewServerHandler None))
              opt).
  set (st0 := {| prometheus.this :=
                   match opt with
                   | Some o => prometheus.set_Option o
                                 (prometheus.NewServerHandler None)
                   | None => prometheus.NewServerHandler None
                   end;
                 prometheus.world := s0 |}).
  assert (Hb : prometheus.Middleware_new env opt s0
               = prometheus_run.initialise env st0) by reflexivity.
  assert (Ho : prometheus.once (prometheus.this st0) = false)
    by (unfold st0; now destruct opt).
  assert (Hopt : prometheus.sh_Option (prometheus.this st0) = o)
    by (unfold st0, o; now destruct opt).
  assert (Hh : prometheus.sh_Handler (prometheus.this st0) = None)
    by (unfold st0; now destruct opt).
  rewrite Hb, (prometheus_more_facts.initialise_first env st0 Ho). cbv zeta.
  rewrite Hopt, Hh. cbn [prometheus.world st0 ext log].
  destruct (newVectors env o (ext s0)) as [[c hv] e] eqn:Hv.
  cbn [fst snd prometheus.this prometheus.world].
  split; [apply added_app|]. split; [reflexivity|].
  split; [unfold o; destruct opt; reflexivity|].
  unfold prometheus.Middleware, bind, ret.
  set (st := {| prometheus.this := _; prometheus.world := s |}).
  assert (Hon : prometheus.once (prometheus.this st) = true) by reflexivity.
  assert (Hrt : prometheus.requestsTotal
                  (prometheus.this (prometheus_run.initialise env st)) = Some c)
    by now rewrite (prometheus_more_facts.initialise_again env st Hon).
  assert (Hrd : prometheus.requestDurations
                  (prometheus.this (prometheus_run.initialise env st)) = Some hv)
    by now rewrite (prometheus_more_facts.initialise_again env st Hon).
  rewrite (prometheus_facts.Serve_run env next rw r st c hv Hrt Hrd). cbv zeta.
  rewrite (prometheus_more_facts.initialise_again env st Hon).
  cbn [prometheus.world st ext log].
  destruct (prometheus_run.delegate next rw r (ext s)) as [[err|v] e1];
    cbn [fst snd prometheus.world]; (split; [reflexivity|]);
    do 2 eexists; rewrite added_app; reflexivity.
Qed.

(** X18. The duration observed.  It is the time read after the counter
    was incremented less the time read after the one-time initialisation,
    before the call of the handler: creating the vectors is not counted,
    incrementing the counter is.  When neither the handler nor the
    increment sets the clock back, it is at least the time that the handler
    took, which is not negative. *)
Theorem duration_excludes_the_registration (h : option (http.Handler E))
  (w : http.ResponseWriter) (r : http.Request) (st : prometheus.State) :
  prometheus_run.consistent (prometheus.this st) ->
  (forall e, (Now env e <= Now env (snd (prometheus_run.delegate h w r e)))%Z) ->
  (forall c l e, (Now env e <= Now env (Inc env c l e))%Z) ->
  let e0 := ext (prometheus.world (prometheus_run.initialise env st)) in
  let e1 := snd (prometheus_run.delegate h w r e0) in
  let j := added (prometheus.world st)
             (prometheus.world (snd (prometheus.Serve env h w r st))) in
  exists (c : client_golang.CounterVec) (labels : gmap string string),
    observed j = [(Now env (Inc env c labels e1) - Now env e0)%Z]
    /\ (0 <= Now env e1 - Now env e0
        <= Now env (Inc env c labels e1) - Now env e0)%Z.
Proof.
  intros Hc Hmono Hinc. cbv zeta.
  destruct (initialise_vectors env st Hc) as (c & hv & Hrt & Hrd & _).
  destruct (prometheus_facts.initialise_journal env st) as (pre & Hpre & Hfac).
  rewrite (prometheus_facts.Serve_run env h w r st c hv Hrt Hrd). cbv zeta.
  pose proof (Hmono (ext (prometheus.world (prometheus_run.initialise env st))))
    as Hm.
  destruct (prometheus_run.delegate h w r _) as [res e1]. cbn [snd] in *.
  exists c. eexists. cbn [prometheus.world].
  rewrite Hpre, <- app_assoc, added_app.
  assert (Hobs : forall l l', observed (l ++ l') = (observed l ++ observed l')%list).
  { intros l l'. unfold observed. apply omap_app. }
  assert (Hp : observed pre = []).
  { clear -Hfac. induction pre as [|ev pre IH]; [reflexivity|].
    simpl in Hfac. apply andb_prop in Hfac as [Hev Hl].
    destruct ev; try discriminate; simpl; auto. }
  assert (Hd : observed (prometheus_run.delegationJournal h w r) = []).
  { unfold prometheus_run.delegationJournal.
    destruct h as [hh|]; [destruct (http.HandleHTTP hh)|]; reflexivity. }
  rewrite !Hobs, Hp, Hd. split; [reflexivity|].
  match goal with |- context [Inc env c ?l e1] => pose proof (Hinc c l e1) end.
  lia.
Qed.

End MoreProperties.

(* ===================================================================== *)
(** ** The further properties at work on the concrete world              *)
(* ===================================================================== *)

Import journal opentracing_more prometheus_more sample_more.

(** X1 at work: a traced server and a traced client delegate once; the
    metrics wrapper given no handler delegates to none. *)
Lemma delegated_exactly_once_witness :
  initialised (opentracing.sh_Option (tracedServer notFound)) = true
  /\ initialised (opentracing.rt_Option tracedClient) = true
  /\ prometheus_run.consistent (prometheus.this (fresh notFound))
  /\ count is_delegation
       (added start
          (snd (opentracing.Serve env (tracedServer notFound) None plainWriter
                  get start))) = 1
  /\ count is_delegation
       (added start (snd (opentracing.RoundTrip env tracedClient get start)))
     = 1
  /\ count is_delegation
       (added start
          (prometheus.world
             (snd (prometheus.Serve env None plainWriter get (fresh notFound)))))
     = 0.
Proof.
  split; [reflexivity|]. split; [reflexivity|].
  split; [apply new_handler_consistent|].
  exact (delegated_exactly_once env (tracedServer notFound) None plainWriter
           get tracedClient get start None (fresh notFound) eq_refl eq_refl
           (new_handler_consistent (Some notFound))).
Defined.

(** X2 at work: the middleware built from a new handler that stores
    none. *)
Lemma Middleware_without_stored_handler_panics_witness :
  opentracing.sh_Handler (opentracing.NewServerHandler (E:=Ext) None) = None
  /\ fst (opentracing.Middleware env (opentracing.NewServerHandler None)
            (Some notFound) plainWriter get start) = Panic nil_dereference
  /\ count is_delegation
       (added start
          (snd (opentracing.Middleware env (opentracing.NewServerHandler None)
                  (Some notFound) plainWriter get start))) = 0
  /\ count is_start_span
       (added start
          (snd (opentracing.Middleware env (opentracing.NewServerHandler None)
                  (Some notFound) plainWriter get start)))
     = count is_finish
         (added start
            (snd (opentracing.Middleware env (opentracing.NewServerHandler None)
                    (Some notFound) plainWriter get start)))
  /\ count is_start_span
       (added start
          (snd (opentracing.Middleware env (opentracing.NewServerHandler None)
                  (Some notFound) plainWriter get start))) = 1.
Proof.
  split; [reflexivity|].
  exact (Middleware_without_stored_handler_panics env
           (opentracing.NewServerHandler None) (Some notFound) plainWriter get
           start eq_refl).
Defined.

(** X3 at work: the hooked server; the post-hook gets the writer that the
    pre-hook swapped in. *)
Lemma post_hook_runs_once_before_finish_witness :
  initialised (opentracing.sh_Option hookedServer) = true
  /\ opentracing.End_ hookedServer = Some noEnd
  /\ let j := added start
                (snd (opentracing.Serve env hookedServer None plainWriter get
                        start)) in
     let sp := serverSpan env hookedServer plainWriter get start in
     let r2 := http.WithSpan get sp in
     (exists pre : list Event,
        j = (pre ++ [CallServeHTTP 1 statusWriter r2]
             ++ [CallEnd statusWriter r2 sp; CallFinish sp])%list
        /\ count is_end_hook pre = 0 /\ count is_delegation pre = 0)
     /\ count is_end_hook j = 1
     /\ ext (snd (opentracing.Serve env hookedServer None plainWriter get start))
        = Finish env sp (noEnd statusWriter r2 sp (tick 3 404 boot)).
Proof.
  split; [reflexivity|]. split; [reflexivity|].
  exact (post_hook_runs_once_before_finish env hookedServer None plainWriter
           get start noEnd eq_refl eq_refl).
Defined.

(** X4 at work: a server and a client with the same option. *)
Lemma both_sides_tag_alike_witness :
  initialised (opentracing.sh_Option (tracedServer notFound)) = true
  /\ opentracing.rt_Option tracedClient
     = opentracing.sh_Option (tracedServer notFound)
  /\ opentracing.Start (tracedServer notFound) = None
  /\ filtered (opentracing.sh_Option (tracedServer notFound)) get = false
  /\ tagsOf (added start
               (snd (opentracing.Serve env (tracedServer notFound) None
                       plainWriter get start)))
     = [("http.method", "GET"); ("component", "net/http");
        ("http.url", "http://shop.test/widgets/42")]
  /\ tagsOf (added start (snd (opentracing.RoundTrip env tracedClient get start)))
     = [("http.url", "http://shop.test/widgets/42"); ("component", "net/http");
        ("http.method", "GET")]
  /\ tagsOf (added start
               (snd (opentracing.Serve env (tracedServer notFound) None
                       plainWriter get start)))
     ≡ₚ tagsOf (added start
                  (snd (opentracing.RoundTrip env tracedClient get start))).
Proof.
  do 4 (split; [reflexivity|]).
  exact (both_sides_tag_alike env (tracedServer notFound) None plainWriter
           tracedClient get start start eq_refl eq_refl eq_refl eq_refl).
Defined.

(** X6 at work: the traced client. *)
Lemma injection_failure_is_silent_witness :
  initialised (opentracing.rt_Option tracedClient) = true
  /\ filtered (opentracing.rt_Option tracedClient) get = false
  /\ opentracing.RoundTrip (uncomplainingEnv env) (uncomplainingClient tracedClient)
       get start
     = opentracing.RoundTrip env tracedClient get start
  /\ (exists e : Ext,
        List.filter is_round_trip
          (added start (snd (opentracing.RoundTrip env tracedClient get start)))
        = [CallRoundTrip (http.tid (transportOf env tracedClient e))
             (delegatedRequest env tracedClient get start)])
  /\ http.Method (delegatedRequest env tracedClient get start) = "GET"
  /\ http.Url (delegatedRequest env tracedClient get start) = widgets
  /\ http.SpanFromContext (delegatedRequest env tracedClient get start)
     = Some firstSpan
  /\ exists e : Ext,
       http.Header (delegatedRequest env tracedClient get start)
       = fst (fst (opentracing_go.Inject testTracer 101%N ∅ e)).
Proof.
  split; [reflexivity|]. split; [reflexivity|].
  exact (injection_failure_is_silent env tracedClient get start eq_refl eq_refl).
Defined.

(** X8 at work: a server literal that names its component, through the
    middleware. *)
Lemma explicit_component_name_wins_witness :
  filtered (opentracing.Init (opentracing.sh_Option namedServer)) get = false
  /\ tagsOf (added start
               (snd (opentracing.Middleware env namedServer None plainWriter get
                       start))) !! 1%nat
     = Some ("component", "gateway").
Proof.
  split; [reflexivity|].
  exact (explicit_component_name_wins env namedServer None plainWriter get start
           eq_refl).
Defined.

(** X9 at work: wrappers written as literals. *)
Lemma nil_filter_panics_before_any_call_witness :
  opentracing.SpanFilter (opentracing.sh_Option literalServer) = None
  /\ opentracing.SpanFilter (opentracing.rt_Option literalClient) = None
  /\ opentracing.Serve env literalServer None plainWriter get start
     = (Panic nil_dereference, start)
  /\ opentracing.ServeHTTP env literalServer plainWriter get start
     = (Panic nil_dereference, start)
  /\ opentracing.HandleHTTP env literalServer plainWriter get start
     = (Panic nil_dereference, start)
  /\ opentracing.RoundTrip env literalClient get start
     = (Panic nil_dereference, start)
  /\ count is_start_span
       (added start
          (snd (opentracing.Middleware env literalServer None plainWriter get
                  start))) = 1.
Proof.
  split; [reflexivity|]. split; [reflexivity|].
  exact (nil_filter_panics_before_any_call env literalServer None plainWriter
           get literalClient get start eq_refl eq_refl).
Defined.

(** X10 at work: wrappers whose option lacks the functions called after
    [StartSpan]. *)
Lemma nil_function_after_StartSpan_leaks_the_span_witness :
  is_Some (opentracing.SpanFilter (opentracing.sh_Option halfServer))
  /\ is_Some (opentracing.OperationNameFunc (opentracing.sh_Option halfServer))
  /\ filtered (opentracing.sh_Option halfServer) get = false
  /\ lacking (opentracing.sh_Option halfServer) = true
  /\ is_Some (opentracing.SpanFilter (opentracing.rt_Option halfClient))
  /\ is_Some (opentracing.OperationNameFunc (opentracing.rt_Option halfClient))
  /\ filtered (opentracing.rt_Option halfClient) get = false
  /\ lacking (opentracing.rt_Option halfClient) = true
  /\ (fst (opentracing.Serve env halfServer None plainWriter get start)
      = Panic nil_dereference
      /\ count is_start_span
           (added start
              (snd (opentracing.Serve env halfServer None plainWriter get start)))
         = 1
      /\ count is_finish
           (added start
              (snd (opentracing.Serve env halfServer None plainWriter get start)))
         = 0
      /\ count is_delegation
           (added start
              (snd (opentracing.Serve env halfServer None plainWriter get start)))
         = 0)
  /\ (fst (opentracing.RoundTrip env halfClient get start)
      = Panic nil_dereference
      /\ count is_start_span
           (added start (snd (opentracing.RoundTrip env halfClient get start)))
         = 1
      /\ count is_finish
           (added start (snd (opentracing.RoundTrip env halfClient get start)))
         = 0
      /\ count is_delegation
           (added start (snd (opentracing.RoundTrip env halfClient get start)))
         = 0).
Proof.
  split; [eexists; reflexivity|]. split; [eexists; reflexivity|].
  split; [reflexivity|]. split; [reflexivity|].
  split; [eexists; reflexivity|]. split; [eexists; reflexivity|].
  split; [reflexivity|]. split; [reflexivity|].
  exact (nil_function_after_StartSpan_leaks_the_span env halfServer None
           plainWriter get halfClient get start
           (ex_intro _ _ eq_refl) (ex_intro _ _ eq_refl) eq_refl eq_refl
           (ex_intro _ _ eq_refl) (ex_intro _ _ eq_refl) eq_refl eq_refl).
Defined.

(** X11 at work: the handler of a traced server sends the request it was
    given through a traced client. *)
Lemma handler_client_span_is_child_of_server_span_witness :
  initialised (opentracing.sh_Option (tracedServer notFound)) = true
  /\ filtered (opentracing.sh_Option (tracedServer notFound)) getTraced = false
  /\ initialised (opentracing.rt_Option tracedClient) = true
  /\ filtered (opentracing.rt_Option tracedClient)
       (servedRequest env (tracedServer notFound) plainWriter getTraced start)
     = false
  /\ http.Ctx (servedRequest env (tracedServer notFound) plainWriter getTraced
                 start)
     = http.Ctx (servedRequest env (tracedServer notFound) plainWriter getTraced
                   start)
  /\ List.filter is_delegation
       (added start
          (snd (opentracing.Serve env (tracedServer notFound) None plainWriter
                  getTraced start)))
     = [CallServeHTTP 1 plainWriter (http.WithSpan getTraced firstSpan)]
  /\ http.SpanFromContext
       (servedRequest env (tracedServer notFound) plainWriter getTraced start)
     = Some firstSpan
  /\ List.filter is_start_span
       (added start
          (snd (opentracing.RoundTrip env tracedClient
                  (servedRequest env (tracedServer notFound) plainWriter
                     getTraced start) start)))
     = [CallStartSpan "HTTP GET /widgets/42"
          [opentracing_go.ChildOf (Some 101%N)]]
  /\ opentracing_go.is_child_of 101%N
       (opentracing_go.apply_all [opentracing_go.ChildOf (Some 101%N)])
  /\ opentracing_go.Tags
       (opentracing_go.apply_all [opentracing_go.ChildOf (Some 101%N)])
     !! "span.kind" = None.
Proof.
  do 5 (split; [reflexivity|]).
  exact (handler_client_span_is_child_of_server_span env
           (tracedServer notFound) None plainWriter getTraced tracedClient
           (servedRequest env (tracedServer notFound) plainWriter getTraced
              start)
           start start eq_refl eq_refl eq_refl eq_refl eq_refl).
Defined.

(** The tracer of the concrete world reads back what it writes. *)
Lemma wireTracer_carries : carries wireTracer wireTracer.
Proof.
  intros sc carrier e e'. simpl. rewrite lookup_insert_eq. simpl.
  now rewrite length_replicate, N2Nat.id.
Qed.

(** X12 at work: a client and a server that share a tracer whose carrier
    can be read back. *)
Lemma server_span_is_child_of_client_span_witness :
  initialised (opentracing.rt_Option wireClient) = true
  /\ filtered (opentracing.rt_Option wireClient) get = false
  /\ initialised (opentracing.sh_Option wireServer) = true
  /\ filtered (opentracing.sh_Option wireServer)
       (onTheWire (delegatedRequest env wireClient get start)) = false
  /\ opentracing.Start wireServer = None
  /\ carries (tracerOf env (opentracing.rt_Option wireClient) (ext start))
       (tracerOf env (opentracing.sh_Option wireServer) (ext start))
  /\ (exists e : Ext,
        List.filter is_round_trip
          (added start (snd (opentracing.RoundTrip env wireClient get start)))
        = [CallRoundTrip (http.tid (transportOf env wireClient e))
             (delegatedRequest env wireClient get start)])
  /\ List.filter is_start_span
       (added start
          (snd (opentracing.Serve env wireServer None plainWriter
                  (onTheWire (delegatedRequest env wireClient get start))
                  start)))
     = [CallStartSpan "HTTP GET /widgets/42"
          [opentracing_go.RPCServerOption (Some 3%N)]]
  /\ opentracing_go.is_child_of 3%N
       (opentracing_go.apply_all [opentracing_go.RPCServerOption (Some 3%N)]).
Proof.
  do 5 (split; [reflexivity|]). split; [exact wireTracer_carries|].
  exact (server_span_is_child_of_client_span env wireClient get start
           wireServer None plainWriter start eq_refl eq_refl eq_refl eq_refl
           eq_refl wireTracer_carries).
Defined.

(** X13 at work: three requests through a new handler. *)
Lemma vectors_are_registered_once_for_all_requests_witness :
  prometheus_run.consistent (prometheus.this (fresh notFound))
  /\ count is_factory
       (added start (prometheus.world (serveAll env busy (fresh notFound)))) = 2
  /\ count is_inc
       (added start (prometheus.world (serveAll env busy (fresh notFound)))) = 3
  /\ count is_observe
       (added start (prometheus.world (serveAll env busy (fresh notFound)))) = 3
  /\ count is_delegation
       (added start (prometheus.world (serveAll env busy (fresh notFound)))) = 2
  /\ prometheus.sh_Option (prometheus.this (serveAll env busy (fresh notFound)))
     = prometheus.sh_Option (prometheus.this (fresh notFound)).
Proof.
  split; [apply new_handler_consistent|].
  exact (vectors_are_registered_once_for_all_requests env busy (fresh notFound)
           (new_handler_consistent (Some notFound))).
Defined.

(** X14 at work: the first request of a new handler. *)
Lemma first_request_registers_both_vectors_witness :
  prometheus.once (prometheus.this (fresh notFound)) = false
  /\ (exists (labels : gmap string string) (elapsed : Z),
        added start
          (prometheus.world
             (snd (prometheus.Serve env (Some notFound) statusWriter get
                     (fresh notFound))))
        = [CallNewCounterVec 0%N
             {| client_golang.Namespace := ""; client_golang.Subsystem := "";
                client_golang.Name := "http_requests_total";
                client_golang.Help := "The total number of the http requests";
                client_golang.Buckets := [] |} ["method"; "code"];
           CallNewHistogramVec 0%N
             {| client_golang.Namespace := ""; client_golang.Subsystem := "";
                client_golang.Name := "http_request_duration_seconds";
                client_golang.Help := "The duration to handle the http request";
                client_golang.Buckets := prometheus.DefaultHistogramBuckets |}
             ["method"; "code"];
           CallServeHTTP 1 statusWriter get;
           CallInc {| client_golang.cv := 1 |} labels;
           CallObserve {| client_golang.hv := 2 |} labels elapsed])
  /\ prometheus.this
       (snd (prometheus.Serve env (Some notFound) statusWriter get
               (fresh notFound)))
     = {| prometheus.sh_Handler := Some notFound;
          prometheus.sh_Option :=
            prometheus.sh_Option (prometheus.this (fresh notFound));
          prometheus.once := true;
          prometheus.labels := ["method"; "code"];
          prometheus.requestsTotal := Some {| client_golang.cv := 1 |};
          prometheus.requestDurations := Some {| client_golang.hv := 2 |} |}.
Proof.
  split; [reflexivity|].
  exact (first_request_registers_both_vectors env (Some notFound) statusWriter
           get (fresh notFound) eq_refl).
Defined.

(** X15 at work: another option assigned to a handler that has served a
    request. *)
Lemma option_is_read_at_the_first_request_only_witness :
  prometheus.once (prometheus.this warm) = true
  /\ let reconfigured :=
       {| prometheus.this := prometheus.set_Option pathOption
                               (prometheus.this warm);
          prometheus.world := prometheus.world warm |} in
     fst (prometheus.Serve env (Some failing) plainWriter get reconfigured)
     = fst (prometheus.Serve env (Some failing) plainWriter get warm)
     /\ prometheus.world
          (snd (prometheus.Serve env (Some failing) plainWriter get reconfigured))
        = prometheus.world
            (snd (prometheus.Serve env (Some failing) plainWriter get warm))
     /\ prometheus.this
          (snd (prometheus.Serve env (Some failing) plainWriter get reconfigured))
        = prometheus.set_Option pathOption
            (prometheus.this
               (snd (prometheus.Serve env (Some failing) plainWriter get warm))).
Proof.
  split; [reflexivity|].
  exact (option_is_read_at_the_first_request_only env (Some failing)
           plainWriter get warm pathOption eq_refl).
Defined.

(** The clock of the concrete world does not run backwards. *)
Lemma notFound_takes_time (e : Ext) :
  (Now env e
   <= Now env (snd (prometheus_run.delegate (Some notFound) statusWriter get e)))%Z.
Proof. simpl. lia. Qed.

Lemma Inc_takes_no_time (c : client_golang.CounterVec)
  (l : gmap string string) (e : Ext) :
  (Now env e <= Now env (Inc env c l e))%Z.
Proof. simpl. lia. Qed.

(** X18 at work: the first request of a new handler takes three ticks. *)
Lemma duration_excludes_the_registration_witness :
  prometheus_run.consistent (prometheus.this (fresh notFound))
  /\ (forall e : Ext,
        (Now env e
         <= Now env (snd (prometheus_run.delegate (Some notFound) statusWriter
                            get e)))%Z)
  /\ (forall (c : client_golang.CounterVec) (l : gmap string string) (e : Ext),
        (Now env e <= Now env (Inc env c l e))%Z)
  /\ exists (c : client_golang.CounterVec) (labels : gmap string string),
       observed
         (added start
            (prometheus.world
               (snd (prometheus.Serve env (Some notFound) statusWriter get
                       (fresh notFound)))))
       = [3%Z]
       /\ (0 <= 3 <= 3)%Z.
Proof.
  split; [apply new_handler_consistent|].
  split; [exact notFound_takes_time|]. split; [exact Inc_takes_no_time|].
  exact (duration_excludes_the_registration env (Some notFound) statusWriter
           get (fresh notFound) (new_handler_consistent (Some notFound))
           notFound_takes_time Inc_takes_no_time).
Defined.
